(** * Verification of the data-ingestion pipeline (src/data/data_ingestion.py)

    The pipeline reads a split fraction from a YAML file, downloads a CSV
    table, keeps the "happiness"/"sadness" rows and replaces their labels by
    1 and 0 (on a column taken from the table, which reaches the table only
    when pandas runs without copy-on-write), splits the table with
    scikit-learn and writes two CSV files.

    The development is a shallow embedding: Python objects that the code
    mutates (pandas DataFrames) live in a heap and are passed by reference;
    exceptions, the log and the file systems are threaded through a state and
    exception monad [Py].  pandas, PyYAML, numpy and scikit-learn are
    libraries the program calls; the operations it uses are modelled in the
    modules [Yaml], [Pandas], [Os], [Numpy] and [Sklearn] below.  The split
    fraction is a binary64 float; its product with the number of rows is
    taken and rounded up as the library does. *)

From Stdlib Require Import ZArith List String Ascii Floats Lia.
From stdpp Require Import base option list strings gmap.
Import ListNotations.
Open Scope string_scope.
Set Warnings "-register-all".

(** ** Python exceptions *)

Inductive exn : Type :=
| FileNotFoundError (filename : string)
| FileExistsError (filename : string)
| NotADirectoryError (filename : string)
| IsADirectoryError (filename : string)
| PermissionError (filename : string)
| UnicodeDecodeError
| URLError
| HTTPError (code : Z)
| KeyError (arg : string)
| TypeError
| ValueError
| OverflowError
| IndexError
| YAMLError
| EmptyDataError
| ParserError.

(** What a Python call does: return, raise, or (model only) touch a reference
    that is not live.  No handler catches [Stuck]. *)
Inductive outcome (A : Type) : Type :=
| Return (a : A)
| Raise (e : exn)
| Stuck.
Arguments Return {A} a.
Arguments Raise {A} e.
Arguments Stuck {A}.

#[global] Instance outcome_ret : MRet outcome := @Return.
#[global] Instance outcome_bind : MBind outcome :=
  fun A B k o =>
    match o with
    | Return a => k a
    | Raise e => Raise e
    | Stuck => Stuck
    end.

(** ** YAML documents as PyYAML's safe_load builds them *)
Module Yaml.

Inductive value : Type :=
| Null
| Bool (b : bool)
| Int (z : Z)
| Float (f : float)
| Str (s : string)
| Seq (items : list value)
| Map (items : list (string * value)).

(** [d[key]] on a dict. *)
Fixpoint dict_get (items : list (string * value)) (key : string) : option value :=
  match items with
  | [] => None
  | (k, v) :: rest => if String.eqb k key then Some v else dict_get rest key
  end.

(** The subscript [v[key]] with a string key: a dict raises KeyError(key) when
    the key is missing; every other document value raises TypeError. *)
Definition subscript (v : value) (key : string) : outcome value :=
  match v with
  | Map items =>
      match dict_get items key with
      | Some x => Return x
      | None => Raise (KeyError key)
      end
  | _ => Raise TypeError
  end.

End Yaml.

(** ** The part of pandas the pipeline uses *)
Module Pandas.

(** A cell of a table read from CSV. *)
Inductive value : Type :=
| VStr (s : string)
| VInt (z : Z)
| VNaN.

Definition value_eqb (a b : value) : bool :=
  match a, b with
  | VStr s, VStr t => String.eqb s t
  | VInt x, VInt y => Z.eqb x y
  | _, _ => false
  end.

(** A DataFrame is stored by column; [index] holds the row labels. *)
Record DataFrame : Type := mkDataFrame {
  index : list Z;
  columns : list (string * list value)
}.

Definition column_names (df : DataFrame) : list string := map fst (columns df).

Definition has_column (df : DataFrame) (c : string) : bool :=
  existsb (String.eqb c) (column_names df).

Definition mem (c : string) (l : list string) : bool := existsb (String.eqb c) l.

(** Python's repr of a list of plain strings, as in ['tweet_id']. *)
Fixpoint repr_items (l : list string) : string :=
  match l with
  | [] => ""
  | [x] => "'" ++ x ++ "'"
  | x :: rest => "'" ++ x ++ "', " ++ repr_items rest
  end.

Definition repr_list (l : list string) : string := "[" ++ repr_items l ++ "]".

(** [df.drop(columns=labels)]: KeyError listing the labels that are not
    columns, otherwise the frame without the columns so labelled. *)
Definition drop (labels : list string) (df : DataFrame) : outcome DataFrame :=
  match List.filter (fun l => negb (has_column df l)) labels with
  | [] =>
      Return (mkDataFrame (index df)
                (List.filter (fun c => negb (mem (fst c) labels)) (columns df)))
  | missing => Raise (KeyError (repr_list missing ++ " not found in axis"))
  end.

Fixpoint find_column (cols : list (string * list value)) (key : string)
  : option (list value) :=
  match cols with
  | [] => None
  | (k, vs) :: rest => if String.eqb k key then Some vs else find_column rest key
  end.

(** [df[key]] for a column label. *)
Definition getitem (df : DataFrame) (key : string) : outcome (list value) :=
  match find_column (columns df) key with
  | Some vs => Return vs
  | None => Raise (KeyError key)
  end.

(** [Series.isin(values)]. *)
Definition isin (values : list value) (s : list value) : list bool :=
  map (fun v => existsb (value_eqb v) values) s.

(** Selection of the positions where the boolean mask is True. *)
Fixpoint select {A : Type} (mask : list bool) (l : list A) : list A :=
  match mask, l with
  | b :: mask', x :: l' => if b then x :: select mask' l' else select mask' l'
  | _, _ => []
  end.

(** [df[mask]]: a new frame with the selected rows and their labels. *)
Definition boolean_index (df : DataFrame) (mask : list bool) : DataFrame :=
  mkDataFrame (select mask (index df))
              (map (fun c => (fst c, select mask (snd c))) (columns df)).

(** [Series.replace(mapping)] on one cell. *)
Fixpoint replace_value (mapping : list (value * value)) (v : value) : value :=
  match mapping with
  | [] => v
  | (k, r) :: rest => if value_eqb v k then r else replace_value rest v
  end.

Definition replace (mapping : list (value * value)) (s : list value) : list value :=
  map (replace_value mapping) s.

(** Writing a column back into its frame. *)
Definition set_column (df : DataFrame) (key : string) (vs : list value) : DataFrame :=
  mkDataFrame (index df)
              (map (fun c => if String.eqb (fst c) key then (fst c, vs) else c)
                   (columns df)).

Definition cell (vs : list value) (i : nat) : value := nth i vs VNaN.

(** Row [i] of the frame, one cell per column. *)
Definition row (df : DataFrame) (i : nat) : list value :=
  map (fun c => cell (snd c) i) (columns df).

Definition rows (df : DataFrame) : list (list value) :=
  map (row df) (seq 0 (length (index df))).

(** [df.iloc[positions]]: IndexError on a position out of bounds. *)
Fixpoint take_positions {A : Type} (l : list A) (positions : list nat) : option (list A) :=
  match positions with
  | [] => Some []
  | p :: rest =>
      match nth_error l p, take_positions l rest with
      | Some x, Some xs => Some (x :: xs)
      | _, _ => None
      end
  end.

Definition iloc (df : DataFrame) (positions : list nat) : outcome DataFrame :=
  match take_positions (index df) positions with
  | None => Raise IndexError
  | Some idx =>
      Return (mkDataFrame idx
                (map (fun c => (fst c, map (cell (snd c)) positions)) (columns df)))
  end.

(** The content of a delimited file: a header line and the records. *)
Record csv : Type := mkCsv {
  header : list string;
  records : list (list value)
}.

(** [df.to_csv(path, index=...)]: with [index=True] the row labels form a
    leading column with an empty name. *)
Definition to_csv (df : DataFrame) (with_index : bool) : csv :=
  if with_index
  then mkCsv ("" :: column_names df)
             (map (fun p => VInt (fst p) :: snd p) (combine (index df) (rows df)))
  else mkCsv (column_names df) (rows df).

(** The frames read_csv builds: distinct column names, columns as long as
    the index. *)
Definition well_formed (df : DataFrame) : Prop :=
  NoDup (column_names df) /\
  Forall (fun c => length (snd c) = length (index df)) (columns df).

(** pd.options.mode.copy_on_write, which decides whether a column taken from
    a frame shares its data with the frame.  The program does not set it:
    it is off by default up to pandas 2 and always on from pandas 3. *)
Class Mode : Type := { copy_on_write : bool }.

(** Whether read_csv takes its argument for a URL, by its scheme: the
    schemes a dataset location has in practice, of those urllib knows.  The
    program's own location is an https URL. *)
Definition is_url (location : string) : bool :=
  existsb (fun scheme => String.prefix scheme location)
          ["http://"; "https://"; "ftp://"; "file://"].

End Pandas.

(** ** numpy's generators *)
Module Numpy.

(** The state of a Mersenne Twister (its key and its position), as a
    number. *)
Definition state : Type := Z.

(** [RandomState(seed)], a generator freshly seeded, and
    [rng.permutation(n)], which returns a shuffle of 0..n-1 and leaves the
    generator advanced.  The Mersenne Twister itself is outside this
    development: the results hold for every generator, under the library's
    guarantee [permutes]. *)
Class RandomState : Type := {
  seeded : Z -> state;
  permutation_from : state -> nat -> list nat * state
}.

(** [RandomState(seed).permutation(n)]. *)
Definition permutation `{RandomState} (seed : Z) (n : nat) : list nat :=
  fst (permutation_from (seeded seed) n).

Definition permutes `{RandomState} (seed : Z) (n : nat) : Prop :=
  Permutation (permutation seed n) (seq 0 n).

(** A generator to run the model with: the rotation of 0..n-1 by the state,
    which every draw advances by one. *)
Definition rotation (seed : Z) (n : nat) : list nat :=
  let k := Z.to_nat (seed mod Z.of_nat (Nat.max n 1)) in
  List.skipn k (seq 0 n) ++ List.firstn k (seq 0 n).

(** Python's [l[start:stop]] for integers of either sign. *)
Definition clamp (i : Z) (len : nat) : nat :=
  if (i <? 0)%Z then Z.to_nat (Z.max (i + Z.of_nat len) 0)
  else Nat.min (Z.to_nat i) len.

Definition slice {A : Type} (l : list A) (start stop : Z) : list A :=
  let a := clamp start (length l) in
  let b := clamp stop (length l) in
  List.firstn (b - a) (List.skipn a l).

End Numpy.

(** ** The world the program runs in *)

(** What [open(path, 'r')] and yaml.safe_load find at a path: a directory,
    a file that may not be read, bytes that are not text in the encoding,
    text that is not YAML, or a YAML document. *)
Inductive text_file : Type :=
| Directory
| Unreadable
| Undecodable
| Unparseable
| Document (v : Yaml.value).

(** What pd.read_csv finds at a location.  [FetchFails] carries the error of
    a fetch that fails, such as HTTPError 404 or PermissionError. *)
Inductive fetch : Type :=
| FetchEmpty
| FetchMalformed
| FetchFails (e : exn)
| FetchTable (df : Pandas.DataFrame).

(** An entry of the destination file system. *)
Inductive node : Type :=
| Dir
| File (content : Pandas.csv).

Inductive level : Type := INFO | ERROR.

(** The calls to logging.info and logging.error of the program, one
    constructor per message with the values it formats. *)
Inductive message : Type :=
| Loaded_test_size (test_size : Yaml.value) (params_path : string)
| File_not_found (params_path : string)
| Invalid_structure (params_path : string)
| YAML_error (params_path : string) (e : exn)
| Data_loaded (url : string)
| No_data_found (url : string)
| Error_parsing_CSV (url : string)
| Unexpected_error_reading (url : string) (e : exn)
| Data_processing_complete
| Column_missing (e : exn)
| Error_processing_data (e : exn)
| Data_saved (data_path : string)
| Error_saving_data (data_path : string) (e : exn)
| Pipeline_started
| Data_split (test_size : Yaml.value)
| Pipeline_error (e : exn)
| Pipeline_finished.

Definition loc : Type := nat.

Record World : Type := mkWorld {
  heap : list Pandas.DataFrame;          (* live DataFrame objects *)
  configs : gmap string text_file;       (* readable text files *)
  sources : gmap string fetch;           (* CSV locations, local or remote *)
  disk : gmap string node;               (* destination store *)
  log : list (level * message);          (* ml_pipeline.log, oldest first *)
  generator : Numpy.state                (* np.random's global RandomState *)
}.

(** Updates of one component of the world. *)
Definition with_heap (h : list Pandas.DataFrame) (w : World) : World :=
  mkWorld h (configs w) (sources w) (disk w) (log w) (generator w).

Definition with_disk (d : gmap string node) (w : World) : World :=
  mkWorld (heap w) (configs w) (sources w) d (log w) (generator w).

Definition with_log (l : list (level * message)) (w : World) : World :=
  mkWorld (heap w) (configs w) (sources w) (disk w) l (generator w).

Definition with_generator (g : Numpy.state) (w : World) : World :=
  mkWorld (heap w) (configs w) (sources w) (disk w) (log w) g.

Definition logged (lv : level) (m : message) (w : World) : World :=
  with_log (log w ++ [(lv, m)]) w.

(** ** The monad of Python computations *)

Definition Py (A : Type) : Type := World -> outcome A * World.

Definition ret {A : Type} (a : A) : Py A := fun w => (Return a, w).

Definition bind {A B : Type} (m : Py A) (k : A -> Py B) : Py B :=
  fun w =>
    match m w with
    | (Return a, w') => k a w'
    | (Raise e, w') => (Raise e, w')
    | (Stuck, w') => (Stuck, w')
    end.

#[global] Instance Py_ret : MRet Py := @ret.
#[global] Instance Py_bind : MBind Py := fun A B k m => bind m k.

Definition raise {A : Type} (e : exn) : Py A := fun w => (Raise e, w).

Definition lift {A : Type} (o : outcome A) : Py A := fun w => (o, w).

(** [try: body except ...: handler].  [handler e] is [None] when no except
    clause matches [e]. *)
Definition try_except {A : Type} (body : Py A) (handler : exn -> option (Py A)) : Py A :=
  fun w =>
    match body w with
    | (Raise e, w') =>
        match handler e with
        | Some h => h w'
        | None => (Raise e, w')
        end
    | r => r
    end.

Definition logging_info (m : message) : Py unit := fun w => (Return tt, logged INFO m w).
Definition logging_error (m : message) : Py unit := fun w => (Return tt, logged ERROR m w).

(** Heap access. *)
Definition load (l : loc) : Py Pandas.DataFrame :=
  fun w => match heap w !! l with
           | Some df => (Return df, w)
           | None => (Stuck, w)
           end.

Definition store (l : loc) (df : Pandas.DataFrame) : Py unit :=
  fun w => match heap w !! l with
           | Some _ => (Return tt, with_heap (<[l := df]> (heap w)) w)
           | None => (Stuck, w)
           end.

Definition new (df : Pandas.DataFrame) : Py loc :=
  fun w => (Return (length (heap w)), with_heap (heap w ++ [df]) w).

(** ** os.path.join and os.makedirs *)
Module Os.

Definition starts_with_sep (s : string) : bool :=
  match s with
  | String c _ => Ascii.eqb c "/"%char
  | EmptyString => false
  end.

Fixpoint ends_with_sep (s : string) : bool :=
  match s with
  | EmptyString => false
  | String c EmptyString => Ascii.eqb c "/"%char
  | String _ rest => ends_with_sep rest
  end.

(** posixpath.join of two components. *)
Definition path_join (a b : string) : string :=
  if starts_with_sep b then b
  else if String.eqb a "" then b
  else if ends_with_sep a then a ++ b
  else a ++ "/" ++ b.

Definition directory (seen : string) : list string :=
  if String.eqb seen "" || ends_with_sep seen then [] else [seen].

(** The directories [makedirs] walks through, outermost first: every prefix
    of the path that ends before a separator, then the path itself. *)
Fixpoint prefixes (seen rest : string) : list string :=
  match rest with
  | EmptyString => directory seen
  | String c rest' =>
      if Ascii.eqb c "/"%char
      then directory seen ++ prefixes (seen ++ "/") rest'
      else prefixes (seen ++ String c EmptyString) rest'
  end.

(** Creation of the missing directories.  A regular file in the way is an
    error: FileExistsError when it is the path itself, otherwise
    NotADirectoryError for the directory that mkdir could not create under
    it. *)
Fixpoint mkdirs (dirs : list string) (d : gmap string node)
  : outcome (gmap string node) :=
  match dirs with
  | [] => Return d
  | p :: rest =>
      match d !! p with
      | Some (File _) =>
          Raise (match rest with
                 | [] => FileExistsError p
                 | q :: _ => NotADirectoryError q
                 end)
      | Some Dir => mkdirs rest d
      | None => mkdirs rest (<[p := Dir]> d)
      end
  end.

(** [os.makedirs(path, exist_ok=True)]. *)
Definition makedirs (path : string) : Py unit :=
  fun w =>
    if String.eqb path "" then (Raise (FileNotFoundError path), w)
    else
      match mkdirs (prefixes "" path) (disk w) with
      | Return d => (Return tt, with_disk d w)
      | Raise e => (Raise e, w)
      | Stuck => (Stuck, w)
      end.

End Os.

(** ** sklearn.model_selection.train_test_split *)
Module Sklearn.

(** The kind of [np.asarray(x).dtype]. *)
Inductive dtype_kind : Type := kind_i | kind_f | kind_b | kind_U | kind_O.

Definition scalar_kind (v : Yaml.value) : dtype_kind :=
  match v with
  | Yaml.Bool _ => kind_b
  | Yaml.Int _ => kind_i
  | Yaml.Float _ => kind_f
  | Yaml.Str _ => kind_U
  | _ => kind_O
  end.

(** numpy's promotion of two element kinds. *)
Definition promote (a b : dtype_kind) : dtype_kind :=
  match a, b with
  | kind_O, _ | _, kind_O => kind_O
  | kind_U, _ | _, kind_U => kind_U
  | kind_f, _ | _, kind_f => kind_f
  | kind_i, _ | _, kind_i => kind_i
  | kind_b, kind_b => kind_b
  end.

(** An empty list is a float64 array; a list of scalars has the promoted kind
    (containers inside a list are counted as objects). *)
Definition kind (v : Yaml.value) : dtype_kind :=
  match v with
  | Yaml.Seq [] => kind_f
  | Yaml.Seq (x :: rest) => fold_left promote (map scalar_kind rest) (scalar_kind x)
  | _ => scalar_kind v
  end.

(** Python's [float(n)] for an int: the nearest binary64. *)
Definition float_of_Z (z : Z) : float :=
  SF2Prim (binary_normalize prec emax z 0 false).

(** [math.ceil(x)]: -floor(-x) on the exact value of the float. *)
Definition ceil (x : float) : outcome Z :=
  match Prim2SF x with
  | S754_zero _ => Return 0%Z
  | S754_finite s m e =>
      let signed := if s then Z.neg m else Z.pos m in
      Return (if (0 <=? e)%Z then signed * 2 ^ e
              else - ((- signed) / 2 ^ (- e)))%Z
  | S754_infinity _ => Raise OverflowError
  | S754_nan => Raise ValueError
  end.

(** [_validate_shuffle_split(n_samples, test_size, train_size=None,
    default_test_size=0.25)]: the sizes (n_train, n_test). *)
Definition validate_shuffle_split (n_samples : Z) (test_size : Yaml.value)
  : outcome (Z * Z) :=
  let test_size :=
    match test_size with Yaml.Null => Yaml.Float 0.25%float | v => v end in
  match test_size with
  | Yaml.Int z =>
      if ((n_samples <=? z) || (z <=? 0))%Z then Raise ValueError
      else
        let n_test := z in
        let n_train := (n_samples - n_test)%Z in
        if (n_samples <? n_train + n_test)%Z then Raise ValueError
        else if (n_train =? 0)%Z then Raise ValueError
        else Return (n_train, n_test)
  | Yaml.Float f =>
      if ((f <=? 0) || (1 <=? f))%float then Raise ValueError
      else
        n_test ← ceil (f * float_of_Z n_samples)%float;
        let n_train := (n_samples - n_test)%Z in
        if (n_samples <? n_train + n_test)%Z then Raise ValueError
        else if (n_train =? 0)%Z then Raise ValueError
        else Return (n_train, n_test)
  | v =>
      match kind v with
      | kind_i | kind_f => Raise TypeError   (* a list compared with a number *)
      | _ => Raise ValueError
      end
  end.

(** ShuffleSplit's index arrays, then the two selections of the table, with
    an integer [random_state]: check_random_state makes a generator of its
    own, seeded with it. *)
Definition split `{Numpy.RandomState} (df : Pandas.DataFrame)
    (test_size : Yaml.value) (random_state : Z)
  : outcome (Pandas.DataFrame * Pandas.DataFrame) :=
  let n_samples := length (Pandas.index df) in
  sizes ← validate_shuffle_split (Z.of_nat n_samples) test_size;
  let n_train := fst sizes in
  let n_test := snd sizes in
  let permutation := Numpy.permutation random_state n_samples in
  let ind_test := Numpy.slice permutation 0 n_test in
  let ind_train := Numpy.slice permutation n_test (n_test + n_train) in
  train ← Pandas.iloc df ind_train;
  test ← Pandas.iloc df ind_test;
  mret (train, test).

(** The same with [random_state=None], the default: check_random_state
    hands out numpy's global generator, whose state [g] the permutation is
    drawn from and advances. *)
Definition split_unseeded `{Numpy.RandomState} (df : Pandas.DataFrame)
    (test_size : Yaml.value) (g : Numpy.state)
  : outcome (Pandas.DataFrame * Pandas.DataFrame) * Numpy.state :=
  let n_samples := length (Pandas.index df) in
  match validate_shuffle_split (Z.of_nat n_samples) test_size with
  | Return sizes =>
      let n_train := fst sizes in
      let n_test := snd sizes in
      let drawn := Numpy.permutation_from g n_samples in
      let permutation := fst drawn in
      let ind_test := Numpy.slice permutation 0 n_test in
      let ind_train := Numpy.slice permutation n_test (n_test + n_train) in
      (train ← Pandas.iloc df ind_train;
       test ← Pandas.iloc df ind_test;
       mret (train, test),
       snd drawn)
  | Raise e => (Raise e, g)
  | Stuck => (Stuck, g)
  end.

(** [train_test_split(arr, test_size=..., random_state=...)] on a DataFrame
    object: two new frames, the argument is not modified. *)
Definition train_test_split `{Numpy.RandomState} (arr : loc)
    (test_size : Yaml.value) (random_state : option Z) : Py (loc * loc) :=
  df ← load arr;
  parts ← match random_state with
          | Some seed => lift (split df test_size seed)
          | None =>
              fun w =>
                let r := split_unseeded df test_size (generator w) in
                (fst r, with_generator (snd r) w)
          end;
  train ← new (fst parts);
  test ← new (snd parts);
  mret (train, test).

End Sklearn.

(** ** The program *)

(** [with open(path, 'r') as file: yaml.safe_load(file)]. *)
Definition yaml_safe_load (path : string) : Py Yaml.value :=
  fun w =>
    match configs w !! path with
    | None => (Raise (FileNotFoundError path), w)
    | Some Directory => (Raise (IsADirectoryError path), w)
    | Some Unreadable => (Raise (PermissionError path), w)
    | Some Undecodable => (Raise UnicodeDecodeError, w)
    | Some Unparseable => (Raise YAMLError, w)
    | Some (Document v) => (Return v, w)
    end.

(** The try block of load_params. *)
Definition load_params_body (params_path : string) : Py Yaml.value :=
  params ← yaml_safe_load params_path;
  section ← lift (Yaml.subscript params "data_ingestion");
  test_size ← lift (Yaml.subscript section "test_size");
  logging_info (Loaded_test_size test_size params_path);;
  mret test_size.

Definition load_params (params_path : string) : Py Yaml.value :=
  try_except (load_params_body params_path)
    (fun e =>
       match e with
       | FileNotFoundError _ =>
           Some (logging_error (File_not_found params_path);; raise e)
       | KeyError _ =>
           Some (logging_error (Invalid_structure params_path);; raise e)
       | YAMLError =>
           Some (logging_error (YAML_error params_path e);; raise e)
       | _ => None
       end).

(** The error of pd.read_csv at a location where nothing is: a URL is
    fetched with urllib, which raises URLError when it gets no answer; a path
    is opened, which raises FileNotFoundError. *)
Definition nothing_there (url : string) : exn :=
  if Pandas.is_url url then URLError else FileNotFoundError url.

Definition read_csv (url : string) : Py loc :=
  fun w =>
    match sources w !! url with
    | None => (Raise (nothing_there url), w)
    | Some FetchEmpty => (Raise EmptyDataError, w)
    | Some FetchMalformed => (Raise ParserError, w)
    | Some (FetchFails e) => (Raise e, w)
    | Some (FetchTable df) => new df w
    end.

(** The try block of read_data. *)
Definition read_data_body (url : string) : Py loc :=
  df ← read_csv url;
  logging_info (Data_loaded url);;
  mret df.

Definition read_data (url : string) : Py loc :=
  try_except (read_data_body url)
    (fun e =>
       match e with
       | EmptyDataError => Some (logging_error (No_data_found url);; raise e)
       | ParserError => Some (logging_error (Error_parsing_CSV url);; raise e)
       | _ => Some (logging_error (Unexpected_error_reading url e);; raise e)
       end).

Definition happiness_sadness : list Pandas.value :=
  [Pandas.VStr "happiness"; Pandas.VStr "sadness"].

Definition recoding : list (Pandas.value * Pandas.value) :=
  [(Pandas.VStr "happiness", Pandas.VInt 1); (Pandas.VStr "sadness", Pandas.VInt 0)].

(** The try block of process_data.  [final_df['sentiment']] is a Series of
    its own, and replace(..., inplace=True) is called on that Series.
    Without copy-on-write the Series is a cached view of the column, and
    pandas writes the replaced values back into final_df (with a warning).
    With copy-on-write the Series is a temporary: the replacement changes it
    alone, and final_df keeps the column it had. *)
Definition process_data_body `{Pandas.Mode} (df : loc) : Py loc :=
  d ← load df;
  d' ← lift (Pandas.drop ["tweet_id"] d);
  store df d';;
  d ← load df;
  sentiment ← lift (Pandas.getitem d "sentiment");
  final_df ← new (Pandas.boolean_index d (Pandas.isin happiness_sadness sentiment));
  f ← load final_df;
  column ← lift (Pandas.getitem f "sentiment");
  let replaced := Pandas.replace recoding column in
  (if Pandas.copy_on_write then mret tt
   else store final_df (Pandas.set_column f "sentiment" replaced));;
  logging_info Data_processing_complete;;
  mret final_df.

Definition process_data `{Pandas.Mode} (df : loc) : Py loc :=
  try_except (process_data_body df)
    (fun e =>
       match e with
       | KeyError _ => Some (logging_error (Column_missing e);; raise e)
       | _ => Some (logging_error (Error_processing_data e);; raise e)
       end).

(** Opening [path] for writing and filling it. *)
Definition write_file (path : string) (content : Pandas.csv) : Py unit :=
  fun w =>
    match disk w !! path with
    | Some Dir => (Raise (IsADirectoryError path), w)
    | _ => (Return tt, with_disk (<[path := File content]> (disk w)) w)
    end.

(** [df.to_csv(path, index=...)]. *)
Definition to_csv (df : loc) (path : string) (with_index : bool) : Py unit :=
  d ← load df;
  write_file path (Pandas.to_csv d with_index).

(** The try block of save_data. *)
Definition save_data_body (data_path : string) (train_data test_data : loc) : Py unit :=
  Os.makedirs data_path;;
  to_csv train_data (Os.path_join data_path "train.csv") false;;
  to_csv test_data (Os.path_join data_path "test.csv") false;;
  logging_info (Data_saved data_path).

Definition save_data (data_path : string) (train_data test_data : loc) : Py unit :=
  try_except (save_data_body data_path train_data test_data)
    (fun e => Some (logging_error (Error_saving_data data_path e);; raise e)).

Definition dataset_url : string :=
  "https://raw.githubusercontent.com/campusx-official/jupyter-masterclass/main/tweet_emotions.csv".

(** The try block of main: the stages in order. *)
Definition pipeline `{Numpy.RandomState} `{Pandas.Mode} : Py unit :=
  test_size ← load_params "params.yaml";
  df ← read_data dataset_url;
  final_df ← process_data df;
  parts ← Sklearn.train_test_split final_df test_size (Some 42%Z);
  logging_info (Data_split test_size);;
  let data_path := Os.path_join "data" "raw" in
  save_data data_path (fst parts) (snd parts).

Definition main `{Numpy.RandomState} `{Pandas.Mode} : Py unit :=
  logging_info Pipeline_started;;
  try_except pipeline (fun e => Some (logging_error (Pipeline_error e)));;
  logging_info Pipeline_finished.

(** ** The specification's reading of the stages, row by row *)
Module Spec.

(** A record: the cells of one row under their column names. *)
Definition record : Type := list (string * Pandas.value).

Definition record_at (cols : list (string * list Pandas.value)) (i : nat) : record :=
  map (fun c => (fst c, Pandas.cell (snd c) i)) cols.

Definition records (df : Pandas.DataFrame) : list record :=
  map (record_at (Pandas.columns df)) (seq 0 (length (Pandas.index df))).

Fixpoint field (r : record) (name : string) : option Pandas.value :=
  match r with
  | [] => None
  | (k, v) :: rest => if String.eqb k name then Some v else field rest name
  end.

Definition has_label (r : record) (s : string) : bool :=
  match field r "sentiment" with
  | Some (Pandas.VStr t) => String.eqb t s
  | _ => false
  end.

(** The rows that are kept. *)
Definition retained (r : record) : bool :=
  has_label r "happiness" || has_label r "sadness".

(** "happiness" becomes 1, "sadness" becomes 0. *)
Definition recode_label (v : Pandas.value) : Pandas.value :=
  match v with
  | Pandas.VStr s =>
      if String.eqb s "happiness" then Pandas.VInt 1
      else if String.eqb s "sadness" then Pandas.VInt 0
      else v
  | _ => v
  end.

Definition recode (r : record) : record :=
  map (fun kv => if String.eqb (fst kv) "sentiment"
                 then (fst kv, recode_label (snd kv)) else kv) r.

Definition without_id (r : record) : record :=
  List.filter (fun kv => negb (String.eqb (fst kv) "tweet_id")) r.

(** Drop the identifier (the column tweet_id of the program) and keep the
    rows with one of the two labels in their order. *)
Definition filtered (rs : list record) : list record :=
  List.filter retained (map without_id rs).

(** Drop the identifier, keep the rows with one of the two labels in their
    order, recode the label, leave every other field as it is. *)
Definition filterAndRecode (rs : list record) : list record :=
  map recode (filtered rs).

(** Rounding of a float to the nearest integer (ties to the even one), as
    Python's [round] does. *)
Definition round (x : float) : outcome Z :=
  match Prim2SF x with
  | S754_zero _ => Return 0%Z
  | S754_finite s m e =>
      let magnitude :=
        if (0 <=? e)%Z then (Z.pos m * 2 ^ e)%Z
        else
          let d := (2 ^ (- e))%Z in
          let q := (Z.pos m / d)%Z in
          let r := (Z.pos m mod d)%Z in
          match (2 * r ?= d)%Z with
          | Lt => q
          | Gt => (q + 1)%Z
          | Eq => if Z.even q then q else (q + 1)%Z
          end in
      Return (if s then (- magnitude)%Z else magnitude)
  | S754_infinity _ => Raise OverflowError
  | S754_nan => Raise ValueError
  end.

(** The rows of a table, each with its row label. *)
Definition entries (df : Pandas.DataFrame) : list (Z * record) :=
  combine (Pandas.index df) (records df).

End Spec.

(** The frames process_data leaves behind: the caller's table without its
    tweet_id column, and the table it returns. *)
Definition without_tweet_id (T : Pandas.DataFrame) : Pandas.DataFrame :=
  Pandas.mkDataFrame (Pandas.index T)
    (List.filter (fun c => negb (Pandas.mem (fst c) ["tweet_id"])) (Pandas.columns T)).

(** The table that process_data returns: the rows with one of the two
    labels; their labels are recoded where the replacement reaches the
    table, that is without copy-on-write. *)
Definition final_frame `{Pandas.Mode} (T : Pandas.DataFrame) : Pandas.DataFrame :=
  match Pandas.find_column (Pandas.columns T) "sentiment" with
  | Some sentiment =>
      let mask := Pandas.isin happiness_sadness sentiment in
      let kept := Pandas.boolean_index (without_tweet_id T) mask in
      if Pandas.copy_on_write then kept
      else Pandas.set_column kept "sentiment"
             (Pandas.replace recoding (Pandas.select mask sentiment))
  | None => without_tweet_id T
  end.

(** The numbers of rows (train, test) of a split. *)
Definition sizes (r : outcome (Pandas.DataFrame * Pandas.DataFrame)) : outcome (nat * nat) :=
  match r with
  | Return (train, test) =>
      Return (length (Pandas.index train), length (Pandas.index test))
  | Raise e => Raise e
  | Stuck => Stuck
  end.

(** The rows of a table at the given positions, with their labels. *)
Definition at_positions (T : Pandas.DataFrame) (positions : list nat) : Pandas.DataFrame :=
  Pandas.mkDataFrame (map (fun p => nth p (Pandas.index T) 0%Z) positions)
    (map (fun c => (fst c, map (Pandas.cell (snd c)) positions)) (Pandas.columns T)).

(** The file at [path] of the destination store, if there is one. *)
Definition written (w : World) (path : string) : option Pandas.csv :=
  match disk w !! path with
  | Some (File c) => Some c
  | _ => None
  end.

(** The record has one of [labels] under sentiment. *)
Definition labelled (labels : list Pandas.value) (r : Spec.record) : Prop :=
  exists v, Spec.field r "sentiment" = Some v /\ In v labels.

(** A written table with the columns [names] and labels among [labels]: the
    header is exactly [names] (no column for the row labels), every record
    has one field per column, and the field under sentiment is one of
    [labels]. *)
Definition labelled_table (labels : list Pandas.value) (names : list string)
    (c : Pandas.csv) : Prop :=
  Pandas.header c = names /\
  Forall (fun r => length r = length names) (Pandas.records c) /\
  Forall (fun r => labelled labels (combine names r)) (Pandas.records c).

(** The labels of the rows that are kept, as read and as recoded. *)
Definition recoded_labels : list Pandas.value := [Pandas.VInt 1; Pandas.VInt 0].

Definition kept_labels : list Pandas.value :=
  (happiness_sadness ++ recoded_labels)%list.

(** A kept record as process_data returns it. *)
Definition as_returned `{Pandas.Mode} (r : Spec.record) : Spec.record :=
  if Pandas.copy_on_write then r else Spec.recode r.

(** The labels process_data leaves in the table it returns. *)
Definition returned_labels `{Pandas.Mode} : list Pandas.value :=
  if Pandas.copy_on_write then happiness_sadness else recoded_labels.

(** Nothing in the destination store stands in the way of save_data: no
    regular file where a directory is needed, no directory where a file is
    written. *)
Definition destination_free (d : gmap string node) : Prop :=
  (forall p c, In p (Os.prefixes "" "data/raw") -> d !! p <> Some (File c)) /\
  d !! "data/raw/train.csv" <> Some Dir /\
  d !! "data/raw/test.csv" <> Some Dir.

(** The tables a computation returned, read from the heap it left. *)
Definition tables (r : outcome (loc * loc) * World)
  : outcome (option Pandas.DataFrame * option Pandas.DataFrame) :=
  match fst r with
  | Return (a, b) => Return (heap (snd r) !! a, heap (snd r) !! b)
  | Raise e => Raise e
  | Stuck => Stuck
  end.

(** Auxiliary views of a list of columns: every column without its first
    cell, and every column filtered by a mask. *)
Definition tails (cols : list (string * list Pandas.value))
  : list (string * list Pandas.value) :=
  map (fun c => (fst c, tl (snd c))) cols.

Definition select_columns (mask : list bool) (cols : list (string * list Pandas.value))
  : list (string * list Pandas.value) :=
  map (fun c => (fst c, Pandas.select mask (snd c))) cols.

(** The except clauses of the components: log a message, then [raise]. *)
Definition log_and_reraise {A : Type} (lv : level) (m : message) (e : exn) : Py A :=
  (match lv with INFO => logging_info m | ERROR => logging_error m end);; raise e.

Definition reraises {A : Type} (handler : exn -> option (Py A)) : Prop :=
  forall e, handler e = None \/ exists lv m, handler e = Some (log_and_reraise lv m e).

(** What opening and parsing the file at [path] gives. *)
Definition opened (path : string) (found : option text_file) : outcome Yaml.value :=
  match found with
  | None => Raise (FileNotFoundError path)
  | Some Directory => Raise (IsADirectoryError path)
  | Some Unreadable => Raise (PermissionError path)
  | Some Undecodable => Raise UnicodeDecodeError
  | Some Unparseable => Raise YAMLError
  | Some (Document v) => Return v
  end.

(** [params['data_ingestion']['test_size']] on a parsed document. *)
Definition test_size_of (doc : Yaml.value) : outcome Yaml.value :=
  section ← Yaml.subscript doc "data_ingestion";
  Yaml.subscript section "test_size".

(** The document lacks the nested key data_ingestion.test_size: [k] is the
    key that a mapping on the path does not have. *)
Inductive key_missing : Yaml.value -> string -> Prop :=
| missing_data_ingestion (items : list (string * Yaml.value)) :
    Yaml.dict_get items "data_ingestion" = None ->
    key_missing (Yaml.Map items) "data_ingestion"
| missing_test_size (items section : list (string * Yaml.value)) :
    Yaml.dict_get items "data_ingestion" = Some (Yaml.Map section) ->
    Yaml.dict_get section "test_size" = None ->
    key_missing (Yaml.Map items) "test_size".


(** ** Concrete inputs *)

(** The ten-row table of the specification's scenario. *)
Definition scenario_labels : list string :=
  ["happiness"; "sadness"; "neutral"; "happiness"; "sadness";
   "happiness"; "neutral"; "sadness"; "happiness"; "sadness"].

Definition scenario_table : Pandas.DataFrame :=
  Pandas.mkDataFrame (map Z.of_nat (seq 0 10))
    [("tweet_id", map (fun i => Pandas.VInt (1956967341 + Z.of_nat i)) (seq 0 10));
     ("sentiment", map Pandas.VStr scenario_labels);
     ("content", map Pandas.VStr ["a"; "b"; "c"; "d"; "e"; "f"; "g"; "h"; "i"; "j"])].

(** A table with a column beyond the identifier, the text and the label. *)
Definition four_column_table : Pandas.DataFrame :=
  Pandas.mkDataFrame [0; 1; 2; 3]%Z
    [("tweet_id", [Pandas.VInt 1; Pandas.VInt 2; Pandas.VInt 3; Pandas.VInt 4]);
     ("text", [Pandas.VStr "a"; Pandas.VStr "b"; Pandas.VStr "c"; Pandas.VStr "d"]);
     ("sentiment", [Pandas.VStr "happiness"; Pandas.VStr "sadness";
                    Pandas.VStr "sadness"; Pandas.VStr "happiness"]);
     ("author", [Pandas.VStr "p"; Pandas.VStr "q"; Pandas.VStr "r"; Pandas.VStr "s"])].

(** A table without any "happiness" or "sadness" row. *)
Definition neutral_table : Pandas.DataFrame :=
  Pandas.mkDataFrame [0; 1]%Z
    [("tweet_id", [Pandas.VInt 7; Pandas.VInt 8]);
     ("sentiment", [Pandas.VStr "neutral"; Pandas.VStr "worry"]);
     ("content", [Pandas.VStr "ok"; Pandas.VStr "hm"])].

(** A table with exactly the columns id, text and sentiment. *)
Definition id_text_sentiment_table : Pandas.DataFrame :=
  Pandas.mkDataFrame [0; 1]%Z
    [("id", [Pandas.VInt 7; Pandas.VInt 8]);
     ("text", [Pandas.VStr "so glad"; Pandas.VStr "so sad"]);
     ("sentiment", [Pandas.VStr "happiness"; Pandas.VStr "sadness"])].

(** A table with the columns tweet_id and sentiment only. *)
Definition tweet_id_sentiment_table : Pandas.DataFrame :=
  Pandas.mkDataFrame [0; 1]%Z
    [("tweet_id", [Pandas.VInt 7; Pandas.VInt 8]);
     ("sentiment", [Pandas.VStr "happiness"; Pandas.VStr "sadness"])].

(** The world before a run: the configuration file, the dataset at its
    location, an empty destination store and an empty log. *)
Definition initial_world (config : Yaml.value) (dataset : Pandas.DataFrame) : World :=
  mkWorld [] {[ "params.yaml" := Document config ]}
          {[ dataset_url := FetchTable dataset ]} ∅ [] 0%Z.

Definition config_with (test_size : Yaml.value) : Yaml.value :=
  Yaml.Map [("data_ingestion", Yaml.Map [("test_size", test_size)])].



(** pandas as it is by default before version 3, and as it is from version 3. *)
Definition pandas_2 : Pandas.Mode := {| Pandas.copy_on_write := false |}.
Definition pandas_3 : Pandas.Mode := {| Pandas.copy_on_write := true |}.

(** The generator the examples run with. *)
Definition rotation_generator : Numpy.RandomState :=
  {| Numpy.seeded := fun seed => seed;
     Numpy.permutation_from := fun g n => (Numpy.rotation g n, (g + 1)%Z) |}.

(** A world whose heap holds the given tables and nothing else. *)
Definition world_with (tables : list Pandas.DataFrame) : World :=
  mkWorld tables ∅ ∅ ∅ [] 0%Z.

(** ** Statements about runs *)

(** [m], run in [w], does not get stuck; it returns a value and a world that
    satisfy [Q], or raises an exception in a world that satisfy [R]. *)
Definition ensures {A : Type} (m : Py A) (w : World)
    (Q : A -> World -> Prop) (R : exn -> World -> Prop) : Prop :=
  match m w with
  | (Return a, w') => Q a w'
  | (Raise e, w') => R e w'
  | (Stuck, _) => False
  end.

(** Between [w] and [w'] the inputs and the destination store are what they
    were, and the log has only grown. *)
Definition quiet (w w' : World) : Prop :=
  configs w' = configs w /\ sources w' = sources w /\ disk w' = disk w /\
  exists records, log w' = (log w ++ records)%list.

(** As [quiet], but the store may differ at the listed paths. *)
Definition writes_at (paths : list string) (w w' : World) : Prop :=
  configs w' = configs w /\ sources w' = sources w /\
  (forall q, ~ In q paths -> disk w' !! q = disk w !! q) /\
  exists records, log w' = (log w ++ records)%list.

(** The paths of a run of main in the destination store. *)
Definition destination_paths : list string :=
  ["data"; "data/raw"; "data/raw/train.csv"; "data/raw/test.csv"].

(** The error pd.read_csv raises for what it finds, if it raises one. *)
Definition fetch_error (url : string) (found : option fetch) : option exn :=
  match found with
  | None => Some (nothing_there url)
  | Some FetchEmpty => Some EmptyDataError
  | Some FetchMalformed => Some ParserError
  | Some (FetchFails e) => Some e
  | Some (FetchTable _) => None
  end.

(** The record read_data logs for an error. *)
Definition read_error_message (url : string) (e : exn) : message :=
  match e with
  | EmptyDataError => No_data_found url
  | ParserError => Error_parsing_CSV url
  | _ => Unexpected_error_reading url e
  end.

(** No cell of the column is one of the two labels that are kept. *)
Definition no_label_kept (column : list Pandas.value) : Prop :=
  Forall (fun v => existsb (Pandas.value_eqb v) happiness_sadness = false) column.

(** The store lets save_data write under [p]: [p] is a path, no regular file
    stands where a directory is needed and no directory where a file goes. *)
Definition free_for (p : string) (d : gmap string node) : Prop :=
  p <> "" /\
  (forall q c, In q (Os.prefixes "" p) -> d !! q <> Some (File c)) /\
  d !! Os.path_join p "train.csv" <> Some Dir /\
  d !! Os.path_join p "test.csv" <> Some Dir.

(** The paths save_data may touch under [p]. *)
Definition paths_of (p : string) : list string :=
  (Os.prefixes "" p ++ [Os.path_join p "train.csv"; Os.path_join p "test.csv"])%list.

(** Two tables in the heap and an empty store; the same with the
    directories made and a directory where test.csv should go. *)
Definition two_tables : World := world_with [scenario_table; neutral_table].

Definition blocked_store : World :=
  with_disk (<["data/raw/test.csv" := Dir]> (<["data/raw" := Dir]> {["data" := Dir]}))
            two_tables.

(** Since [w] the run has logged that the data was split: every stage before
    the writer has succeeded. *)
Definition split_logged (w w' : World) : Prop :=
  exists records v,
    log w' = (log w ++ records)%list /\ In (INFO, Data_split v) records.

(** A world with a configuration file and no network: the dataset cannot be
    fetched. *)
Definition offline_world (config : Yaml.value) : World :=
  mkWorld [] {[ "params.yaml" := Document config ]} ∅ ∅ [] 0%Z.

(** The exception process_data raises for a table that lacks one of its two
    columns: the drop of tweet_id is tried first. *)
Definition missing_column_error (T : Pandas.DataFrame) : exn :=
  if Pandas.has_column T "tweet_id" then KeyError "sentiment"
  else KeyError "['tweet_id'] not found in axis".

(** A test size that train_test_split refuses for a table of [n] rows: a
    fraction outside the open interval (0, 1), or a number of rows outside
    1 .. n - 1. *)
Definition out_of_range (test_size : Yaml.value) (n : nat) : Prop :=
  match test_size with
  | Yaml.Float f => (f <=? 0)%float = true \/ (1 <=? f)%float = true
  | Yaml.Int z => (z <= 0)%Z \/ (Z.of_nat n <= z)%Z
  | _ => False
  end.

(** The records of a run of main in which every stage succeeds. *)
Definition complete_log (test_size : Yaml.value) : list (level * message) :=
  [(INFO, Pipeline_started);
   (INFO, Loaded_test_size test_size "params.yaml");
   (INFO, Data_loaded dataset_url);
   (INFO, Data_processing_complete);
   (INFO, Data_split test_size);
   (INFO, Data_saved "data/raw");
   (INFO, Pipeline_finished)].

(** What load_params logs for the exception it raises: the three kinds it
    has a handler for; any other exception passes unlogged. *)
Definition load_error_records (path : string) (e : exn) : list (level * message) :=
  match e with
  | FileNotFoundError _ => [(ERROR, File_not_found path)]
  | KeyError _ => [(ERROR, Invalid_structure path)]
  | YAMLError => [(ERROR, YAML_error path YAMLError)]
  | _ => []
  end.

(** The store save_data leaves under data/raw for two tables, from the
    store it finds. *)
Definition saved (d : gmap string node) (train test : Pandas.DataFrame)
  : gmap string node :=
  match Os.mkdirs (Os.prefixes "" "data/raw") d with
  | Return d1 =>
      match d1 !! "data/raw/train.csv" with
      | Some Dir => d1
      | _ =>
          let d2 := <["data/raw/train.csv" := File (Pandas.to_csv train false)]> d1 in
          match d1 !! "data/raw/test.csv" with
          | Some Dir => d2
          | _ => <["data/raw/test.csv" := File (Pandas.to_csv test false)]> d2
          end
      end
  | _ => d
  end.

(** The store a run of main leaves, from what it finds at params.yaml, at
    the dataset's location and in the store. *)
Definition run_store `{Numpy.RandomState} `{Pandas.Mode}
    (config : option text_file) (dataset : option fetch) (d : gmap string node)
  : gmap string node :=
  match opened "params.yaml" config ≫= test_size_of with
  | Return test_size =>
      match dataset with
      | Some (FetchTable T) =>
          if Pandas.has_column T "tweet_id" && Pandas.has_column T "sentiment"
          then match Sklearn.split (final_frame T) test_size 42 with
               | Return (train, test) => saved d train test
               | _ => d
               end
          else d
      | _ => d
      end
  | _ => d
  end.

(** Unfolding of the monad's operations in a goal about a run. *)
Ltac run_py := unfold try_except, mbind, Py_bind, bind, lift.

(** Two worlds that differ in the grouping of their log's records only. *)
Ltac same_log :=
  unfold logged, with_log, with_heap;
  repeat (progress (cbn [fst snd heap configs sources disk log generator];
                    rewrite <- ?app_assoc));
  reflexivity.

(** * Proofs *)

(** ** The monad *)

Lemma bind_return {A B : Type} (m : Py A) (k : A -> Py B) (w w' : World) (a : A) :
  m w = (Return a, w') -> (m ≫= k) w = k a w'.
Proof. intros E. unfold mbind, Py_bind, bind. by rewrite E. Qed.

Lemma bind_raise {A B : Type} (m : Py A) (k : A -> Py B) (w w' : World) (e : exn) :
  m w = (Raise e, w') -> (m ≫= k) w = (Raise e, w').
Proof. intros E. unfold mbind, Py_bind, bind. by rewrite E. Qed.

Lemma bind_stuck {A B : Type} (m : Py A) (k : A -> Py B) (w w' : World) :
  m w = (Stuck, w') -> (m ≫= k) w = (Stuck, w').
Proof. intros E. unfold mbind, Py_bind, bind. by rewrite E. Qed.

Lemma try_except_reraises {A : Type} (body : Py A) (handler : exn -> option (Py A)) :
  reraises handler -> forall w, fst (try_except body handler w) = fst (body w).
Proof.
  intros Hh w. unfold try_except.
  destruct (body w) as [[a|e|] w']; try reflexivity.
  destruct (Hh e) as [-> | (lv & m & ->)]; [reflexivity|].
  by destruct lv.
Qed.

(** ** Columns *)

Lemma has_column_find (cols : list (string * list Pandas.value)) (c : string) :
  existsb (String.eqb c) (map fst cols)
  = match Pandas.find_column cols c with Some _ => true | None => false end.
Proof.
  induction cols as [|[k vs] cols IH]; simpl; [reflexivity|].
  rewrite (String.eqb_sym c k). destruct (String.eqb k c); simpl; auto.
Qed.

Lemma drop_tweet_id (T : Pandas.DataFrame) :
  Pandas.drop ["tweet_id"] T
  = if Pandas.has_column T "tweet_id" then Return (without_tweet_id T)
    else Raise (KeyError "['tweet_id'] not found in axis").
Proof.
  unfold Pandas.drop. simpl. destruct (Pandas.has_column T "tweet_id"); reflexivity.
Qed.

Lemma find_column_filter_names (p : string -> bool)
    (cols : list (string * list Pandas.value)) (key : string) :
  p key = true ->
  Pandas.find_column (List.filter (fun c => p (fst c)) cols) key
  = Pandas.find_column cols key.
Proof.
  intros Hk. induction cols as [|[k vs] cols IH]; simpl; [reflexivity|].
  destruct (String.eqb k key) eqn:E.
  - apply String.eqb_eq in E. subst k. rewrite Hk. simpl.
    by rewrite String.eqb_refl.
  - destruct (p k); simpl; [by rewrite E|]. exact IH.
Qed.

Lemma find_column_filter (cols : list (string * list Pandas.value)) (key : string) :
  key <> "tweet_id" ->
  Pandas.find_column
    (List.filter (fun c => negb (Pandas.mem (fst c) ["tweet_id"])) cols) key
  = Pandas.find_column cols key.
Proof.
  intros Hk.
  apply (find_column_filter_names (fun n => negb (Pandas.mem n ["tweet_id"]))).
  unfold Pandas.mem. simpl. rewrite orb_false_r.
  destruct (String.eqb key "tweet_id") eqn:E; [|reflexivity].
  apply String.eqb_eq in E. contradiction.
Qed.

Lemma find_column_boolean_index (T : Pandas.DataFrame) (mask : list bool) (key : string) :
  Pandas.find_column (Pandas.columns (Pandas.boolean_index T mask)) key
  = Pandas.select mask <$> Pandas.find_column (Pandas.columns T) key.
Proof.
  unfold Pandas.boolean_index. simpl.
  induction (Pandas.columns T) as [|[k vs] cols IH]; simpl; [reflexivity|].
  destruct (String.eqb k key); [reflexivity|exact IH].
Qed.

(** ** What process_data does, on every live table *)

Lemma process_data_run `{Pandas.Mode} (w : World) (df : loc) (T : Pandas.DataFrame) :
  heap w !! df = Some T ->
  process_data df w =
    if negb (Pandas.has_column T "tweet_id") then
      (Raise (KeyError "['tweet_id'] not found in axis"),
       logged ERROR (Column_missing (KeyError "['tweet_id'] not found in axis")) w)
    else if negb (Pandas.has_column T "sentiment") then
      (Raise (KeyError "sentiment"),
       logged ERROR (Column_missing (KeyError "sentiment"))
         (with_heap (<[df := without_tweet_id T]> (heap w)) w))
    else
      (Return (length (heap w)),
       logged INFO Data_processing_complete
         (with_heap (<[df := without_tweet_id T]> (heap w) ++ [final_frame T]) w)).
Proof.
  intros Hdf.
  assert (Hlt : df < length (heap w)) by (eapply lookup_lt_Some; eauto).
  unfold process_data, try_except, process_data_body.
  unfold mbind, Py_bind, bind, load at 1. rewrite Hdf.
  unfold lift at 1. rewrite drop_tweet_id.
  destruct (Pandas.has_column T "tweet_id") eqn:Hid; simpl; [|reflexivity].
  unfold store at 1. rewrite Hdf. unfold load at 1. simpl.
  rewrite list_lookup_insert_eq by exact Hlt.
  unfold Pandas.getitem at 1. simpl Pandas.columns.
  rewrite find_column_filter by discriminate.
  unfold Pandas.has_column, Pandas.column_names. rewrite has_column_find.
  destruct (Pandas.find_column (Pandas.columns T) "sentiment") as [s|] eqn:Hs; simpl;
    [|reflexivity].
  unfold load at 1. simpl. 
  rewrite lookup_app_r by (rewrite length_insert; lia).
  rewrite length_insert, Nat.sub_diag. simpl.
  unfold Pandas.getitem at 1.
  rewrite find_column_boolean_index. simpl.
  rewrite find_column_filter by discriminate. rewrite Hs. simpl.
  unfold final_frame. rewrite Hs.
  destruct Pandas.copy_on_write; [reflexivity|].
  unfold store at 1. simpl.
  rewrite lookup_app_r by (rewrite length_insert; lia).
  rewrite length_insert, Nat.sub_diag. simpl.
  unfold logged, with_log, with_heap. simpl.
  do 3 f_equal.
  rewrite insert_app_r_alt by (rewrite length_insert; lia).
  rewrite length_insert, Nat.sub_diag. reflexivity.
Qed.

(** ** From columns to records *)

Lemma record_at_S (cols : list (string * list Pandas.value)) (i : nat) :
  Spec.record_at cols (S i) = Spec.record_at (tails cols) i.
Proof.
  unfold Spec.record_at, tails. rewrite map_map. apply map_ext.
  intros [k vs]. simpl. unfold Pandas.cell. by destruct vs; destruct i.
Qed.

Lemma records_S (cols : list (string * list Pandas.value)) (n : nat) :
  map (Spec.record_at cols) (seq 0 (S n))
  = Spec.record_at cols 0 :: map (Spec.record_at (tails cols)) (seq 0 n).
Proof.
  simpl. f_equal. rewrite <- seq_shift, map_map.
  apply map_ext. intros i. apply record_at_S.
Qed.

Lemma select_columns_cons (mask : list bool) (cols : list (string * list Pandas.value)) :
  Forall (fun c => length (snd c) = S (length mask)) cols ->
  select_columns (false :: mask) cols = select_columns mask (tails cols) /\
  tails (select_columns (true :: mask) cols) = select_columns mask (tails cols) /\
  Spec.record_at (select_columns (true :: mask) cols) 0 = Spec.record_at cols 0 /\
  Forall (fun c => length (snd c) = length mask) (tails cols).
Proof.
  induction 1 as [|[k vs] cols Hlen _ (IH1 & IH2 & IH3 & IH4)]; simpl.
  - repeat split; constructor.
  - simpl in Hlen. destruct vs as [|x vs]; [discriminate|].
    injection Hlen as Hlen. simpl.
    repeat split; [by f_equal | by f_equal | by f_equal |].
    constructor; [exact Hlen | exact IH4].
Qed.

Lemma records_select (mask : list bool) (cols : list (string * list Pandas.value)) :
  Forall (fun c => length (snd c) = length mask) cols ->
  map (Spec.record_at (select_columns mask cols))
      (seq 0 (length (Pandas.select mask mask)))
  = Pandas.select mask (map (Spec.record_at cols) (seq 0 (length mask))).
Proof.
  revert cols. induction mask as [|b mask IH]; intros cols Hlen; [reflexivity|].
  destruct (select_columns_cons mask cols Hlen) as (F1 & F2 & F3 & F4).
  cbn [length]. rewrite (records_S cols).
  destruct b; cbn [Pandas.select length].
  - rewrite records_S, F2, F3. f_equal. by apply IH.
  - rewrite F1. by apply IH.
Qed.

Lemma select_length {A : Type} (mask : list bool) (l : list A) :
  length l = length mask ->
  length (Pandas.select mask l) = length (Pandas.select mask mask).
Proof.
  revert l. induction mask as [|b mask IH]; intros [|x l] Hl; try discriminate;
    [reflexivity|].
  injection Hl as Hl. destruct b; simpl; auto.
Qed.

Lemma select_map_filter {A : Type} (p : A -> bool) (l : list A) :
  Pandas.select (map p l) l = List.filter p l.
Proof.
  induction l as [|x l IH]; simpl; [reflexivity|]. by destruct (p x); rewrite IH.
Qed.

Lemma cells_seq (vs : list Pandas.value) :
  map (Pandas.cell vs) (seq 0 (length vs)) = vs.
Proof.
  induction vs as [|v vs IH]; [reflexivity|].
  cbn [length seq map]. f_equal. rewrite <- seq_shift, map_map. exact IH.
Qed.

Lemma field_record_at (cols : list (string * list Pandas.value)) (key : string) (i : nat) :
  Spec.field (Spec.record_at cols i) key
  = (fun vs => Pandas.cell vs i) <$> Pandas.find_column cols key.
Proof.
  induction cols as [|[k vs] cols IH]; simpl; [reflexivity|].
  destruct (String.eqb k key); [reflexivity | exact IH].
Qed.

Lemma isin_retained (v : Pandas.value) :
  existsb (Pandas.value_eqb v) happiness_sadness
  = match v with
    | Pandas.VStr t => String.eqb t "happiness" || String.eqb t "sadness"
    | _ => false
    end.
Proof. destruct v; simpl; [by rewrite orb_false_r | reflexivity | reflexivity]. Qed.

Lemma replace_recode (v : Pandas.value) :
  Pandas.replace_value recoding v = Spec.recode_label v.
Proof. destruct v; reflexivity. Qed.

Lemma find_column_unique (cols : list (string * list Pandas.value)) (k : string)
    (vs : list Pandas.value) :
  NoDup (map fst cols) -> In (k, vs) cols -> Pandas.find_column cols k = Some vs.
Proof.
  induction cols as [|[k' vs'] cols IH]; simpl; [contradiction|].
  intros Hnd [Heq | Hin].
  - injection Heq as -> ->. by rewrite String.eqb_refl.
  - apply NoDup_cons in Hnd as [Hnotin Hnd].
    destruct (String.eqb k' k) eqn:E; [|by apply IH].
    apply String.eqb_eq in E. subst k'. exfalso. apply Hnotin.
    apply list_elem_of_In. change k with (fst (k, vs)). by apply in_map.
Qed.

Lemma record_at_set_column (cols : list (string * list Pandas.value))
    (c : list Pandas.value) (i : nat) :
  NoDup (map fst cols) ->
  Pandas.find_column cols "sentiment" = Some c ->
  Spec.record_at
    (map (fun c' => if String.eqb (fst c') "sentiment"
                    then (fst c', Pandas.replace recoding c) else c') cols) i
  = Spec.recode (Spec.record_at cols i).
Proof.
  intros Hnd Hc. unfold Spec.record_at, Spec.recode. rewrite !map_map.
  apply map_ext_in. intros [k vs] Hin. simpl.
  destruct (String.eqb k "sentiment") eqn:E; [|reflexivity].
  apply String.eqb_eq in E. subst k. simpl. f_equal.
  rewrite (find_column_unique _ _ _ Hnd Hin) in Hc. injection Hc as ->.
  unfold Pandas.cell, Pandas.replace.
  change Pandas.VNaN with (Pandas.replace_value recoding Pandas.VNaN) at 1.
  rewrite map_nth. apply replace_recode.
Qed.

Lemma record_at_without_id (cols : list (string * list Pandas.value)) (i : nat) :
  Spec.record_at
    (List.filter (fun c => negb (Pandas.mem (fst c) ["tweet_id"])) cols) i
  = Spec.without_id (Spec.record_at cols i).
Proof.
  unfold Spec.record_at, Spec.without_id.
  induction cols as [|[k vs] cols IH]; [reflexivity|].
  cbn [List.filter map fst].
  replace (Pandas.mem k ["tweet_id"]) with (String.eqb k "tweet_id")
    by (unfold Pandas.mem; simpl; by rewrite orb_false_r).
  destruct (String.eqb k "tweet_id"); cbn [negb map List.filter fst snd]; by rewrite IH.
Qed.

Lemma names_filter (p : string -> bool) (cols : list (string * list Pandas.value)) :
  map fst (List.filter (fun c => p (fst c)) cols) = List.filter p (map fst cols).
Proof.
  induction cols as [|[k vs] cols IH]; simpl; [reflexivity|].
  destruct (p k); simpl; by rewrite IH.
Qed.

Lemma NoDup_filter_bool {A : Type} (p : A -> bool) (l : list A) :
  NoDup l -> NoDup (List.filter p l).
Proof.
  induction 1 as [|x l Hx Hnd IH]; simpl; [constructor|].
  destruct (p x); [|exact IH]. constructor; [|exact IH].
  intros Hin. apply Hx. apply list_elem_of_In. apply list_elem_of_In in Hin.
  apply filter_In in Hin. tauto.
Qed.

Lemma well_formed_without_tweet_id (T : Pandas.DataFrame) :
  Pandas.well_formed T -> Pandas.well_formed (without_tweet_id T).
Proof.
  intros [Hnd Hlen]. split.
  - unfold Pandas.column_names, without_tweet_id. simpl.
    rewrite (names_filter (fun n => negb (Pandas.mem n ["tweet_id"]))).
    by apply NoDup_filter_bool.
  - unfold without_tweet_id. simpl. apply Forall_forall. intros c Hc.
    apply list_elem_of_In, filter_In in Hc as [Hc _].
    rewrite Forall_forall in Hlen. apply Hlen. by apply list_elem_of_In.
Qed.

Lemma find_column_length (T : Pandas.DataFrame) (key : string) (vs : list Pandas.value) :
  Pandas.well_formed T -> Pandas.find_column (Pandas.columns T) key = Some vs ->
  length vs = length (Pandas.index T).
Proof.
  intros [_ Hlen]. induction Hlen as [|[k c] cols Hc _ IH]; simpl; [discriminate|].
  destruct (String.eqb k key); [|exact IH]. by intros [= <-].
Qed.

(** The rows process_data keeps are the records the specification keeps. *)
Lemma records_kept_rows (T : Pandas.DataFrame) (s : list Pandas.value) :
  Pandas.well_formed T ->
  Pandas.find_column (Pandas.columns T) "sentiment" = Some s ->
  Spec.records (Pandas.boolean_index (without_tweet_id T)
                  (Pandas.isin happiness_sadness s))
  = Spec.filtered (Spec.records T).
Proof.
  intros Hwf Hs.
  pose proof (well_formed_without_tweet_id T Hwf) as [Hnd Hlen].
  pose proof (find_column_length T _ _ Hwf Hs) as Hslen.
  set (W := without_tweet_id T) in *.
  assert (HsW : Pandas.find_column (Pandas.columns W) "sentiment" = Some s).
  { unfold W, without_tweet_id. simpl. by rewrite find_column_filter. }
  set (mask := Pandas.isin happiness_sadness s).
  assert (Hmask : length mask = length (Pandas.index T)).
  { unfold mask, Pandas.isin. by rewrite length_map. }
  unfold Spec.records, Spec.filtered.
  cbn [Pandas.boolean_index Pandas.index Pandas.columns].
  change (Pandas.index W) with (Pandas.index T).
  rewrite (select_length mask (Pandas.index T)) by (symmetry; exact Hmask).
  fold (select_columns mask (Pandas.columns W)).
  rewrite records_select; last first.
  { rewrite Hmask. exact Hlen. }
  rewrite Hmask.
  (* the mask is the retained predicate *)
  assert (Hrec : map (Spec.record_at (Pandas.columns W)) (seq 0 (length (Pandas.index T)))
                 = map Spec.without_id
                     (map (Spec.record_at (Pandas.columns T))
                        (seq 0 (length (Pandas.index T))))).
  { rewrite map_map. apply map_ext. intros i. apply record_at_without_id. }
  rewrite <- Hrec.
  rewrite <- select_map_filter. f_equal.
  rewrite map_map. unfold mask, Pandas.isin.
  rewrite <- (cells_seq s) at 1. rewrite Hslen, map_map.
  apply map_ext. intros i.
  unfold Spec.retained, Spec.has_label.
  rewrite field_record_at, HsW. simpl.
  destruct (Pandas.cell s i); simpl; [by rewrite orb_false_r | reflexivity | reflexivity].
Qed.

(** Writing the replaced column back recodes the label of every record. *)
Lemma records_written_back (T : Pandas.DataFrame) (s : list Pandas.value) :
  Pandas.well_formed T ->
  Pandas.find_column (Pandas.columns T) "sentiment" = Some s ->
  let mask := Pandas.isin happiness_sadness s in
  let kept := Pandas.boolean_index (without_tweet_id T) mask in
  Spec.records (Pandas.set_column kept "sentiment"
                  (Pandas.replace recoding (Pandas.select mask s)))
  = map Spec.recode (Spec.records kept).
Proof.
  intros Hwf Hs mask kept.
  pose proof (well_formed_without_tweet_id T Hwf) as [Hnd _].
  set (W := without_tweet_id T) in *.
  assert (HsW : Pandas.find_column (Pandas.columns W) "sentiment" = Some s).
  { unfold W, without_tweet_id. simpl. by rewrite find_column_filter. }
  unfold Spec.records, kept.
  cbn [Pandas.set_column Pandas.boolean_index Pandas.index Pandas.columns].
  erewrite map_ext; last first.
  { intros i. apply record_at_set_column.
    - rewrite map_map. simpl. exact Hnd.
    - change (Pandas.find_column
                (Pandas.columns (Pandas.boolean_index W mask)) "sentiment"
              = Some (Pandas.select mask s)).
      rewrite find_column_boolean_index, HsW. reflexivity. }
  by rewrite <- map_map with (g := Spec.recode).
Qed.

(** The table process_data returns holds the records the specification
    keeps; they are recoded where the replacement reaches the table. *)
Lemma records_final_frame `{Pandas.Mode} (T : Pandas.DataFrame) :
  Pandas.well_formed T ->
  Pandas.has_column T "sentiment" = true ->
  Spec.records (final_frame T)
  = if Pandas.copy_on_write then Spec.filtered (Spec.records T)
    else Spec.filterAndRecode (Spec.records T).
Proof.
  intros Hwf Hsent.
  unfold Pandas.has_column, Pandas.column_names in Hsent.
  rewrite has_column_find in Hsent.
  destruct (Pandas.find_column (Pandas.columns T) "sentiment") as [s|] eqn:Hs;
    [clear Hsent | discriminate].
  unfold final_frame. rewrite Hs. cbv zeta.
  destruct Pandas.copy_on_write.
  - by apply records_kept_rows.
  - rewrite (records_written_back T s Hwf Hs). unfold Spec.filterAndRecode.
    f_equal. by apply records_kept_rows.
Qed.

(** ** Properties of the specification's function *)

Lemma field_recode (r : Spec.record) (name : string) :
  Spec.field (Spec.recode r) name
  = if String.eqb name "sentiment" then Spec.recode_label <$> Spec.field r name
    else Spec.field r name.
Proof.
  induction r as [|[k v] r IH]; simpl; [by destruct (String.eqb name "sentiment")|].
  destruct (String.eqb k "sentiment") eqn:Ek; simpl.
  - apply String.eqb_eq in Ek. subst k.
    rewrite (String.eqb_sym name "sentiment").
    destruct (String.eqb "sentiment" name) eqn:E; [reflexivity|].
    rewrite IH, (String.eqb_sym name "sentiment"), E. reflexivity.
  - destruct (String.eqb k name) eqn:E.
    + apply String.eqb_eq in E. subst k. by rewrite Ek.
    + exact IH.
Qed.

Lemma retained_recoded (r : Spec.record) :
  Spec.retained r = true ->
  Spec.field (Spec.recode r) "sentiment" = Some (Pandas.VInt 1) \/
  Spec.field (Spec.recode r) "sentiment" = Some (Pandas.VInt 0).
Proof.
  unfold Spec.retained, Spec.has_label. rewrite field_recode. simpl.
  destruct (Spec.field r "sentiment") as [[t| |]|]; simpl; try discriminate.
  destruct (String.eqb t "happiness"); [by left|].
  destruct (String.eqb t "sadness"); [by right | discriminate].
Qed.

Lemma filterAndRecode_binary (rs : list Spec.record) :
  Forall (fun r => Spec.field r "sentiment" = Some (Pandas.VInt 1) \/
                   Spec.field r "sentiment" = Some (Pandas.VInt 0))
         (Spec.filterAndRecode rs).
Proof.
  unfold Spec.filterAndRecode. apply Forall_forall. intros r Hr.
  apply list_elem_of_In, in_map_iff in Hr as (r0 & <- & Hr0).
  apply filter_In in Hr0 as [_ Hret]. by apply retained_recoded.
Qed.

Lemma well_formed_scenario_table : Pandas.well_formed scenario_table.
Proof.
  split.
  - refine (bool_decide_unpack (NoDup _) _). vm_compute. exact I.
  - repeat constructor.
Qed.

(** ** C1 *)

Lemma filtered_labels (rs : list Spec.record) :
  Forall (fun r => Spec.field r "sentiment" = Some (Pandas.VStr "happiness") \/
                   Spec.field r "sentiment" = Some (Pandas.VStr "sadness"))
         (Spec.filtered rs).
Proof.
  unfold Spec.filtered. apply Forall_forall. intros r Hr.
  apply list_elem_of_In, filter_In in Hr as [_ Hret]. revert Hret.
  unfold Spec.retained, Spec.has_label.
  destruct (Spec.field r "sentiment") as [[t| |]|]; simpl; try discriminate.
  intros Hret. apply orb_true_iff in Hret as [E | E]; apply String.eqb_eq in E;
    subst t; [by left | by right].
Qed.

(** C1: the recoding does not reach the table under copy-on-write (pandas 3).
    On the ten-row scenario process_data returns the eight rows labelled
    "happiness" or "sadness" in their order with their texts, and their
    labels are still the strings, not 1 and 0: the replacement was made on
    the Series final_df['sentiment'], a temporary, and final_df was never
    assigned. *)
Theorem process_data_leaves_the_labels :
  fst (@process_data pandas_3 0 (world_with [scenario_table])) = Return 1 /\
  Spec.records
    <$> heap (snd (@process_data pandas_3 0 (world_with [scenario_table]))) !! 1
  = Some (map (fun p => [("sentiment", Pandas.VStr (fst p));
                         ("content", Pandas.VStr (snd p))])
            [("happiness", "a"); ("sadness", "b"); ("happiness", "d");
             ("sadness", "e"); ("happiness", "f"); ("sadness", "h");
             ("happiness", "i"); ("sadness", "j")]) /\
  Spec.records
    <$> heap (snd (@process_data pandas_3 0 (world_with [scenario_table]))) !! 1
  <> Some (Spec.filterAndRecode (Spec.records scenario_table)).
Proof. split; [reflexivity|]. split; [reflexivity|]. vm_compute. discriminate. Qed.

(** X25: on every table with the columns tweet_id and sentiment,
    process_data returns a new table whose records are those of the input
    without the identifier, restricted to the rows labelled "happiness" or
    "sadness" in their original order, with every field other than the
    label unchanged.  The labels are recoded to 1 and 0 exactly when pandas
    runs without copy-on-write; with copy-on-write they stay the strings. *)
Theorem process_data_filters_and_recodes `{Pandas.Mode} (w : World) (df : loc)
    (T : Pandas.DataFrame) :
  heap w !! df = Some T ->
  Pandas.well_formed T ->
  Pandas.has_column T "tweet_id" = true ->
  Pandas.has_column T "sentiment" = true ->
  exists F : Pandas.DataFrame,
    fst (process_data df w) = Return (length (heap w)) /\
    heap (snd (process_data df w)) !! length (heap w) = Some F /\
    if Pandas.copy_on_write
    then Spec.records F = Spec.filtered (Spec.records T) /\
         Forall (fun r =>
                   Spec.field r "sentiment" = Some (Pandas.VStr "happiness") \/
                   Spec.field r "sentiment" = Some (Pandas.VStr "sadness"))
                (Spec.records F)
    else Spec.records F = Spec.filterAndRecode (Spec.records T) /\
         Forall (fun r => Spec.field r "sentiment" = Some (Pandas.VInt 1) \/
                          Spec.field r "sentiment" = Some (Pandas.VInt 0))
                (Spec.records F).
Proof.
  intros Hdf Hwf Hid Hsent. exists (final_frame T).
  rewrite (process_data_run w df T Hdf), Hid, Hsent. simpl.
  pose proof (records_final_frame T Hwf Hsent) as Hrec.
  split; [reflexivity|]. split.
  - rewrite lookup_app_r by (rewrite length_insert; lia).
    by rewrite length_insert, Nat.sub_diag.
  - destruct Pandas.copy_on_write; rewrite Hrec; split; try reflexivity.
    + apply filtered_labels.
    + apply filterAndRecode_binary.
Qed.

Lemma process_data_filters_and_recodes_witness :
  exists F : Pandas.DataFrame,
    fst (@process_data pandas_2 0 (world_with [scenario_table])) = Return 1 /\
    heap (snd (@process_data pandas_2 0 (world_with [scenario_table]))) !! 1 = Some F /\
    Spec.records F = Spec.filterAndRecode (Spec.records scenario_table) /\
    Forall (fun r => Spec.field r "sentiment" = Some (Pandas.VInt 1) \/
                     Spec.field r "sentiment" = Some (Pandas.VInt 0))
           (Spec.records F).
Proof.
  apply (@process_data_filters_and_recodes pandas_2 (world_with [scenario_table]) 0
           scenario_table).
  - reflexivity.
  - exact well_formed_scenario_table.
  - reflexivity.
  - reflexivity.
Defined.

(** The scenario without copy-on-write: ten rows, two of them "neutral", give
    eight rows labelled 1,0,1,0,1,0,1,0 with their texts in the original
    order. *)
Example scenario_ten_rows :
  fst (@process_data pandas_2 0 (world_with [scenario_table])) = Return 1 /\
  Spec.records
    <$> heap (snd (@process_data pandas_2 0 (world_with [scenario_table]))) !! 1
  = Some (map (fun p => [("sentiment", Pandas.VInt (fst p)); ("content", Pandas.VStr (snd p))])
            [(1, "a"); (0, "b"); (1, "d"); (0, "e"); (1, "f"); (0, "h"); (1, "i"); (0, "j")]%Z).
Proof. split; reflexivity. Qed.

(** ** C5, C10: the columns process_data requires *)

(** C5 as stated fails: a table with exactly the columns id, text and
    sentiment is rejected (the code asks for tweet_id), and a table without
    a text column is accepted. *)
Lemma id_text_sentiment_rejected :
  Pandas.has_column id_text_sentiment_table "id" = true /\
  Pandas.has_column id_text_sentiment_table "text" = true /\
  Pandas.has_column id_text_sentiment_table "sentiment" = true /\
  fst (@process_data pandas_3 0 (world_with [id_text_sentiment_table]))
  = Raise (KeyError "['tweet_id'] not found in axis") /\
  Pandas.has_column tweet_id_sentiment_table "text" = false /\
  fst (@process_data pandas_3 0 (world_with [tweet_id_sentiment_table])) = Return 1.
Proof. repeat split; reflexivity. Qed.

(** C5 (amended): process_data requires the columns tweet_id and sentiment
    and no other.  Without tweet_id it fails with the KeyError
    "['tweet_id'] not found in axis"; with tweet_id and without sentiment it
    fails with KeyError('sentiment'); with both it returns a new table. *)
Theorem process_data_required_columns `{Pandas.Mode} (w : World) (df : loc)
    (T : Pandas.DataFrame) :
  heap w !! df = Some T ->
  fst (process_data df w) =
    if negb (Pandas.has_column T "tweet_id")
    then Raise (KeyError "['tweet_id'] not found in axis")
    else if negb (Pandas.has_column T "sentiment")
    then Raise (KeyError "sentiment")
    else Return (length (heap w)).
Proof.
  intros Hdf. rewrite (process_data_run w df T Hdf).
  destruct (Pandas.has_column T "tweet_id"), (Pandas.has_column T "sentiment");
    reflexivity.
Qed.

Lemma process_data_required_columns_witness :
  fst (@process_data pandas_3 0 (world_with [scenario_table])) =
    if negb (Pandas.has_column scenario_table "tweet_id")
    then Raise (KeyError "['tweet_id'] not found in axis")
    else if negb (Pandas.has_column scenario_table "sentiment")
    then Raise (KeyError "sentiment")
    else Return (length (heap (world_with [scenario_table]))).
Proof.
  apply (process_data_required_columns (world_with [scenario_table]) 0 scenario_table).
  reflexivity.
Defined.



(** ** C6: what process_data changes *)




(** ** C8: a configuration without the key *)

Lemma load_params_key_missing (w : World) (path : string) (doc : Yaml.value) (k : string) :
  configs w !! path = Some (Document doc) ->
  key_missing doc k ->
  load_params path w
  = (Raise (KeyError k), logged ERROR (Invalid_structure path) w).
Proof.
  intros Hcfg Hk.
  unfold load_params, load_params_body, yaml_safe_load. run_py.
  rewrite Hcfg.
  destruct Hk as [items Hnone | items section Hsome Hnone]; simpl.
  - rewrite Hnone. reflexivity.
  - rewrite Hsome. simpl. rewrite Hnone. reflexivity.
Qed.






(** ** C4: propagation of failures *)

Lemma load_params_reraises (path : string) :
  reraises (fun e =>
    match e with
    | FileNotFoundError _ => Some (logging_error (File_not_found path);; raise e)
    | KeyError _ => Some (logging_error (Invalid_structure path);; raise e)
    | YAMLError => Some (logging_error (YAML_error path e);; raise e)
    | _ => None
    end : option (Py Yaml.value)).
Proof.
  intros e. destruct e; (by left) || (right; by eexists ERROR, _).
Qed.

Lemma read_data_reraises (url : string) :
  reraises (fun e =>
    match e with
    | EmptyDataError => Some (logging_error (No_data_found url);; raise e)
    | ParserError => Some (logging_error (Error_parsing_CSV url);; raise e)
    | _ => Some (logging_error (Unexpected_error_reading url e);; raise e)
    end : option (Py loc)).
Proof. intros e. right. destruct e; by eexists ERROR, _. Qed.

Lemma process_data_reraises :
  reraises (fun e =>
    match e with
    | KeyError _ => Some (logging_error (Column_missing e);; raise e)
    | _ => Some (logging_error (Error_processing_data e);; raise e)
    end : option (Py loc)).
Proof. intros e. right. destruct e; by eexists ERROR, _. Qed.

Lemma save_data_reraises (data_path : string) :
  reraises (fun e =>
    Some (logging_error (Error_saving_data data_path e);; raise e) : option (Py unit)).
Proof. intros e. right. by eexists ERROR, _. Qed.

(** Whatever keeps the path data_ingestion.test_size from resolving (a key
    that is missing, or a value on the path that is not a mapping), the error
    of the subscript comes out of load_params, and main stops there: it
    reads no table and writes no file. *)
Lemma unresolved_test_size_aborts `{Numpy.RandomState} `{Pandas.Mode} (w : World)
    (doc : Yaml.value) (e : exn) :
  configs w !! "params.yaml" = Some (Document doc) ->
  test_size_of doc = Raise e ->
  fst (load_params "params.yaml" w) = Raise e /\
  fst (main w) = Return tt /\
  disk (snd (main w)) = disk w /\
  heap (snd (main w)) = heap w.
Proof.
  intros Hcfg He.
  assert (Hbody : forall w', configs w' = configs w ->
            load_params_body "params.yaml" w' = (Raise e, w')).
  { intros w' Hw'.
    unfold load_params_body, mbind, Py_bind, bind, yaml_safe_load.
    rewrite Hw', Hcfg. unfold lift. unfold test_size_of in He.
    destruct (Yaml.subscript doc "data_ingestion") as [section| |]; simpl in *.
    - destruct (Yaml.subscript section "test_size"); simpl in *; congruence.
    - congruence.
    - discriminate. }
  pose proof (try_except_reraises (load_params_body "params.yaml") _
                (load_params_reraises "params.yaml") w) as Hsame.
  split; [by rewrite (Hbody w eq_refl) in Hsame|].
  unfold main, try_except, pipeline, mbind, Py_bind, bind. simpl.
  unfold load_params, try_except.
  rewrite (Hbody (logged INFO Pipeline_started w) eq_refl).
  destruct e; repeat split.
Qed.

(** C4 as stated fails: with no params.yaml the first stage raises
    FileNotFoundError, and main returns normally. *)
Lemma main_swallows_failure :
  fst (@pipeline rotation_generator pandas_3 (logged INFO Pipeline_started (world_with [])))
  = Raise (FileNotFoundError "params.yaml") /\
  @main rotation_generator pandas_3 (world_with [])
  = (Return tt,
     with_log [(INFO, Pipeline_started);
               (ERROR, File_not_found "params.yaml");
               (ERROR, Pipeline_error (FileNotFoundError "params.yaml"));
               (INFO, Pipeline_finished)] (world_with [])).
Proof. split; reflexivity. Qed.

(** C4 (amended): each component (load_params, read_data, process_data,
    save_data) re-raises its error unchanged: it ends as the body of its try
    block ends, with the same exception when the body raises, and swallows
    none.  The orchestrator main does swallow: when a stage raises, main
    catches the exception, logs it, logs that the pipeline finished and
    returns normally, in the state the failed stage left; the caller gets no
    indication of the failure. *)
Theorem components_reraise_and_main_returns `{Numpy.RandomState} `{Pandas.Mode} :
  (forall path w, fst (load_params path w) = fst (load_params_body path w)) /\
  (forall url w, fst (read_data url w) = fst (read_data_body url w)) /\
  (forall df w, fst (process_data df w) = fst (process_data_body df w)) /\
  (forall data_path train test w,
     fst (save_data data_path train test w)
     = fst (save_data_body data_path train test w)) /\
  (forall w e,
     fst (pipeline (logged INFO Pipeline_started w)) = Raise e ->
     main w
     = (Return tt,
        logged INFO Pipeline_finished
          (logged ERROR (Pipeline_error e)
             (snd (pipeline (logged INFO Pipeline_started w)))))).
Proof.
  repeat split.
  - intros path w. apply try_except_reraises, load_params_reraises.
  - intros url w. apply try_except_reraises, read_data_reraises.
  - intros df w. apply try_except_reraises, process_data_reraises.
  - intros data_path train test w. apply try_except_reraises, save_data_reraises.
  - intros w e He. unfold main, try_except, mbind, Py_bind, bind. simpl.
    destruct (pipeline (logged INFO Pipeline_started w)) as [o w'].
    simpl in He. subst o. reflexivity.
Qed.

Lemma components_reraise_and_main_returns_witness :
  @main rotation_generator pandas_3 (world_with [])
  = (Return tt,
     logged INFO Pipeline_finished
       (logged ERROR (Pipeline_error (FileNotFoundError "params.yaml"))
          (snd (@pipeline rotation_generator pandas_3
                  (logged INFO Pipeline_started (world_with [])))))).
Proof.
  apply (proj2 (proj2 (proj2 (proj2
           (@components_reraise_and_main_returns rotation_generator pandas_3))))).
  reflexivity.
Defined.

(** ** Slices and selections by position *)

Lemma clamp_length (len : nat) : Numpy.clamp (Z.of_nat len) len = len.
Proof.
  unfold Numpy.clamp. destruct (Z.ltb_spec (Z.of_nat len) 0); [lia|].
  rewrite Nat2Z.id. lia.
Qed.

Lemma clamp_le (i : Z) (len : nat) : Numpy.clamp i len <= len.
Proof. unfold Numpy.clamp. destruct (Z.ltb_spec i 0); lia. Qed.

Lemma clamp_in_range (i : Z) (len : nat) :
  (0 <= i <= Z.of_nat len)%Z -> Numpy.clamp i len = Z.to_nat i.
Proof. intros Hi. unfold Numpy.clamp. destruct (Z.ltb_spec i 0); lia. Qed.

(** The two slices ShuffleSplit takes cover the permutation, for every
    integer test size. *)
Lemma slices_cover {A : Type} (l : list A) (n_test : Z) :
  Numpy.slice l 0 n_test = List.firstn (Numpy.clamp n_test (length l)) l /\
  Numpy.slice l n_test (n_test + (Z.of_nat (length l) - n_test))
  = List.skipn (Numpy.clamp n_test (length l)) l.
Proof.
  unfold Numpy.slice. split.
  - change (Numpy.clamp 0 (length l)) with (Nat.min 0 (length l)).
    simpl. by rewrite Nat.sub_0_r.
  - replace (n_test + (Z.of_nat (length l) - n_test))%Z with (Z.of_nat (length l)) by lia.
    rewrite clamp_length. apply firstn_all2. rewrite length_skipn. lia.
Qed.

Lemma take_positions_in_range {A : Type} (d : A) (l : list A) (positions : list nat) :
  Forall (fun p => p < length l) positions ->
  Pandas.take_positions l positions = Some (map (fun p => nth p l d) positions).
Proof.
  induction 1 as [|p ps Hp _ IH]; simpl; [reflexivity|].
  rewrite IH. rewrite (nth_error_nth' l d Hp). reflexivity.
Qed.

Lemma iloc_in_range (T : Pandas.DataFrame) (positions : list nat) :
  Forall (fun p => p < length (Pandas.index T)) positions ->
  Pandas.iloc T positions = Return (at_positions T positions).
Proof.
  intros Hp. unfold Pandas.iloc. by rewrite (take_positions_in_range 0%Z _ _ Hp).
Qed.

Lemma map_nth_seq {A B : Type} (f : A -> B) (d : A) (l : list A) :
  map (fun i => f (nth i l d)) (seq 0 (length l)) = map f l.
Proof.
  induction l as [|x l IH]; [reflexivity|].
  cbn [length seq map nth]. f_equal. rewrite <- seq_shift, map_map. exact IH.
Qed.

Lemma records_at_positions (T : Pandas.DataFrame) (positions : list nat) :
  Spec.records (at_positions T positions)
  = map (Spec.record_at (Pandas.columns T)) positions.
Proof.
  unfold Spec.records, at_positions. simpl. rewrite length_map.
  rewrite <- (map_nth_seq (Spec.record_at (Pandas.columns T)) 0 positions).
  apply map_ext_in. intros i Hi. apply in_seq in Hi.
  unfold Spec.record_at. rewrite map_map. apply map_ext. intros [k vs]. simpl.
  f_equal. unfold Pandas.cell at 1.
  rewrite (nth_indep _ Pandas.VNaN (Pandas.cell vs 0))
    by (rewrite length_map; lia).
  by rewrite map_nth.
Qed.

Lemma entries_at_positions (T : Pandas.DataFrame) (positions : list nat) :
  Spec.entries (at_positions T positions)
  = map (fun p => (nth p (Pandas.index T) 0%Z, Spec.record_at (Pandas.columns T) p))
        positions.
Proof.
  unfold Spec.entries. rewrite records_at_positions. simpl.
  induction positions as [|p ps IH]; simpl; [reflexivity | by rewrite IH].
Qed.

Lemma combine_seq {A B : Type} (d : A) (l : list A) (g : nat -> B) :
  combine l (map g (seq 0 (length l)))
  = map (fun p => (nth p l d, g p)) (seq 0 (length l)).
Proof.
  revert g. induction l as [|x l IH]; intros g; [reflexivity|].
  cbn [length seq map combine nth]. f_equal.
  rewrite <- seq_shift, !map_map. apply IH.
Qed.

Lemma entries_all_positions (T : Pandas.DataFrame) :
  Spec.entries T
  = map (fun p => (nth p (Pandas.index T) 0%Z, Spec.record_at (Pandas.columns T) p))
        (seq 0 (length (Pandas.index T))).
Proof. unfold Spec.entries, Spec.records. apply combine_seq. Qed.

(** ** The split *)

Lemma permutation_in_range `{Numpy.RandomState} (seed : Z) (n : nat) :
  Numpy.permutes seed n ->
  length (Numpy.permutation seed n) = n /\
  Forall (fun p => p < n) (Numpy.permutation seed n).
Proof.
  intros Hp. split.
  - rewrite (Permutation_length Hp). apply length_seq.
  - apply Forall_forall. intros p Hin. apply list_elem_of_In in Hin.
    apply (Permutation_in _ Hp), in_seq in Hin. lia.
Qed.

Lemma index_at_positions (T : Pandas.DataFrame) :
  Pandas.index T
  = map (fun p => nth p (Pandas.index T) 0%Z) (seq 0 (length (Pandas.index T))).
Proof.
  rewrite (map_nth_seq (fun z => z) 0%Z (Pandas.index T)). symmetry. apply map_id.
Qed.

Lemma rotation_permutes (seed : Z) (n : nat) : @Numpy.permutes rotation_generator seed n.
Proof.
  unfold Numpy.permutes, Numpy.permutation. cbn [rotation_generator
    Numpy.seeded Numpy.permutation_from fst]. unfold Numpy.rotation.
  rewrite Permutation_app_comm. by rewrite firstn_skipn.
Qed.

(** A float strictly between 0 and 1 passes the library's test on fractions
    (it rejects f <= 0 and f >= 1). *)
Lemma SFltb_SFleb (x y : spec_float) : SFltb x y = true -> SFleb y x = false.
Proof.
  unfold SFltb, SFleb.
  destruct x as [sx|sx| |sx mx ex], y as [sy|sy| |sy my ey]; simpl;
    try discriminate;
    try (destruct sx; simpl; try discriminate; try reflexivity;
         destruct sy; simpl; try discriminate; reflexivity);
    try (destruct sy; simpl; try discriminate; reflexivity).
  change (PosDef.Pos.compare_cont Eq my mx) with (Pos.compare my mx).
  change (PosDef.Pos.compare_cont Eq mx my) with (Pos.compare mx my).
  rewrite (Z.compare_antisym ex ey), (Pos.compare_antisym mx my).
  destruct sx, sy; simpl; try discriminate; try reflexivity;
    destruct (ex ?= ey)%Z; simpl; try discriminate; try reflexivity;
    destruct (mx ?= my)%positive; simpl; try discriminate; reflexivity.
Qed.

Lemma open_interval (f : float) :
  (0 <? f)%float = true -> (f <? 1)%float = true ->
  (f <=? 0)%float = false /\ (1 <=? f)%float = false.
Proof.
  rewrite !ltb_spec, !leb_spec. intros H0 H1.
  split; by apply SFltb_SFleb.
Qed.

Section Split.

(** A table, a fraction in the open interval (0,1), a seed whose permutation
    the generator draws, and the test size [k] that math.ceil gives for
    f * len(T). *)
Context `{Numpy.RandomState}.
Variables (T : Pandas.DataFrame) (f : float) (seed k : Z).
Hypothesis permuted : Numpy.permutes seed (length (Pandas.index T)).
Hypothesis above_zero : (0 <? f)%float = true.
Hypothesis below_one : (f <? 1)%float = true.
Hypothesis test_rows :
  Sklearn.ceil (f * Sklearn.float_of_Z (Z.of_nat (length (Pandas.index T))))%float
  = Return k.

Lemma validate_float :
  Sklearn.validate_shuffle_split (Z.of_nat (length (Pandas.index T))) (Yaml.Float f)
  = if (Z.of_nat (length (Pandas.index T)) - k =? 0)%Z then Raise ValueError
    else Return ((Z.of_nat (length (Pandas.index T)) - k)%Z, k).
Proof.
  unfold Sklearn.validate_shuffle_split.
  destruct (open_interval f above_zero below_one) as [-> ->].
  rewrite test_rows. simpl.
  destruct (Z.ltb_spec (Z.of_nat (length (Pandas.index T)))
              (Z.of_nat (length (Pandas.index T)) - k + k)); [lia | reflexivity].
Qed.

(** With a valid fraction the split fails exactly when the train side would
    be empty; otherwise the test table takes the first rows of the
    permutation and the train table the others. *)
Lemma split_run :
  Sklearn.split T (Yaml.Float f) seed
  = if (Z.of_nat (length (Pandas.index T)) - k =? 0)%Z then Raise ValueError
    else
      let c := Numpy.clamp k (length (Pandas.index T)) in
      let p := Numpy.permutation seed (length (Pandas.index T)) in
      Return (at_positions T (List.skipn c p), at_positions T (List.firstn c p)).
Proof.
  unfold Sklearn.split. rewrite validate_float.
  destruct (Z.of_nat (length (Pandas.index T)) - k =? 0)%Z; [reflexivity|].
  destruct (permutation_in_range seed _ permuted) as [Hlen Hrange].
  cbn [mbind outcome_bind fst snd].
  set (p := Numpy.permutation seed (length (Pandas.index T))) in *.
  destruct (slices_cover p k) as [Htest Htrain].
  rewrite Hlen in Htest, Htrain. rewrite Htest, Htrain.
  rewrite !iloc_in_range; [reflexivity | by apply Forall_drop | by apply Forall_take].
Qed.

(** C2 (amended): let f be a fraction in (0,1) and k the test size
    math.ceil(f * len(T)).  When k differs from len(T), the split produces a
    train and a test table: every row of T, with its label, is in exactly
    one of them (the rows of the two tables together are a rearrangement of
    the rows of T; with distinct row labels no label is on both sides), and
    the lengths add up to len(T).  When k equals len(T), as on the empty
    table, the train side would be empty and the split raises ValueError. *)
Theorem split_partitions :
  (k = Z.of_nat (length (Pandas.index T)) ->
   Sklearn.split T (Yaml.Float f) seed = Raise ValueError) /\
  (k <> Z.of_nat (length (Pandas.index T)) ->
   exists train test,
     Sklearn.split T (Yaml.Float f) seed = Return (train, test) /\
     Permutation (Spec.entries train ++ Spec.entries test) (Spec.entries T) /\
     Permutation (Pandas.index train ++ Pandas.index test) (Pandas.index T) /\
     (NoDup (Pandas.index T) ->
      forall x, x ∈ Pandas.index train -> x ∉ Pandas.index test) /\
     length (Pandas.index train) + length (Pandas.index test)
     = length (Pandas.index T)).
Proof.
  rewrite split_run. split; intros Hkn.
  - destruct (Z.eqb_spec (Z.of_nat (length (Pandas.index T)) - k) 0); [reflexivity | lia].
  - destruct (Z.eqb_spec (Z.of_nat (length (Pandas.index T)) - k) 0); [lia|].
    set (c := Numpy.clamp k (length (Pandas.index T))).
    set (p := Numpy.permutation seed (length (Pandas.index T))).
    assert (Hcover : Permutation (List.skipn c p ++ List.firstn c p)
                                 (seq 0 (length (Pandas.index T)))).
    { rewrite Permutation_app_comm, firstn_skipn. exact permuted. }
    assert (Hidx : Permutation
                     (Pandas.index (at_positions T (List.skipn c p))
                      ++ Pandas.index (at_positions T (List.firstn c p)))
                     (Pandas.index T)).
    { simpl. rewrite <- map_app.
      eapply Permutation_trans; [apply Permutation_map, Hcover|].
      by rewrite <- index_at_positions. }
    exists (at_positions T (List.skipn c p)), (at_positions T (List.firstn c p)).
    split; [reflexivity|]. split; [|split; [exact Hidx | split]].
    + rewrite !entries_at_positions, entries_all_positions, <- map_app.
      by apply Permutation_map.
    + intros Hnd. rewrite <- Hidx in Hnd. by apply NoDup_app in Hnd as (_ & Hd & _).
    + rewrite <- (Permutation_length Hidx). by rewrite length_app.
Qed.

(** C9 (amended): for a fraction f in (0,1) and a table of n rows, let k be
    math.ceil(f * n).  When 0 <= k < n the split succeeds, the test table has
    k rows and the train table n - k rows.  In particular the 8-row filtered
    table of the scenario at 0.25 gives 2 test rows and 6 train rows. *)
Theorem split_sizes :
  (0 <= k < Z.of_nat (length (Pandas.index T)))%Z ->
  sizes (Sklearn.split T (Yaml.Float f) seed)
  = Return (length (Pandas.index T) - Z.to_nat k, Z.to_nat k).
Proof.
  intros Hrange. rewrite split_run.
  destruct (Z.eqb_spec (Z.of_nat (length (Pandas.index T)) - k) 0); [lia|].
  destruct (permutation_in_range seed _ permuted) as [Hlen _].
  simpl. rewrite !length_map, length_skipn, length_firstn, Hlen.
  rewrite clamp_in_range by lia. f_equal. f_equal. lia.
Qed.

End Split.

(** C2 as stated fails on the table that is left when no row is labelled
    "happiness" or "sadness": the fraction 0.25 lies in (0,1), the table is
    empty, and the split raises ValueError instead of producing two tables. *)
Lemma split_of_empty_table_fails :
  (0 <? 0.25)%float = true /\ (0.25 <? 1)%float = true /\
  Pandas.index (@final_frame pandas_3 neutral_table) = [] /\
  @Sklearn.split rotation_generator (@final_frame pandas_3 neutral_table) (Yaml.Float 0.25) 42
  = Raise ValueError.
Proof. repeat split; reflexivity. Qed.

Lemma split_partitions_witness :
  exists train test,
    @Sklearn.split rotation_generator (@final_frame pandas_3 scenario_table) (Yaml.Float 0.25) 42
    = Return (train, test) /\
    Permutation (Spec.entries train ++ Spec.entries test)
                (Spec.entries (@final_frame pandas_3 scenario_table)) /\
    Permutation (Pandas.index train ++ Pandas.index test)
                (Pandas.index (@final_frame pandas_3 scenario_table)) /\
    (NoDup (Pandas.index (@final_frame pandas_3 scenario_table)) ->
     forall x, x ∈ Pandas.index train -> x ∉ Pandas.index test) /\
    length (Pandas.index train) + length (Pandas.index test)
    = length (Pandas.index (@final_frame pandas_3 scenario_table)).
Proof.
  apply (proj2 (@split_partitions rotation_generator (@final_frame pandas_3 scenario_table)
                  0.25%float 42 2 (rotation_permutes 42 8) eq_refl eq_refl eq_refl)).
  vm_compute. discriminate.
Defined.

(** C9 as stated fails: ten rows at the fraction 0.125 give a test table of
    2 rows, the ceiling of 1.25, where rounding gives 1. *)
Lemma test_size_is_not_rounded :
  length (Pandas.index scenario_table) = 10 /\
  (0 <? 0.125)%float = true /\ (0.125 <? 1)%float = true /\
  Spec.round (0.125 * Sklearn.float_of_Z 10)%float = Return 1%Z /\
  sizes (@Sklearn.split rotation_generator scenario_table (Yaml.Float 0.125) 42)
  = Return (8, 2).
Proof. repeat split; reflexivity. Qed.

Lemma split_sizes_witness :
  length (Pandas.index (@final_frame pandas_3 scenario_table)) = 8 /\
  sizes (@Sklearn.split rotation_generator (@final_frame pandas_3 scenario_table)
           (Yaml.Float 0.25) 42)
  = Return (6, 2).
Proof.
  split; [reflexivity|].
  apply (@split_sizes rotation_generator (@final_frame pandas_3 scenario_table)
           0.25%float 42 2 (rotation_permutes 42 8) eq_refl eq_refl eq_refl).
  vm_compute. split; [discriminate | reflexivity].
Defined.

(** ** C3 *)

Lemma train_test_split_run `{Numpy.RandomState} (w : World) (arr : loc)
    (T : Pandas.DataFrame) (test_size : Yaml.value) (seed : Z) :
  heap w !! arr = Some T ->
  Sklearn.train_test_split arr test_size (Some seed) w
  = match Sklearn.split T test_size seed with
    | Return (train, test) =>
        (Return (length (heap w), S (length (heap w))),
         with_heap (heap w ++ [train; test]) w)
    | Raise e => (Raise e, w)
    | Stuck => (Stuck, w)
    end.
Proof.
  intros Harr. unfold Sklearn.train_test_split, mbind, Py_bind, bind, load.
  rewrite Harr. unfold lift.
  destruct (Sklearn.split T test_size seed) as [[train test]|e|]; try reflexivity.
  simpl. unfold with_heap. simpl. rewrite length_app, <- app_assoc. simpl.
  rewrite Nat.add_1_r. reflexivity.
Qed.

Lemma tables_train_test_split `{Numpy.RandomState} (w : World) (arr : loc)
    (T : Pandas.DataFrame) (test_size : Yaml.value) (seed : Z) :
  heap w !! arr = Some T ->
  tables (Sklearn.train_test_split arr test_size (Some seed) w)
  = match Sklearn.split T test_size seed with
    | Return (train, test) => Return (Some train, Some test)
    | Raise e => Raise e
    | Stuck => Stuck
    end.
Proof.
  intros Harr. rewrite (train_test_split_run w arr T test_size seed Harr).
  destruct (Sklearn.split T test_size seed) as [[train test]|e|]; try reflexivity.
  unfold tables. simpl. f_equal. f_equal.
  - by rewrite lookup_app_r, Nat.sub_diag by lia.
  - rewrite lookup_app_r by lia. by replace (S (length (heap w)) - length (heap w)) with 1 by lia.
Qed.

(** ** The stages when they succeed *)

Lemma load_params_ok (w : World) (path : string)
    (items section : list (string * Yaml.value)) (v : Yaml.value) :
  configs w !! path = Some (Document (Yaml.Map items)) ->
  Yaml.dict_get items "data_ingestion" = Some (Yaml.Map section) ->
  Yaml.dict_get section "test_size" = Some v ->
  load_params path w = (Return v, logged INFO (Loaded_test_size v path) w).
Proof.
  intros Hcfg Hsec Hv.
  unfold load_params, load_params_body, yaml_safe_load. run_py.
  rewrite Hcfg. simpl. rewrite Hsec. simpl. rewrite Hv. reflexivity.
Qed.

Lemma read_data_ok (w : World) (url : string) (T : Pandas.DataFrame) :
  sources w !! url = Some (FetchTable T) ->
  read_data url w
  = (Return (length (heap w)),
     logged INFO (Data_loaded url) (with_heap (heap w ++ [T]) w)).
Proof.
  intros Hsrc.
  unfold read_data, read_data_body, read_csv. run_py.
  rewrite Hsrc. reflexivity.
Qed.

Lemma mkdirs_ok (dirs : list string) (d : gmap string node) :
  (forall p c, In p dirs -> d !! p <> Some (File c)) ->
  exists d', Os.mkdirs dirs d = Return d' /\
             forall q, ~ In q dirs -> d' !! q = d !! q.
Proof.
  revert d. induction dirs as [|p dirs IH]; intros d Hfree.
  - exists d. split; reflexivity.
  - simpl. destruct (d !! p) as [[|c]|] eqn:Hp.
    + destruct (IH d) as (d' & Hd' & Hsame).
      { intros q c Hq. apply Hfree. by right. }
      exists d'. split; [exact Hd'|]. intros q Hq. apply Hsame. tauto.
    + exfalso. apply (Hfree p c); [by left | exact Hp].
    + destruct (IH (<[p := Dir]> d)) as (d' & Hd' & Hsame).
      { intros q c Hq. destruct (decide (p = q)) as [->|Hne].
        - by rewrite lookup_insert_eq.
        - rewrite lookup_insert_ne by exact Hne. apply Hfree. by right. }
      exists d'. split; [exact Hd'|]. intros q Hq.
      rewrite Hsame by tauto. apply lookup_insert_ne. tauto.
Qed.

Lemma save_data_ok (w : World) (train test : loc) (A B : Pandas.DataFrame) :
  heap w !! train = Some A ->
  heap w !! test = Some B ->
  destination_free (disk w) ->
  exists d,
    save_data "data/raw" train test w
    = (Return tt,
       logged INFO (Data_saved "data/raw")
         (with_disk (<["data/raw/test.csv" := File (Pandas.to_csv B false)]>
                       (<["data/raw/train.csv" := File (Pandas.to_csv A false)]> d)) w)).
Proof.
  intros HA HB (Hdirs & Htrain & Htest).
  destruct (mkdirs_ok _ _ Hdirs) as (d & Hd & Hsame).
  exists d.
  unfold save_data, try_except, save_data_body, mbind, Py_bind, bind, Os.makedirs.
  simpl String.eqb. cbv iota. rewrite Hd.
  unfold to_csv, mbind, Py_bind, bind, load. simpl heap. rewrite HA.
  change (Os.path_join "data/raw" "train.csv") with "data/raw/train.csv".
  change (Os.path_join "data/raw" "test.csv") with "data/raw/test.csv".
  unfold write_file at 1. simpl disk.
  assert (Hd1 : d !! "data/raw/train.csv" <> Some Dir).
  { rewrite Hsame; [exact Htrain|]. vm_compute. intuition discriminate. }
  destruct (d !! "data/raw/train.csv") as [[|c]|] eqn:E1; try contradiction;
    simpl heap; rewrite HB; unfold write_file; simpl disk;
    (rewrite lookup_insert_ne by discriminate);
    (assert (Hd2 : d !! "data/raw/test.csv" <> Some Dir)
       by (rewrite Hsame; [exact Htest | vm_compute; intuition discriminate]));
    destruct (d !! "data/raw/test.csv") as [[|c']|] eqn:E2; try contradiction;
    reflexivity.
Qed.

Lemma lookup_two_new {A : Type} (l : list A) (a b : A) :
  (l ++ [a; b])%list !! length l = Some a /\
  (l ++ [a; b])%list !! S (length l) = Some b.
Proof.
  split.
  - by rewrite lookup_app_r, Nat.sub_diag by lia.
  - rewrite lookup_app_r by lia.
    by replace (S (length l) - length l) with 1 by lia.
Qed.

(** ** The written tables *)

Lemma combine_names_row (T : Pandas.DataFrame) (i : nat) :
  combine (Pandas.column_names T) (Pandas.row T i)
  = Spec.record_at (Pandas.columns T) i.
Proof.
  unfold Pandas.column_names, Pandas.row, Spec.record_at.
  induction (Pandas.columns T) as [|c cols IH]; simpl; [reflexivity | by rewrite IH].
Qed.

Lemma column_names_final_frame `{Pandas.Mode} (T : Pandas.DataFrame) :
  Pandas.column_names (final_frame T)
  = List.filter (fun n => negb (String.eqb n "tweet_id")) (Pandas.column_names T).
Proof.
  assert (HW : Pandas.column_names (without_tweet_id T)
               = List.filter (fun n => negb (String.eqb n "tweet_id"))
                   (Pandas.column_names T)).
  { unfold Pandas.column_names, without_tweet_id. simpl.
    rewrite (names_filter (fun n => negb (Pandas.mem n ["tweet_id"]))).
    apply filter_ext. intros n. unfold Pandas.mem. simpl. by rewrite orb_false_r. }
  unfold final_frame.
  destruct (Pandas.find_column (Pandas.columns T) "sentiment"); [|exact HW].
  rewrite <- HW. unfold Pandas.column_names. cbv zeta.
  destruct Pandas.copy_on_write; simpl; rewrite !map_map; [reflexivity|].
  apply map_ext. intros c. simpl. by destruct (String.eqb (fst c) "sentiment").
Qed.

(** The file written for a selection of rows of a table. *)
Lemma to_csv_at_positions (labels : list Pandas.value) (F : Pandas.DataFrame)
    (positions : list nat) :
  Forall (fun p => p < length (Pandas.index F)) positions ->
  Forall (labelled labels) (Spec.records F) ->
  labelled_table labels (Pandas.column_names F)
                 (Pandas.to_csv (at_positions F positions) false).
Proof.
  intros Hrange Hbin.
  set (A := at_positions F positions).
  assert (Hnames : Pandas.column_names A = Pandas.column_names F).
  { unfold A, Pandas.column_names, at_positions. simpl. by rewrite map_map. }
  unfold labelled_table, Pandas.to_csv. simpl. split; [exact Hnames|].
  unfold Pandas.rows. split; apply Forall_forall; intros r Hr;
    apply list_elem_of_In, in_map_iff in Hr as (i & <- & Hi).
  - unfold Pandas.row. rewrite length_map. rewrite <- Hnames.
    unfold Pandas.column_names. by rewrite length_map.
  - rewrite <- Hnames, combine_names_row.
    assert (Hin : In (Spec.record_at (Pandas.columns A) i) (Spec.records A)).
    { unfold Spec.records. by apply in_map. }
    unfold A in Hin at 2. rewrite records_at_positions in Hin.
    apply in_map_iff in Hin as (p & <- & Hp).
    rewrite Forall_forall in Hbin. apply Hbin. apply list_elem_of_In.
    unfold Spec.records. apply in_map. apply in_seq.
    rewrite Forall_forall in Hrange. apply list_elem_of_In, Hrange in Hp. lia.
Qed.

(** The labels of the table process_data returns. *)
Lemma final_frame_labels `{Pandas.Mode} (T : Pandas.DataFrame) :
  Pandas.well_formed T ->
  Pandas.has_column T "sentiment" = true ->
  Forall (labelled returned_labels) (Spec.records (final_frame T)).
Proof.
  intros Hwf Hsent. rewrite (records_final_frame T Hwf Hsent).
  unfold returned_labels, labelled. destruct Pandas.copy_on_write.
  - eapply Forall_impl; [apply filtered_labels|]. simpl.
    intros r [E | E]; eexists; (split; [exact E|]); simpl; tauto.
  - eapply Forall_impl; [apply filterAndRecode_binary|]. simpl.
    intros r [E | E]; eexists; (split; [exact E|]); simpl; tauto.
Qed.

Lemma labelled_more (labels labels' : list Pandas.value) (r : Spec.record) :
  incl labels labels' -> labelled labels r -> labelled labels' r.
Proof. intros Hincl (v & E & Hin). exists v. auto. Qed.

Lemma returned_labels_kept `{Pandas.Mode} : incl returned_labels kept_labels.
Proof.
  unfold returned_labels, kept_labels.
  destruct Pandas.copy_on_write; [apply incl_appl | apply incl_appr]; apply incl_refl.
Qed.

Lemma destination_free_empty : destination_free ∅.
Proof.
  split; [|split].
  - intros p c _. rewrite lookup_empty. discriminate.
  - rewrite lookup_empty. discriminate.
  - rewrite lookup_empty. discriminate.
Qed.

(** * Further properties of the program *)

(** ** Rules for [ensures] *)

Lemma ensures_bind {A B : Type} (m : Py A) (k : A -> Py B) (w : World)
    (Q : B -> World -> Prop) (R : exn -> World -> Prop) :
  ensures m w (fun a w' => ensures (k a) w' Q R) R -> ensures (m ≫= k) w Q R.
Proof.
  unfold ensures, mbind, Py_bind, bind. destruct (m w) as [[a|e|] w']; auto.
Qed.

Lemma ensures_weaken {A : Type} (m : Py A) (w : World)
    (Q Q' : A -> World -> Prop) (R R' : exn -> World -> Prop) :
  ensures m w Q R ->
  (forall a w', Q a w' -> Q' a w') -> (forall e w', R e w' -> R' e w') ->
  ensures m w Q' R'.
Proof.
  unfold ensures. destruct (m w) as [[a|e|] w']; auto.
Qed.

Lemma quiet_refl (w : World) : quiet w w.
Proof. repeat split. exists []. by rewrite app_nil_r. Qed.

Lemma quiet_trans (w1 w2 w3 : World) : quiet w1 w2 -> quiet w2 w3 -> quiet w1 w3.
Proof.
  intros (C1 & S1 & D1 & l1 & L1) (C2 & S2 & D2 & l2 & L2).
  repeat split; try congruence.
  exists (l1 ++ l2)%list. by rewrite L2, L1, <- app_assoc.
Qed.

Lemma quiet_logged (lv : level) (m : message) (w : World) : quiet w (logged lv m w).
Proof. repeat split. by exists [(lv, m)]. Qed.

Lemma quiet_with_heap (h : list Pandas.DataFrame) (w : World) : quiet w (with_heap h w).
Proof. repeat split. exists []. simpl. by rewrite app_nil_r. Qed.

Lemma quiet_with_log (records : list (level * message)) (w : World) :
  quiet w (with_log (log w ++ records) w).
Proof. repeat split. by exists records. Qed.

Lemma quiet_writes_at (paths : list string) (w w' : World) :
  quiet w w' -> writes_at paths w w'.
Proof. intros (C & S & D & L). repeat split; try assumption. intros q _. by rewrite D. Qed.

Lemma writes_at_trans (paths : list string) (w1 w2 w3 : World) :
  writes_at paths w1 w2 -> writes_at paths w2 w3 -> writes_at paths w1 w3.
Proof.
  intros (C1 & S1 & D1 & l1 & L1) (C2 & S2 & D2 & l2 & L2).
  repeat split; try congruence.
  - intros q Hq. by rewrite D2, D1.
  - exists (l1 ++ l2)%list. by rewrite L2, L1, <- app_assoc.
Qed.

(** ** load_params *)

Lemma load_params_outcome (path : string) (w : World) :
  fst (load_params path w) = opened path (configs w !! path) ≫= test_size_of.
Proof.
  transitivity (fst (load_params_body path w));
    [apply try_except_reraises, load_params_reraises|].
  unfold load_params_body, yaml_safe_load, test_size_of, opened. run_py.
  destruct (configs w !! path) as [[| | | |doc]|]; try reflexivity.
  simpl. destruct (Yaml.subscript doc "data_ingestion") as [section|e|]; try reflexivity.
  simpl. destruct (Yaml.subscript section "test_size"); reflexivity.
Qed.

Lemma test_size_of_return (doc v : Yaml.value) :
  test_size_of doc = Return v <->
  exists items section,
    doc = Yaml.Map items /\
    Yaml.dict_get items "data_ingestion" = Some (Yaml.Map section) /\
    Yaml.dict_get section "test_size" = Some v.
Proof.
  unfold test_size_of, Yaml.subscript. split.
  - destruct doc as [| | | | | |items]; try discriminate. simpl.
    destruct (Yaml.dict_get items "data_ingestion") as [sec|] eqn:E1; [|discriminate].
    simpl. destruct sec as [| | | | | |section]; try discriminate.
    destruct (Yaml.dict_get section "test_size") as [x|] eqn:E2; [|discriminate].
    intros [= ->]. by exists items, section.
  - intros (items & section & -> & E1 & E2). simpl. rewrite E1. simpl. by rewrite E2.
Qed.

(** X1: load_params returns a value exactly when the file parses to a mapping
    whose data_ingestion entry is a mapping with a test_size entry, and the
    value returned is that entry as it stands: it is not checked to be a
    number or to lie in a range, and nothing is put in its place. *)
Theorem load_params_returns_the_entry (path : string) (w : World) (v : Yaml.value) :
  fst (load_params path w) = Return v <->
  exists items section,
    configs w !! path = Some (Document (Yaml.Map items)) /\
    Yaml.dict_get items "data_ingestion" = Some (Yaml.Map section) /\
    Yaml.dict_get section "test_size" = Some v.
Proof.
  rewrite load_params_outcome. split.
  - destruct (configs w !! path) as [[| | | |doc]|]; try discriminate.
    simpl. intros H. apply test_size_of_return in H as (items & section & -> & H1 & H2).
    by exists items, section.
  - intros (items & section & -> & H1 & H2). apply test_size_of_return.
    by exists items, section.
Qed.

Lemma test_size_of_raises (doc : Yaml.value) (e : exn) :
  test_size_of doc = Raise e -> e = TypeError \/ exists k, e = KeyError k.
Proof.
  unfold test_size_of, Yaml.subscript.
  destruct doc as [| | | | | |items]; simpl; try (intros [= <-]; by left).
  destruct (Yaml.dict_get items "data_ingestion") as [sec|]; simpl;
    [|intros [= <-]; right; by eexists].
  destruct sec as [| | | | | |section]; try (intros [= <-]; by left).
  destruct (Yaml.dict_get section "test_size"); [discriminate|].
  intros [= <-]. right. by eexists.
Qed.

Lemma test_size_of_not_stuck (doc : Yaml.value) : test_size_of doc <> Stuck.
Proof.
  unfold test_size_of, Yaml.subscript.
  destruct doc as [| | | | | |items]; simpl; try discriminate.
  destruct (Yaml.dict_get items "data_ingestion") as [sec|]; simpl; [|discriminate].
  destruct sec as [| | | | | |section]; try discriminate.
  by destruct (Yaml.dict_get section "test_size").
Qed.

(** The world load_params leaves, for each way the try block can end. *)
Lemma load_params_world (path : string) (w : World) :
  snd (load_params path w)
  = with_log (log w ++ match fst (load_params path w) with
                       | Return v => [(INFO, Loaded_test_size v path)]
                       | Raise e => load_error_records path e
                       | Stuck => []
                       end) w.
Proof.
  assert (Hsame : forall w0 : World, with_log (log w0 ++ []) w0 = w0).
  { intros [h c s d l]. unfold with_log. simpl. by rewrite app_nil_r. }
  unfold load_params, load_params_body, yaml_safe_load. run_py.
  destruct (configs w !! path) as [[| | | |doc]|]; simpl;
    try reflexivity; try (by rewrite Hsame).
  pose proof (test_size_of_raises doc) as Hraise. unfold test_size_of in Hraise.
  destruct (Yaml.subscript doc "data_ingestion") as [section|e|]; simpl in *.
  - destruct (Yaml.subscript section "test_size") as [v|e|]; simpl in *;
      try reflexivity; try (by rewrite Hsame).
    destruct (Hraise e eq_refl) as [-> | [k ->]]; simpl;
      try reflexivity; by rewrite Hsame.
  - destruct (Hraise e eq_refl) as [-> | [k ->]]; simpl;
      try reflexivity; by rewrite Hsame.
  - by rewrite Hsame.
Qed.

Lemma load_params_not_stuck (path : string) (w : World) :
  fst (load_params path w) <> Stuck.
Proof.
  rewrite load_params_outcome.
  destruct (configs w !! path) as [[| | | |doc]|]; simpl; try discriminate.
  apply test_size_of_not_stuck.
Qed.


(** ** read_data *)

Lemma read_data_run (url : string) (w : World) :
  read_data url w
  = match sources w !! url with
    | Some (FetchTable T) =>
        (Return (length (heap w)),
         logged INFO (Data_loaded url) (with_heap (heap w ++ [T]) w))
    | found =>
        match fetch_error url found with
        | Some e => (Raise e, logged ERROR (read_error_message url e) w)
        | None => (Stuck, w)
        end
    end.
Proof.
  unfold read_data, read_data_body, read_csv. run_py.
  destruct (sources w !! url) as [[| |e|T]|]; try reflexivity.
  - simpl. by destruct e.
  - unfold fetch_error, nothing_there. simpl. by destruct (Pandas.is_url url).
Qed.

(** X3: read_data has no fallback.  When it raises, the error is the one the
    reader raised for that location, no table has been created, and one
    ERROR record names the location; when it returns, the location held a
    table and the result is one new object holding that table. *)
Theorem read_data_table_or_error (url : string) (w : World) :
  (forall e, fst (read_data url w) = Raise e ->
     fetch_error url (sources w !! url) = Some e /\
     heap (snd (read_data url w)) = heap w /\
     log (snd (read_data url w)) = (log w ++ [(ERROR, read_error_message url e)])%list) /\
  (forall l, fst (read_data url w) = Return l ->
     exists T, sources w !! url = Some (FetchTable T) /\
               l = length (heap w) /\
               heap (snd (read_data url w)) = (heap w ++ [T])%list) /\
  fst (read_data url w) <> Stuck.
Proof.
  rewrite read_data_run.
  destruct (sources w !! url) as [[| |e0|T]|]; simpl;
    (split; [|split]); try discriminate;
    try (intros e [= <-]; by repeat split).
  intros l [= <-]. by exists T.
Qed.

Lemma read_data_table_or_error_witness :
  fetch_error dataset_url (sources (world_with []) !! dataset_url) = Some URLError /\
  heap (snd (read_data dataset_url (world_with []))) = [] /\
  log (snd (read_data dataset_url (world_with [])))
  = [(ERROR, read_error_message dataset_url URLError)].
Proof.
  apply (proj1 (read_data_table_or_error dataset_url (world_with []))).
  reflexivity.
Defined.

(** X4: every call of read_data builds its own table.  After two reads of the
    same location the two results are different objects, and process_data on
    the first (which removes its tweet_id column) leaves the second as it was
    read. *)
Theorem reads_do_not_share `{Pandas.Mode} (url : string) (w : World)
    (T : Pandas.DataFrame) :
  sources w !! url = Some (FetchTable T) ->
  let first := read_data url w in
  let second := read_data url (snd first) in
  let processed := process_data (length (heap w)) (snd second) in
  fst first = Return (length (heap w)) /\
  fst second = Return (S (length (heap w))) /\
  heap (snd processed) !! S (length (heap w)) = Some T /\
  (Pandas.has_column T "tweet_id" = true ->
   heap (snd processed) !! length (heap w) = Some (without_tweet_id T)).
Proof.
  intros Hsrc. cbv zeta.
  set (w1 := logged INFO (Data_loaded url) (with_heap (heap w ++ [T]) w)).
  set (w2 := logged INFO (Data_loaded url) (with_heap (heap w1 ++ [T]) w1)).
  assert (E1 : read_data url w = (Return (length (heap w)), w1))
    by (by apply read_data_ok).
  assert (E2 : read_data url w1 = (Return (length (heap w1)), w2))
    by (apply read_data_ok; exact Hsrc).
  assert (Hlen : length (heap w1) = S (length (heap w))).
  { unfold w1. simpl. rewrite length_app. simpl. lia. }
  rewrite E1. cbn [fst snd]. rewrite E2. cbn [fst snd].
  assert (H1 : heap w2 !! length (heap w) = Some T).
  { unfold w2, w1. simpl. rewrite <- app_assoc.
    exact (proj1 (lookup_two_new (heap w) T T)). }
  assert (H2 : heap w2 !! S (length (heap w)) = Some T).
  { unfold w2, w1. simpl. rewrite <- app_assoc.
    exact (proj2 (lookup_two_new (heap w) T T)). }
  assert (Hlen2 : length (heap w2) = S (S (length (heap w)))).
  { unfold w2, w1. simpl. rewrite !length_app. simpl. lia. }
  split; [reflexivity|]. split; [f_equal; exact Hlen|].
  rewrite (process_data_run w2 _ T H1).
  destruct (Pandas.has_column T "tweet_id"); cbn [negb];
    [|split; [exact H2 | discriminate]].
  destruct (Pandas.has_column T "sentiment");
    cbn [negb fst snd heap logged with_log with_heap].
  - split.
    + rewrite lookup_app_l by (rewrite length_insert, Hlen2; lia).
      rewrite list_lookup_insert_ne by lia. exact H2.
    + intros _. rewrite lookup_app_l by (rewrite length_insert, Hlen2; lia).
      apply list_lookup_insert_eq. rewrite Hlen2. lia.
  - split.
    + rewrite list_lookup_insert_ne by lia. exact H2.
    + intros _. apply list_lookup_insert_eq. rewrite Hlen2. lia.
Qed.

Lemma reads_do_not_share_witness :
  heap (snd (@process_data pandas_3 0
               (snd (read_data dataset_url
                       (snd (read_data dataset_url
                               (initial_world (config_with (Yaml.Float 0.25))
                                  scenario_table))))))) !! 1
  = Some scenario_table.
Proof.
  exact (proj1 (proj2 (proj2
           (reads_do_not_share dataset_url
              (initial_world (config_with (Yaml.Float 0.25)) scenario_table)
              scenario_table eq_refl)))).
Defined.

(** ** process_data *)

Lemma without_tweet_id_has_no_tweet_id (T : Pandas.DataFrame) :
  Pandas.has_column (without_tweet_id T) "tweet_id" = false.
Proof.
  unfold Pandas.has_column, Pandas.column_names. rewrite has_column_find.
  unfold without_tweet_id. simpl.
  induction (Pandas.columns T) as [|[k vs] cols IH]; simpl; [reflexivity|].
  replace (Pandas.mem k ["tweet_id"]) with (String.eqb k "tweet_id")
    by (unfold Pandas.mem; simpl; by rewrite orb_false_r).
  destruct (String.eqb k "tweet_id") eqn:E; simpl; [exact IH|].
  by rewrite E.
Qed.

Lemma final_frame_has_no_tweet_id `{Pandas.Mode} (T : Pandas.DataFrame) :
  Pandas.has_column (final_frame T) "tweet_id" = false.
Proof.
  pose proof (without_tweet_id_has_no_tweet_id T) as HW.
  unfold Pandas.has_column in *. rewrite column_names_final_frame.
  unfold Pandas.column_names, without_tweet_id in HW. simpl in HW.
  rewrite (names_filter (fun n => negb (Pandas.mem n ["tweet_id"]))) in HW.
  erewrite filter_ext; [exact HW|].
  intros n. unfold Pandas.mem. simpl. by rewrite orb_false_r.
Qed.

Lemma process_data_outcome `{Pandas.Mode} (w : World) (df : loc)
    (T : Pandas.DataFrame) :
  heap w !! df = Some T ->
  fst (process_data df w) =
    if negb (Pandas.has_column T "tweet_id")
    then Raise (KeyError "['tweet_id'] not found in axis")
    else if negb (Pandas.has_column T "sentiment")
    then Raise (KeyError "sentiment")
    else Return (length (heap w)).
Proof.
  intros Hdf. rewrite (process_data_run w df T Hdf).
  destruct (Pandas.has_column T "tweet_id"), (Pandas.has_column T "sentiment");
    reflexivity.
Qed.

(** X5: process_data cannot be run twice on a table.  The first call removes
    tweet_id from its argument, so a second call on the same argument raises
    the KeyError for tweet_id, and so does a call on the table the first one
    returned. *)
Theorem process_data_cannot_be_repeated `{Pandas.Mode} (w : World) (df : loc)
    (T : Pandas.DataFrame) :
  heap w !! df = Some T ->
  Pandas.has_column T "tweet_id" = true ->
  fst (process_data df (snd (process_data df w)))
  = Raise (KeyError "['tweet_id'] not found in axis") /\
  (Pandas.has_column T "sentiment" = true ->
   fst (process_data (length (heap w)) (snd (process_data df w)))
   = Raise (KeyError "['tweet_id'] not found in axis")).
Proof.
  intros Hdf Hid.
  assert (Hlt : df < length (heap w)) by (eapply lookup_lt_Some; eauto).
  rewrite (process_data_run w df T Hdf), Hid. cbn [negb].
  destruct (Pandas.has_column T "sentiment"); cbn [negb snd]; split;
    try discriminate.
  - rewrite (process_data_outcome _ df (without_tweet_id T)).
    + by rewrite without_tweet_id_has_no_tweet_id.
    + simpl. rewrite lookup_app_l by (rewrite length_insert; lia).
      by apply list_lookup_insert_eq.
  - intros _.
    rewrite (process_data_outcome _ (length (heap w)) (final_frame T)).
    + by rewrite final_frame_has_no_tweet_id.
    + simpl. rewrite lookup_app_r by (rewrite length_insert; lia).
      by rewrite length_insert, Nat.sub_diag.
  - rewrite (process_data_outcome _ df (without_tweet_id T)).
    + by rewrite without_tweet_id_has_no_tweet_id.
    + simpl. by apply list_lookup_insert_eq.
Qed.

Lemma process_data_cannot_be_repeated_witness :
  fst (@process_data pandas_3 0 (snd (@process_data pandas_3 0 (world_with [scenario_table]))))
  = Raise (KeyError "['tweet_id'] not found in axis") /\
  fst (@process_data pandas_3 1 (snd (@process_data pandas_3 0 (world_with [scenario_table]))))
  = Raise (KeyError "['tweet_id'] not found in axis").
Proof.
  destruct (process_data_cannot_be_repeated (H:=pandas_3) (world_with [scenario_table]) 0
              scenario_table eq_refl eq_refl) as [H1 H2].
  split; [exact H1 | exact (H2 eq_refl)].
Defined.

Lemma combine_select {A B : Type} (mask : list bool) (l : list A) (r : list B) :
  length l = length r ->
  combine (Pandas.select mask l) (Pandas.select mask r)
  = Pandas.select mask (combine l r).
Proof.
  revert l r. induction mask as [|b mask IH]; intros [|x l] [|y r] Hlen;
    try discriminate; try reflexivity.
  injection Hlen as Hlen. destruct b; simpl; by rewrite IH.
Qed.

Lemma select_filter_snd {A B : Type} (p : B -> bool) (l : list A) (r : list B) :
  length l = length r ->
  Pandas.select (map p r) (combine l r)
  = List.filter (fun e => p (snd e)) (combine l r).
Proof.
  revert r. induction l as [|x l IH]; intros [|y r] Hlen; try discriminate;
    [reflexivity|].
  injection Hlen as Hlen. simpl. destruct (p y); by rewrite IH.
Qed.

Lemma combine_map_snd {A B C : Type} (f : B -> C) (l : list A) (r : list B) :
  combine l (map f r) = map (fun e => (fst e, f (snd e))) (combine l r).
Proof.
  revert r. induction l as [|x l IH]; intros [|y r]; try reflexivity.
  simpl. by rewrite IH.
Qed.

Lemma select_sublist {A : Type} (mask : list bool) (l : list A) :
  sublist (Pandas.select mask l) l.
Proof.
  revert l. induction mask as [|b mask IH]; intros [|x l]; simpl;
    try apply sublist_nil_l.
  destruct b; [apply sublist_skip | apply sublist_cons]; apply IH.
Qed.

(** The selection behind the table process_data returns. *)
Lemma final_frame_selection `{Pandas.Mode} (T : Pandas.DataFrame)
    (s : list Pandas.value) :
  Pandas.well_formed T ->
  Pandas.find_column (Pandas.columns T) "sentiment" = Some s ->
  Pandas.index (final_frame T)
  = Pandas.select (Pandas.isin happiness_sadness s) (Pandas.index T) /\
  Spec.records (final_frame T)
  = map as_returned
      (Pandas.select (Pandas.isin happiness_sadness s)
         (map Spec.without_id (Spec.records T))) /\
  Pandas.isin happiness_sadness s
  = map Spec.retained (map Spec.without_id (Spec.records T)).
Proof.
  intros Hwf Hs.
  pose proof (well_formed_without_tweet_id T Hwf) as [Hnd Hlen].
  pose proof (find_column_length T _ _ Hwf Hs) as Hslen.
  assert (HsW : Pandas.find_column (Pandas.columns (without_tweet_id T)) "sentiment"
                = Some s).
  { unfold without_tweet_id. simpl. by rewrite find_column_filter. }
  assert (Hrec : map (Spec.record_at (Pandas.columns (without_tweet_id T)))
                     (seq 0 (length (Pandas.index T)))
                 = map Spec.without_id (Spec.records T)).
  { unfold Spec.records. rewrite map_map. apply map_ext. intros i.
    apply record_at_without_id. }
  assert (Hmask : Pandas.isin happiness_sadness s
                  = map Spec.retained (map Spec.without_id (Spec.records T))).
  { rewrite <- Hrec, map_map. unfold Pandas.isin.
    rewrite <- (cells_seq s) at 1. rewrite Hslen, map_map.
    apply map_ext. intros i. unfold Spec.retained, Spec.has_label.
    rewrite field_record_at, HsW. simpl.
    destruct (Pandas.cell s i); simpl;
      [by rewrite orb_false_r | reflexivity | reflexivity]. }
  set (mask := Pandas.isin happiness_sadness s) in *.
  assert (Hml : length mask = length (Pandas.index T)).
  { unfold mask, Pandas.isin. by rewrite length_map. }
  assert (Hkept : Spec.records (Pandas.boolean_index (without_tweet_id T) mask)
                  = Pandas.select mask (map Spec.without_id (Spec.records T))).
  { unfold Spec.records at 1.
    cbn [Pandas.boolean_index Pandas.index Pandas.columns].
    change (Pandas.index (without_tweet_id T)) with (Pandas.index T).
    rewrite (select_length mask (Pandas.index T)) by (symmetry; exact Hml).
    fold (select_columns mask (Pandas.columns (without_tweet_id T))).
    rewrite records_select by (rewrite Hml; exact Hlen).
    rewrite Hml. fold (Spec.records T) in Hrec. by rewrite Hrec. }
  unfold final_frame, as_returned. rewrite Hs. fold mask. cbv zeta.
  destruct Pandas.copy_on_write.
  - split; [reflexivity|]. split; [|exact Hmask]. by rewrite Hkept, map_id.
  - split; [reflexivity|]. split; [|exact Hmask].
    unfold mask in *. by rewrite (records_written_back T s Hwf Hs), Hkept.
Qed.

(** X6: the table process_data returns keeps the row labels of the input: the
    index is not renumbered.  Every row that is kept carries the label it had
    in the input, so the labelled rows of the result are the labelled rows of
    the input, filtered, each as process_data returns it (recoded without
    copy-on-write, as it was with it), and distinct labels stay distinct. *)
Theorem process_data_keeps_row_labels `{Pandas.Mode} (w : World) (df : loc)
    (T : Pandas.DataFrame) :
  heap w !! df = Some T ->
  Pandas.well_formed T ->
  Pandas.has_column T "tweet_id" = true ->
  Pandas.has_column T "sentiment" = true ->
  exists F : Pandas.DataFrame,
    heap (snd (process_data df w)) !! length (heap w) = Some F /\
    Spec.entries F
    = map (fun e => (fst e, as_returned (snd e)))
        (List.filter (fun e => Spec.retained (snd e))
           (map (fun e => (fst e, Spec.without_id (snd e))) (Spec.entries T))) /\
    sublist (Pandas.index F) (Pandas.index T) /\
    (NoDup (Pandas.index T) -> NoDup (Pandas.index F)).
Proof.
  intros Hdf Hwf Hid Hsent. exists (final_frame T).
  rewrite (process_data_run w df T Hdf), Hid, Hsent. simpl.
  split.
  { rewrite lookup_app_r by (rewrite length_insert; lia).
    by rewrite length_insert, Nat.sub_diag. }
  unfold Pandas.has_column, Pandas.column_names in Hsent.
  rewrite has_column_find in Hsent.
  destruct (Pandas.find_column (Pandas.columns T) "sentiment") as [s|] eqn:Hs;
    [clear Hsent | discriminate].
  destruct (final_frame_selection T s Hwf Hs) as (Hidx & Hrec & Hmask).
  assert (Hsub : sublist (Pandas.index (final_frame T)) (Pandas.index T)).
  { rewrite Hidx. apply select_sublist. }
  split; [|split; [exact Hsub | intros Hnd; by eapply sublist_NoDup]].
  unfold Spec.entries at 1. rewrite Hidx, Hrec.
  assert (Hlen : length (Pandas.index T)
                 = length (map Spec.without_id (Spec.records T))).
  { unfold Spec.records. by rewrite !length_map, length_seq. }
  rewrite combine_map_snd, (combine_select _ _ _ Hlen), Hmask.
  rewrite (select_filter_snd Spec.retained _ _ Hlen).
  unfold Spec.entries. by rewrite combine_map_snd.
Qed.

Lemma process_data_keeps_row_labels_witness :
  exists F : Pandas.DataFrame,
    heap (snd (@process_data pandas_3 0 (world_with [scenario_table]))) !! 1 = Some F /\
    Spec.entries F
    = map (fun e => (fst e, @as_returned pandas_3 (snd e)))
        (List.filter (fun e => Spec.retained (snd e))
           (map (fun e => (fst e, Spec.without_id (snd e)))
              (Spec.entries scenario_table))) /\
    sublist (Pandas.index F) (Pandas.index scenario_table) /\
    (NoDup (Pandas.index scenario_table) -> NoDup (Pandas.index F)).
Proof.
  apply (process_data_keeps_row_labels (world_with [scenario_table]) 0 scenario_table).
  - reflexivity.
  - exact well_formed_scenario_table.
  - reflexivity.
  - reflexivity.
Defined.

Lemma select_none {A : Type} (column : list Pandas.value) (l : list A) :
  no_label_kept column ->
  Pandas.select (Pandas.isin happiness_sadness column) l = [].
Proof.
  intros Hnone. revert l. induction Hnone as [|v column Hv _ IH]; intros [|x l];
    try reflexivity.
  unfold Pandas.isin in *. cbn [map]. rewrite Hv. simpl. apply IH.
Qed.

(** X7: a table in which no row is labelled "happiness" or "sadness" is not
    an error for process_data: it returns a table with no rows that still has
    every column of the input other than tweet_id. *)
Theorem process_data_may_return_no_rows `{Pandas.Mode} (w : World) (df : loc)
    (T : Pandas.DataFrame) (s : list Pandas.value) :
  heap w !! df = Some T ->
  Pandas.has_column T "tweet_id" = true ->
  Pandas.find_column (Pandas.columns T) "sentiment" = Some s ->
  no_label_kept s ->
  exists F : Pandas.DataFrame,
    fst (process_data df w) = Return (length (heap w)) /\
    heap (snd (process_data df w)) !! length (heap w) = Some F /\
    Pandas.index F = [] /\
    Forall (fun c => snd c = []) (Pandas.columns F) /\
    Pandas.column_names F
    = List.filter (fun n => negb (String.eqb n "tweet_id")) (Pandas.column_names T).
Proof.
  intros Hdf Hid Hs Hnone. exists (final_frame T).
  assert (Hsent : Pandas.has_column T "sentiment" = true).
  { unfold Pandas.has_column, Pandas.column_names. by rewrite has_column_find, Hs. }
  rewrite (process_data_run w df T Hdf), Hid, Hsent. simpl.
  split; [reflexivity|]. split.
  { rewrite lookup_app_r by (rewrite length_insert; lia).
    by rewrite length_insert, Nat.sub_diag. }
  split; [|split; [|apply column_names_final_frame]].
  - unfold final_frame. rewrite Hs. cbv zeta.
    destruct Pandas.copy_on_write; simpl; by apply select_none.
  - unfold final_frame. rewrite Hs. cbv zeta.
    destruct Pandas.copy_on_write; simpl.
    + apply Forall_forall. intros c Hc.
      apply list_elem_of_In, in_map_iff in Hc as (c0 & <- & _). simpl.
      by apply select_none.
    + rewrite (select_none s s Hnone). apply Forall_forall. intros c Hc.
      apply list_elem_of_In, in_map_iff in Hc as (c1 & <- & Hc1).
      apply in_map_iff in Hc1 as (c0 & <- & _). simpl.
      destruct (String.eqb (fst c0) "sentiment"); simpl; [reflexivity|].
      by apply select_none.
Qed.

Lemma process_data_may_return_no_rows_witness :
  exists F : Pandas.DataFrame,
    fst (@process_data pandas_3 0 (world_with [neutral_table])) = Return 1 /\
    heap (snd (@process_data pandas_3 0 (world_with [neutral_table]))) !! 1 = Some F /\
    Pandas.index F = [] /\
    Forall (fun c => snd c = []) (Pandas.columns F) /\
    Pandas.column_names F
    = List.filter (fun n => negb (String.eqb n "tweet_id"))
        (Pandas.column_names neutral_table).
Proof.
  apply (process_data_may_return_no_rows (world_with [neutral_table]) 0 neutral_table
           [Pandas.VStr "neutral"; Pandas.VStr "worry"]).
  - reflexivity.
  - reflexivity.
  - reflexivity.
  - repeat constructor.
Defined.

(** X8: on a live table process_data ends in one of two ways: it returns and
    appends the INFO record, or it raises a KeyError and appends the ERROR
    record "Column missing" with that error.  It raises no other exception
    (the second except clause never runs), and it leaves the configuration
    files, the sources and the destination store untouched. *)
Theorem process_data_returns_or_key_error `{Pandas.Mode} (w : World) (df : loc)
    (T : Pandas.DataFrame) :
  heap w !! df = Some T ->
  quiet w (snd (process_data df w)) /\
  ((exists l, fst (process_data df w) = Return l /\
              log (snd (process_data df w))
              = (log w ++ [(INFO, Data_processing_complete)])%list) \/
   (exists k, fst (process_data df w) = Raise (KeyError k) /\
              log (snd (process_data df w))
              = (log w ++ [(ERROR, Column_missing (KeyError k))])%list)).
Proof.
  intros Hdf. rewrite (process_data_run w df T Hdf).
  destruct (Pandas.has_column T "tweet_id"); cbn [negb];
    [destruct (Pandas.has_column T "sentiment"); cbn [negb]|].
  - split; [|left; by eexists].
    eapply quiet_trans; [apply quiet_with_heap | apply quiet_logged].
  - split; [|right; by eexists].
    eapply quiet_trans; [apply quiet_with_heap | apply quiet_logged].
  - split; [apply quiet_logged | right; by eexists].
Qed.

Lemma process_data_returns_or_key_error_witness :
  quiet (world_with [scenario_table])
        (snd (@process_data pandas_3 0 (world_with [scenario_table]))) /\
  ((exists l, fst (@process_data pandas_3 0 (world_with [scenario_table])) = Return l /\
              log (snd (@process_data pandas_3 0 (world_with [scenario_table])))
              = (log (world_with [scenario_table])
                 ++ [(INFO, Data_processing_complete)])%list) \/
   (exists k, fst (@process_data pandas_3 0 (world_with [scenario_table])) = Raise (KeyError k) /\
              log (snd (@process_data pandas_3 0 (world_with [scenario_table])))
              = (log (world_with [scenario_table])
                 ++ [(ERROR, Column_missing (KeyError k))])%list)).
Proof.
  apply (process_data_returns_or_key_error (world_with [scenario_table]) 0
           scenario_table).
  reflexivity.
Defined.

(** ** save_data *)

Lemma string_length_append (a b : string) :
  String.length (a ++ b) = String.length a + String.length b.
Proof. induction a as [|c a IH]; simpl; [reflexivity | by rewrite IH]. Qed.

Lemma prefixes_length (seen rest q : string) :
  In q (Os.prefixes seen rest) ->
  String.length q <= String.length seen + String.length rest.
Proof.
  revert seen. induction rest as [|c rest IH]; intros seen; simpl.
  - unfold Os.directory. destruct (String.eqb seen "" || Os.ends_with_sep seen);
      [contradiction|]. intros [<- | []]. lia.
  - destruct (Ascii.eqb c "/"%char).
    + intros Hin. apply in_app_or in Hin as [Hin | Hin].
      * unfold Os.directory in Hin.
        destruct (String.eqb seen "" || Os.ends_with_sep seen); [contradiction|].
        destruct Hin as [<- | []]. lia.
      * apply IH in Hin. rewrite string_length_append in Hin. simpl in Hin. lia.
    + intros Hin. apply IH in Hin. rewrite string_length_append in Hin.
      simpl in Hin. lia.
Qed.

(** A file of the directory [p] is none of the directories on the way to
    [p], and the two files of save_data are different. *)
Lemma path_join_length (p name : string) :
  p <> "" -> Os.starts_with_sep name = false ->
  String.length (Os.path_join p name) >= String.length p + String.length name.
Proof.
  intros Hp Hname. unfold Os.path_join. rewrite Hname.
  destruct (String.eqb_spec p ""); [contradiction|].
  destruct (Os.ends_with_sep p); rewrite !string_length_append; simpl; lia.
Qed.

Lemma file_not_a_prefix (p name : string) :
  p <> "" -> Os.starts_with_sep name = false -> name <> "" ->
  ~ In (Os.path_join p name) (Os.prefixes "" p).
Proof.
  intros Hp Hsep Hname Hin. apply prefixes_length in Hin.
  pose proof (path_join_length p name Hp Hsep). simpl in Hin.
  destruct name; [contradiction | simpl in *; lia].
Qed.

Lemma train_is_not_test (p : string) :
  Os.path_join p "train.csv" <> Os.path_join p "test.csv".
Proof.
  intros Heq. apply (f_equal String.length) in Heq. revert Heq.
  unfold Os.path_join. simpl.
  destruct (String.eqb p ""); [discriminate|].
  destruct (Os.ends_with_sep p); rewrite !string_length_append; simpl; lia.
Qed.

Lemma mkdirs_keeps (dirs : list string) (d d' : gmap string node) :
  Os.mkdirs dirs d = Return d' ->
  (forall q x, d !! q = Some x -> d' !! q = Some x) /\
  (forall q, ~ In q dirs -> d' !! q = d !! q) /\
  (forall q, In q dirs -> d' !! q = Some Dir).
Proof.
  revert d. induction dirs as [|p dirs IH]; intros d; simpl.
  - intros [= <-]. repeat split; auto. contradiction.
  - destruct (d !! p) as [[|c]|] eqn:Hp; [| discriminate |].
    + intros H. destruct (IH d H) as (K & O & D). split; [exact K|]. split.
      * intros q Hq. apply O. tauto.
      * intros q [<- | Hq]; [by apply K | by apply D].
    + intros H. destruct (IH _ H) as (K & O & D). split; [|split].
      * intros q x Hq. apply K. rewrite lookup_insert_ne; [exact Hq|].
        intros <-. congruence.
      * intros q Hq. rewrite O by tauto. apply lookup_insert_ne. tauto.
      * intros q [<- | Hq]; [|by apply D]. apply K. apply lookup_insert_eq.
Qed.

Lemma mkdirs_existing (dirs : list string) (d : gmap string node) :
  (forall q, In q dirs -> d !! q = Some Dir) -> Os.mkdirs dirs d = Return d.
Proof.
  induction dirs as [|p dirs IH]; intros Hd; simpl; [reflexivity|].
  rewrite (Hd p) by (by left). apply IH. intros q Hq. apply Hd. by right.
Qed.

Lemma mkdirs_not_stuck (dirs : list string) (d : gmap string node) :
  Os.mkdirs dirs d <> Stuck.
Proof.
  revert d. induction dirs as [|p dirs IH]; intros d; simpl; [discriminate|].
  destruct (d !! p) as [[|c]|]; [apply IH | discriminate | apply IH].
Qed.

(** What save_data does with two live tables, step by step. *)
Lemma save_data_run (w : World) (p : string) (a b : loc) (A B : Pandas.DataFrame) :
  heap w !! a = Some A ->
  heap w !! b = Some B ->
  p <> "" ->
  save_data p a b w
  = match Os.mkdirs (Os.prefixes "" p) (disk w) with
    | Return d =>
        match d !! Os.path_join p "train.csv" with
        | Some Dir =>
            (Raise (IsADirectoryError (Os.path_join p "train.csv")),
             logged ERROR
               (Error_saving_data p (IsADirectoryError (Os.path_join p "train.csv")))
               (with_disk d w))
        | _ =>
            match d !! Os.path_join p "test.csv" with
            | Some Dir =>
                (Raise (IsADirectoryError (Os.path_join p "test.csv")),
                 logged ERROR
                   (Error_saving_data p (IsADirectoryError (Os.path_join p "test.csv")))
                   (with_disk
                      (<[Os.path_join p "train.csv" := File (Pandas.to_csv A false)]> d)
                      w))
            | _ =>
                (Return tt,
                 logged INFO (Data_saved p)
                   (with_disk
                      (<[Os.path_join p "test.csv" := File (Pandas.to_csv B false)]>
                         (<[Os.path_join p "train.csv"
                            := File (Pandas.to_csv A false)]> d))
                      w))
            end
        end
    | Raise e => (Raise e, logged ERROR (Error_saving_data p e) w)
    | Stuck => (Stuck, w)
    end.
Proof.
  intros HA HB Hp.
  unfold save_data, save_data_body, Os.makedirs. run_py.
  destruct (String.eqb_spec p ""); [contradiction|].
  destruct (Os.mkdirs (Os.prefixes "" p) (disk w)) as [d|e|]; try reflexivity.
  unfold to_csv, load, write_file. run_py. simpl heap. rewrite HA. simpl disk.
  pose proof (train_is_not_test p) as Hne.
  destruct (d !! Os.path_join p "train.csv") as [[|c]|] eqn:E1; try reflexivity;
    simpl heap; rewrite HB; simpl disk;
    rewrite lookup_insert_ne by exact Hne;
    destruct (d !! Os.path_join p "test.csv") as [[|c']|]; reflexivity.
Qed.

(** Relations between the world before and the world after that hold
    across a sequence hold for the whole, however it ends. *)
Lemma frame_bind {A B : Type} (P : World -> World -> Prop) (m : Py A) (k : A -> Py B)
    (w : World) :
  (forall x y z, P x y -> P y z -> P x z) ->
  P w (snd (m w)) -> (forall a w', P w' (snd (k a w'))) ->
  P w (snd ((m ≫= k) w)).
Proof.
  intros Htrans Hm Hk. unfold mbind, Py_bind, bind.
  destruct (m w) as [[a|e|] w1]; simpl in *; try exact Hm.
  eapply Htrans; [exact Hm | apply Hk].
Qed.

Lemma frame_try_except {A : Type} (P : World -> World -> Prop) (body : Py A)
    (handler : exn -> option (Py A)) (w : World) :
  (forall x y z, P x y -> P y z -> P x z) ->
  P w (snd (body w)) ->
  (forall e h w', handler e = Some h -> P w' (snd (h w'))) ->
  P w (snd (try_except body handler w)).
Proof.
  intros Htrans Hb Hh. unfold try_except.
  destruct (body w) as [[a|e|] w1]; simpl in *; try exact Hb.
  destruct (handler e) as [h|] eqn:E; [|exact Hb].
  eapply Htrans; [exact Hb | by eapply Hh].
Qed.

Lemma writes_at_refl (paths : list string) (w : World) : writes_at paths w w.
Proof. apply quiet_writes_at, quiet_refl. Qed.

Lemma writes_at_logged (paths : list string) (lv : level) (m : message) (w : World) :
  writes_at paths w (logged lv m w).
Proof. apply quiet_writes_at, quiet_logged. Qed.

Lemma writes_at_log_and_reraise {A : Type} (paths : list string) (m : message)
    (e : exn) (w : World) :
  writes_at paths w (snd ((logging_error m ≫= fun _ => raise e : Py A) w)).
Proof. apply writes_at_logged. Qed.

Lemma makedirs_writes (p : string) (w : World) :
  heap (snd (Os.makedirs p w)) = heap w /\
  writes_at (Os.prefixes "" p) w (snd (Os.makedirs p w)).
Proof.
  unfold Os.makedirs. destruct (String.eqb p "");
    [split; [reflexivity | apply writes_at_refl]|].
  destruct (Os.mkdirs (Os.prefixes "" p) (disk w)) as [d|e|] eqn:Hd;
    try (split; [reflexivity | apply writes_at_refl]).
  destruct (mkdirs_keeps _ _ _ Hd) as (_ & Hout & _).
  split; [reflexivity|]. repeat split; [exact Hout|].
  exists []. simpl. by rewrite app_nil_r.
Qed.

Lemma to_csv_writes (df : loc) (path : string) (with_index : bool) (w : World) :
  heap (snd (to_csv df path with_index w)) = heap w /\
  writes_at [path] w (snd (to_csv df path with_index w)).
Proof.
  unfold to_csv, load, write_file. run_py.
  destruct (heap w !! df) as [d|]; [|split; [reflexivity | apply writes_at_refl]].
  destruct (disk w !! path) as [[|c]|]; simpl;
    try (split; [reflexivity | apply writes_at_refl]);
    (split; [reflexivity|]; repeat split;
     [ intros q Hq; apply lookup_insert_ne; intros <-; apply Hq; by left
     | exists []; simpl; by rewrite app_nil_r ]).
Qed.

Lemma writes_at_more (paths paths' : list string) (w w' : World) :
  incl paths paths' -> writes_at paths w w' -> writes_at paths' w w'.
Proof.
  intros Hincl (C & S & D & L). repeat split; try assumption.
  intros q Hq. apply D. intros Hin. apply Hq. by apply Hincl.
Qed.

(** save_data touches the log, and the store at the paths of [p], and nothing
    else. *)
Lemma save_data_effect (w : World) (p : string) (a b : loc) :
  heap (snd (save_data p a b w)) = heap w /\
  writes_at (paths_of p) w (snd (save_data p a b w)).
Proof.
  set (P := fun x y : World => heap y = heap x /\ writes_at (paths_of p) x y).
  assert (Htrans : forall x y z, P x y -> P y z -> P x z).
  { intros x y z [H1 W1] [H2 W2]. split; [congruence|]. by eapply writes_at_trans. }
  assert (Hlog : forall lv m x, P x (logged lv m x)).
  { intros lv m x. split; [reflexivity | apply writes_at_logged]. }
  assert (Hcsv : forall df name x,
            In (Os.path_join p name) (paths_of p) ->
            P x (snd (to_csv df (Os.path_join p name) false x))).
  { intros df name x Hin. destruct (to_csv_writes df (Os.path_join p name) false x)
      as [Hh Hw]. split; [exact Hh|].
    eapply writes_at_more; [|exact Hw]. intros q [<- | []]. exact Hin. }
  change (P w (snd (save_data p a b w))).
  unfold save_data. apply frame_try_except; [exact Htrans | |].
  - unfold save_data_body.
    apply frame_bind; [exact Htrans | |].
    + destruct (makedirs_writes p w) as [Hh Hw]. split; [exact Hh|].
      eapply writes_at_more; [|exact Hw]. unfold paths_of. apply incl_appl, incl_refl.
    + intros _ w1. apply frame_bind; [exact Htrans | |].
      * apply Hcsv. unfold paths_of. apply in_or_app. right. by left.
      * intros _ w2. apply frame_bind; [exact Htrans | |].
        -- apply Hcsv. unfold paths_of. apply in_or_app. right. right. by left.
        -- intros _ w3. apply Hlog.
  - intros e h w' [= <-]. apply Hlog.
Qed.

(** X9: save_data changes nothing but the log and the destination store, and
    in the store only the directories on the way to data_path and the two
    files train.csv and test.csv in it: every other path, the tables, the
    configuration files and the sources are as before, however it ends. *)
Theorem save_data_touches_only_its_paths (w : World) (p : string) (a b : loc) :
  heap (snd (save_data p a b w)) = heap w /\
  configs (snd (save_data p a b w)) = configs w /\
  sources (snd (save_data p a b w)) = sources w /\
  (forall q, ~ In q (Os.prefixes "" p) ->
             q <> Os.path_join p "train.csv" -> q <> Os.path_join p "test.csv" ->
             disk (snd (save_data p a b w)) !! q = disk w !! q) /\
  exists records, log (snd (save_data p a b w)) = (log w ++ records)%list.
Proof.
  destruct (save_data_effect w p a b) as (Hh & Hc & Hs & Hd & Hl).
  repeat split; try assumption.
  intros q H1 H2 H3. apply Hd. unfold paths_of. intros Hin.
  apply in_app_or in Hin as [Hin | [<- | [<- | []]]]; contradiction.
Qed.

Lemma mkdirs_free (dirs : list string) (d : gmap string node) :
  (forall q c, In q dirs -> d !! q <> Some (File c)) ->
  exists d', Os.mkdirs dirs d = Return d'.
Proof.
  intros Hfree. destruct (mkdirs_ok dirs d Hfree) as (d' & Hd' & _). by exists d'.
Qed.

(** The store save_data leaves when nothing is in its way. *)
Lemma save_data_free (w : World) (p : string) (a b : loc) (A B : Pandas.DataFrame) :
  heap w !! a = Some A ->
  heap w !! b = Some B ->
  free_for p (disk w) ->
  exists d,
    Os.mkdirs (Os.prefixes "" p) (disk w) = Return d /\
    save_data p a b w
    = (Return tt,
       logged INFO (Data_saved p)
         (with_disk
            (<[Os.path_join p "test.csv" := File (Pandas.to_csv B false)]>
               (<[Os.path_join p "train.csv" := File (Pandas.to_csv A false)]> d))
            w)).
Proof.
  intros HA HB (Hp & Hdirs & Htrain & Htest).
  destruct (mkdirs_free _ _ Hdirs) as (d & Hd). exists d. split; [exact Hd|].
  destruct (mkdirs_keeps _ _ _ Hd) as (_ & Hout & _).
  rewrite (save_data_run w p a b A B HA HB Hp), Hd.
  rewrite !Hout by (apply file_not_a_prefix; [exact Hp | reflexivity | discriminate]).
  destruct (disk w !! Os.path_join p "train.csv") as [[|c]|]; try contradiction;
    destruct (disk w !! Os.path_join p "test.csv") as [[|c']|]; try contradiction;
    reflexivity.
Qed.

(** X10: with two live tables and nothing in its way, save_data returns, and
    afterwards train.csv and test.csv under data_path hold the two tables as
    to_csv(index=False) renders them (header: the column names; records: the
    rows, without the row labels), every directory on the way to data_path
    exists, and what was in the store before is still there unless it is one
    of the two files. *)
Theorem save_data_stores_both_tables (w : World) (p : string) (a b : loc)
    (A B : Pandas.DataFrame) :
  heap w !! a = Some A ->
  heap w !! b = Some B ->
  free_for p (disk w) ->
  fst (save_data p a b w) = Return tt /\
  written (snd (save_data p a b w)) (Os.path_join p "train.csv")
  = Some (Pandas.mkCsv (Pandas.column_names A) (Pandas.rows A)) /\
  written (snd (save_data p a b w)) (Os.path_join p "test.csv")
  = Some (Pandas.mkCsv (Pandas.column_names B) (Pandas.rows B)) /\
  (forall q, In q (Os.prefixes "" p) ->
             disk (snd (save_data p a b w)) !! q = Some Dir) /\
  (forall q x, disk w !! q = Some x ->
               q <> Os.path_join p "train.csv" -> q <> Os.path_join p "test.csv" ->
               disk (snd (save_data p a b w)) !! q = Some x).
Proof.
  intros HA HB Hfree. pose proof Hfree as (Hp & _).
  destruct (save_data_free w p a b A B HA HB Hfree) as (d & Hd & ->).
  destruct (mkdirs_keeps _ _ _ Hd) as (Hkeep & _ & Hdirs).
  pose proof (train_is_not_test p) as Hne.
  unfold written. simpl. split; [reflexivity|]. split; [|split; [|split]].
  - rewrite lookup_insert_ne by congruence. by rewrite lookup_insert_eq.
  - by rewrite lookup_insert_eq.
  - intros q Hq.
    assert (Hq1 : Os.path_join p "train.csv" <> q).
    { intros <-. revert Hq.
      apply file_not_a_prefix; [exact Hp | reflexivity | discriminate]. }
    assert (Hq2 : Os.path_join p "test.csv" <> q).
    { intros <-. revert Hq.
      apply file_not_a_prefix; [exact Hp | reflexivity | discriminate]. }
    rewrite !lookup_insert_ne by assumption. by apply Hdirs.
  - intros q x Hq H1 H2. rewrite !lookup_insert_ne by congruence. by apply Hkeep.
Qed.

(** X11: save_data can be run again.  After a run that found nothing in its
    way, a second run with the same arguments also returns and leaves the
    store exactly as the first run left it: the directories that exist are no
    error and the two files are overwritten with the same content. *)
Theorem save_data_again (w : World) (p : string) (a b : loc) (A B : Pandas.DataFrame) :
  heap w !! a = Some A ->
  heap w !! b = Some B ->
  free_for p (disk w) ->
  fst (save_data p a b (snd (save_data p a b w))) = Return tt /\
  disk (snd (save_data p a b (snd (save_data p a b w))))
  = disk (snd (save_data p a b w)).
Proof.
  intros HA HB Hfree. pose proof Hfree as (Hp & _).
  destruct (save_data_free w p a b A B HA HB Hfree) as (d & Hd & ->).
  destruct (mkdirs_keeps _ _ _ Hd) as (_ & _ & Hdirs).
  pose proof (train_is_not_test p) as Hne.
  cbn [snd].
  set (d2 := <[Os.path_join p "test.csv" := File (Pandas.to_csv B false)]>
               (<[Os.path_join p "train.csv" := File (Pandas.to_csv A false)]> d)).
  set (w1 := logged INFO (Data_saved p) (with_disk d2 w)).
  assert (Htrain : d2 !! Os.path_join p "train.csv"
                   = Some (File (Pandas.to_csv A false))).
  { unfold d2. rewrite lookup_insert_ne by congruence. apply lookup_insert_eq. }
  assert (Htest : d2 !! Os.path_join p "test.csv"
                  = Some (File (Pandas.to_csv B false))).
  { unfold d2. apply lookup_insert_eq. }
  assert (Hmk : Os.mkdirs (Os.prefixes "" p) (disk w1) = Return d2).
  { apply mkdirs_existing. intros q Hq. unfold d2.
    rewrite !lookup_insert_ne; [by apply Hdirs | |]; intros <-; revert Hq;
      apply file_not_a_prefix; (exact Hp || reflexivity || discriminate). }
  rewrite (save_data_run w1 p a b A B HA HB Hp), Hmk, Htrain, Htest.
  cbn [fst snd].
  split; [reflexivity|]. simpl.
  rewrite (insert_id d2 _ _ Htrain). by rewrite (insert_id d2 _ _ Htest).
Qed.

(** X12: a failure of the second write does not undo the first.  When the
    directories exist and test.csv is itself a directory, save_data raises
    IsADirectoryError for test.csv and logs it, and train.csv has been
    written and stays in the store. *)
Theorem save_data_keeps_the_first_file (w : World) (p : string) (a b : loc)
    (A B : Pandas.DataFrame) :
  heap w !! a = Some A ->
  heap w !! b = Some B ->
  p <> "" ->
  (forall q, In q (Os.prefixes "" p) -> disk w !! q = Some Dir) ->
  disk w !! Os.path_join p "train.csv" <> Some Dir ->
  disk w !! Os.path_join p "test.csv" = Some Dir ->
  fst (save_data p a b w) = Raise (IsADirectoryError (Os.path_join p "test.csv")) /\
  written (snd (save_data p a b w)) (Os.path_join p "train.csv")
  = Some (Pandas.to_csv A false) /\
  log (snd (save_data p a b w))
  = (log w ++ [(ERROR, Error_saving_data p
                         (IsADirectoryError (Os.path_join p "test.csv")))])%list.
Proof.
  intros HA HB Hp Hdirs Htrain Htest.
  pose proof (train_is_not_test p) as Hne.
  rewrite (save_data_run w p a b A B HA HB Hp), (mkdirs_existing _ _ Hdirs), Htest.
  destruct (disk w !! Os.path_join p "train.csv") as [[|c]|]; try contradiction;
    unfold written; simpl; by rewrite lookup_insert_eq.
Qed.

Lemma free_for_empty (p : string) : p <> "" -> free_for p ∅.
Proof.
  intros Hp. split; [exact Hp|]. split; [|split].
  - intros q c _. rewrite lookup_empty. discriminate.
  - rewrite lookup_empty. discriminate.
  - rewrite lookup_empty. discriminate.
Qed.

Lemma save_data_stores_both_tables_witness :
  fst (save_data "data/raw" 0 1 two_tables) = Return tt /\
  written (snd (save_data "data/raw" 0 1 two_tables)) "data/raw/train.csv"
  = Some (Pandas.mkCsv (Pandas.column_names scenario_table) (Pandas.rows scenario_table)).
Proof.
  destruct (save_data_stores_both_tables two_tables "data/raw" 0 1
              scenario_table neutral_table eq_refl eq_refl)
    as (H1 & H2 & _).
  - apply free_for_empty. discriminate.
  - split; [exact H1 | exact H2].
Defined.

Lemma save_data_again_witness :
  fst (save_data "data/raw" 0 1 (snd (save_data "data/raw" 0 1 two_tables)))
  = Return tt /\
  disk (snd (save_data "data/raw" 0 1 (snd (save_data "data/raw" 0 1 two_tables))))
  = disk (snd (save_data "data/raw" 0 1 two_tables)).
Proof.
  apply (save_data_again two_tables "data/raw" 0 1 scenario_table neutral_table).
  - reflexivity.
  - reflexivity.
  - apply free_for_empty. discriminate.
Defined.

Lemma save_data_keeps_the_first_file_witness :
  fst (save_data "data/raw" 0 1 blocked_store)
  = Raise (IsADirectoryError "data/raw/test.csv") /\
  written (snd (save_data "data/raw" 0 1 blocked_store)) "data/raw/train.csv"
  = Some (Pandas.to_csv scenario_table false) /\
  log (snd (save_data "data/raw" 0 1 blocked_store))
  = [(ERROR, Error_saving_data "data/raw" (IsADirectoryError "data/raw/test.csv"))].
Proof.
  apply (save_data_keeps_the_first_file blocked_store "data/raw" 0 1
           scenario_table neutral_table).
  - reflexivity.
  - reflexivity.
  - discriminate.
  - intros q [<- | [<- | []]]; reflexivity.
  - vm_compute. discriminate.
  - reflexivity.
Defined.

(** ** The split on every input *)

Lemma ceil_not_stuck (x : float) : Sklearn.ceil x <> Stuck.
Proof. unfold Sklearn.ceil. destruct (Prim2SF x); discriminate. Qed.

Lemma validate_not_stuck (n : Z) (test_size : Yaml.value) :
  Sklearn.validate_shuffle_split n test_size <> Stuck.
Proof.
  unfold Sklearn.validate_shuffle_split.
  destruct test_size as [|b|z|f|s|items|items]; simpl.
  - destruct (Sklearn.ceil (0.25 * Sklearn.float_of_Z n)) as [k| |] eqn:E; simpl;
      [| discriminate | by apply ceil_not_stuck in E].
    destruct (n <? n - k + k)%Z; [discriminate|].
    destruct (n - k =? 0)%Z; discriminate.
  - discriminate.
  - destruct ((n <=? z) || (z <=? 0))%Z; [discriminate|].
    destruct (n <? n - z + z)%Z; [discriminate|].
    destruct (n - z =? 0)%Z; discriminate.
  - destruct ((f <=? 0) || (1 <=? f))%float; [discriminate|].
    destruct (Sklearn.ceil (f * Sklearn.float_of_Z n)) as [k| |] eqn:E; simpl;
      [| discriminate | by apply ceil_not_stuck in E].
    destruct (n <? n - k + k)%Z; [discriminate|].
    destruct (n - k =? 0)%Z; discriminate.
  - discriminate.
  - destruct items as [|x rest]; simpl; [discriminate|].
    destruct (fold_left Sklearn.promote _ _); discriminate.
  - discriminate.
Qed.

Lemma split_not_stuck `{Numpy.RandomState} (T : Pandas.DataFrame)
    (test_size : Yaml.value) (seed : Z) :
  Sklearn.split T test_size seed <> Stuck.
Proof.
  unfold Sklearn.split.
  destruct (Sklearn.validate_shuffle_split _ test_size) as [[n_train n_test]|e|] eqn:E;
    simpl; [| discriminate | by apply validate_not_stuck in E].
  unfold Pandas.iloc.
  destruct (Pandas.take_positions _ (Numpy.slice _ n_test _)); simpl; [|discriminate].
  destruct (Pandas.take_positions _ (Numpy.slice _ 0 n_test)); discriminate.
Qed.

Lemma ceil_of_product_with_zero (f : float) :
  Sklearn.ceil (f * Sklearn.float_of_Z 0)%float = Return 0%Z \/
  Sklearn.ceil (f * Sklearn.float_of_Z 0)%float = Raise ValueError.
Proof.
  unfold Sklearn.ceil. rewrite mul_spec.
  change (Prim2SF (Sklearn.float_of_Z 0)) with (S754_zero false).
  destruct (Prim2SF f) as [s|s| |s m e]; simpl; tauto.
Qed.

Lemma validate_nothing (test_size : Yaml.value) :
  exists e, Sklearn.validate_shuffle_split 0 test_size = Raise e /\
            (e = ValueError \/ e = TypeError).
Proof.
  unfold Sklearn.validate_shuffle_split.
  destruct test_size as [|b|z|f|s|items|items]; simpl.
  - exists ValueError. split; [reflexivity | by left].
  - exists ValueError. split; [reflexivity | by left].
  - exists ValueError. split; [|by left].
    destruct (Z.leb_spec 0 z); simpl; [reflexivity|].
    destruct (Z.leb_spec z 0); [reflexivity | lia].
  - exists ValueError. split; [|by left].
    destruct ((f <=? 0) || (1 <=? f))%float; [reflexivity|].
    destruct (ceil_of_product_with_zero f) as [-> | ->]; reflexivity.
  - exists ValueError. split; [reflexivity | by left].
  - destruct items as [|x rest]; simpl; [exists TypeError; split; [reflexivity | by right]|].
    destruct (fold_left Sklearn.promote _ _);
      (exists TypeError; split; [reflexivity | by right])
      || (exists ValueError; split; [reflexivity | by left]).
  - exists ValueError. split; [reflexivity | by left].
Qed.

Lemma split_nothing `{Numpy.RandomState} (T : Pandas.DataFrame)
    (test_size : Yaml.value) (seed : Z) :
  Pandas.index T = [] ->
  exists e, Sklearn.split T test_size seed = Raise e /\
            (e = ValueError \/ e = TypeError).
Proof.
  intros Hidx. unfold Sklearn.split. rewrite Hidx. cbn [length].
  change (Z.of_nat 0) with 0%Z.
  destruct (validate_nothing test_size) as (e & -> & He). by exists e.
Qed.

(** X13: a table without rows cannot be split, whatever the configured test
    size is (a fraction, a count, nothing, or a value of another type):
    train_test_split raises ValueError, or TypeError for a list, and returns
    no tables. *)
Theorem empty_table_is_never_split `{Numpy.RandomState} (T : Pandas.DataFrame)
    (test_size : Yaml.value) (seed : Z) :
  Pandas.index T = [] ->
  exists e, Sklearn.split T test_size seed = Raise e /\
            (e = ValueError \/ e = TypeError).
Proof. apply split_nothing. Qed.

Lemma empty_table_is_never_split_witness :
  exists e,
    @Sklearn.split rotation_generator (@final_frame pandas_3 neutral_table) (Yaml.Int 1) 42
    = Raise e /\ (e = ValueError \/ e = TypeError).
Proof.
  apply (@empty_table_is_never_split rotation_generator (@final_frame pandas_3 neutral_table)).
  reflexivity.
Defined.

Lemma split_with_sizes `{Numpy.RandomState} (T : Pandas.DataFrame)
    (test_size : Yaml.value) (seed k : Z) :
  Numpy.permutes seed (length (Pandas.index T)) ->
  Sklearn.validate_shuffle_split (Z.of_nat (length (Pandas.index T))) test_size
  = Return ((Z.of_nat (length (Pandas.index T)) - k)%Z, k) ->
  Sklearn.split T test_size seed
  = let c := Numpy.clamp k (length (Pandas.index T)) in
    let p := Numpy.permutation seed (length (Pandas.index T)) in
    Return (at_positions T (List.skipn c p), at_positions T (List.firstn c p)).
Proof.
  intros Hp Hv. unfold Sklearn.split. rewrite Hv.
  destruct (permutation_in_range seed _ Hp) as [Hlen Hrange].
  cbn [mbind outcome_bind fst snd].
  set (p := Numpy.permutation seed (length (Pandas.index T))) in *.
  destruct (slices_cover p k) as [Htest Htrain].
  rewrite Hlen in Htest, Htrain. rewrite Htest, Htrain.
  rewrite !iloc_in_range; [reflexivity | by apply Forall_drop | by apply Forall_take].
Qed.

(** X14: load_params does not ask for a fraction, and an integer test_size is
    taken as a number of rows.  With 0 < z < n the split of n rows gives
    exactly z test rows and n - z train rows; with z <= 0 or z >= n it raises
    ValueError. *)
Theorem integer_test_size_counts_rows `{Numpy.RandomState} (T : Pandas.DataFrame)
    (z seed : Z) :
  Numpy.permutes seed (length (Pandas.index T)) ->
  ((0 < z < Z.of_nat (length (Pandas.index T)))%Z ->
   sizes (Sklearn.split T (Yaml.Int z) seed)
   = Return (length (Pandas.index T) - Z.to_nat z, Z.to_nat z)) /\
  ((z <= 0 \/ Z.of_nat (length (Pandas.index T)) <= z)%Z ->
   Sklearn.split T (Yaml.Int z) seed = Raise ValueError).
Proof.
  intros Hp. split.
  - intros Hz.
    rewrite (split_with_sizes T (Yaml.Int z) seed z Hp).
    + destruct (permutation_in_range seed _ Hp) as [Hlen _].
      simpl. rewrite !length_map, length_skipn, length_firstn, Hlen.
      rewrite clamp_in_range by lia. f_equal. f_equal. lia.
    + unfold Sklearn.validate_shuffle_split.
      destruct (Z.leb_spec (Z.of_nat (length (Pandas.index T))) z); [lia|].
      destruct (Z.leb_spec z 0); [lia|]. simpl.
      destruct (Z.ltb_spec (Z.of_nat (length (Pandas.index T)))
                  (Z.of_nat (length (Pandas.index T)) - z + z)); [lia|].
      destruct (Z.eqb_spec (Z.of_nat (length (Pandas.index T)) - z) 0); [lia|].
      reflexivity.
  - intros Hz. unfold Sklearn.split, Sklearn.validate_shuffle_split.
    destruct (Z.leb_spec (Z.of_nat (length (Pandas.index T))) z); [reflexivity|].
    destruct (Z.leb_spec z 0); [reflexivity | lia].
Qed.

Lemma integer_test_size_counts_rows_witness :
  sizes (@Sklearn.split rotation_generator (@final_frame pandas_3 scenario_table) (Yaml.Int 3) 42)
  = Return (5, 3).
Proof.
  apply (proj1 (@integer_test_size_counts_rows rotation_generator
                  (@final_frame pandas_3 scenario_table) 3 42 (rotation_permutes 42 8))).
  vm_compute. split; reflexivity.
Defined.

(** ** The stages, one after the other *)

Lemma ensures_seq {A B : Type} (m : Py A) (k : A -> Py B) (w : World)
    (Q1 : A -> World -> Prop) (Q : B -> World -> Prop) (R : exn -> World -> Prop) :
  ensures m w Q1 R ->
  (forall a w', Q1 a w' -> ensures (k a) w' Q R) ->
  ensures (m ≫= k) w Q R.
Proof.
  intros Hm Hk. apply ensures_bind. eapply ensures_weaken; [exact Hm | exact Hk | auto].
Qed.

Lemma load_params_ensures (path : string) (w : World) :
  ensures (load_params path) w (fun _ w' => quiet w w') (fun _ w' => quiet w w').
Proof.
  unfold ensures.
  pose proof (load_params_world path w) as Hw.
  pose proof (load_params_outcome path w) as Ho.
  pose proof (load_params_not_stuck path w) as Hs.
  destruct (load_params path w) as [o w']. cbn [fst snd] in *. subst w'.
  destruct o as [v|e|]; [apply quiet_with_log | apply quiet_with_log | done].
Qed.

Lemma read_data_ensures (url : string) (w : World) :
  ensures (read_data url) w
    (fun l w' => quiet w w' /\ exists T, heap w' !! l = Some T)
    (fun _ w' => quiet w w').
Proof.
  unfold ensures. rewrite read_data_run.
  destruct (sources w !! url) as [[| |e|T]|]; simpl; try apply quiet_logged.
  split.
  - eapply quiet_trans; [apply quiet_with_heap | apply quiet_logged].
  - exists T. by rewrite lookup_app_r, Nat.sub_diag by lia.
Qed.

Lemma process_data_ensures `{Pandas.Mode} (df : loc) (w : World)
    (T : Pandas.DataFrame) :
  heap w !! df = Some T ->
  ensures (process_data df) w
    (fun l w' => quiet w w' /\ exists F, heap w' !! l = Some F)
    (fun _ w' => quiet w w').
Proof.
  intros Hdf. unfold ensures. rewrite (process_data_run w df T Hdf).
  destruct (Pandas.has_column T "tweet_id"); cbn [negb];
    [destruct (Pandas.has_column T "sentiment"); cbn [negb]|].
  - split.
    + eapply quiet_trans; [apply quiet_with_heap | apply quiet_logged].
    + exists (final_frame T). simpl.
      rewrite lookup_app_r by (rewrite length_insert; lia).
      by rewrite length_insert, Nat.sub_diag.
  - eapply quiet_trans; [apply quiet_with_heap | apply quiet_logged].
  - apply quiet_logged.
Qed.

Lemma train_test_split_ensures `{Numpy.RandomState} (arr : loc) (w : World)
    (T : Pandas.DataFrame) (test_size : Yaml.value) (seed : Z) :
  heap w !! arr = Some T ->
  ensures (Sklearn.train_test_split arr test_size (Some seed)) w
    (fun parts w' => quiet w w' /\
                     exists A B, heap w' !! fst parts = Some A /\
                                 heap w' !! snd parts = Some B)
    (fun _ w' => quiet w w').
Proof.
  intros Harr. unfold ensures.
  rewrite (train_test_split_run w arr T test_size seed Harr).
  pose proof (split_not_stuck T test_size seed) as Hns.
  destruct (Sklearn.split T test_size seed) as [[train test]|e|];
    [| apply quiet_refl | contradiction].
  split; [apply quiet_with_heap|]. exists train, test.
  exact (lookup_two_new (heap w) train test).
Qed.

Lemma save_data_ensures (p : string) (a b : loc) (w : World) (A B : Pandas.DataFrame) :
  heap w !! a = Some A -> heap w !! b = Some B -> p <> "" ->
  ensures (save_data p a b) w
    (fun _ w' => exists records, log w' = (log w ++ records)%list)
    (fun _ w' => exists records, log w' = (log w ++ records)%list).
Proof.
  intros HA HB Hp. unfold ensures.
  destruct (save_data_effect w p a b) as (_ & _ & _ & _ & Hlog).
  pose proof (save_data_run w p a b A B HA HB Hp) as Hrun.
  pose proof (mkdirs_not_stuck (Os.prefixes "" p) (disk w)) as Hns.
  revert Hlog Hrun. generalize (save_data p a b w).
  intros [[[]|e|] w'] Hlog Hrun; simpl in *; try exact Hlog.
  destruct (Os.mkdirs (Os.prefixes "" p) (disk w)) as [d|e|];
    [| discriminate | contradiction].
  destruct (d !! Os.path_join p "train.csv") as [[|c]|]; try discriminate;
    destruct (d !! Os.path_join p "test.csv") as [[|c']|]; discriminate.
Qed.

Lemma split_logged_more (w0 w w' : World) :
  split_logged w0 w -> (exists records, log w' = (log w ++ records)%list) ->
  split_logged w0 w'.
Proof.
  intros (r1 & v & L1 & Hin) (r2 & L2). exists (r1 ++ r2)%list, v. split.
  - by rewrite L2, L1, <- app_assoc.
  - apply in_or_app. by left.
Qed.

(** The run of the stages: it does not get stuck; if it returns, the split
    was logged; if it raises before that, nothing but the heap and the log
    has changed. *)
Lemma pipeline_ensures `{Numpy.RandomState} `{Pandas.Mode} (w0 : World) :
  ensures pipeline w0
    (fun _ w' => split_logged w0 w')
    (fun _ w' => quiet w0 w' \/ split_logged w0 w').
Proof.
  unfold pipeline.
  apply ensures_seq with (Q1 := fun _ w1 => quiet w0 w1).
  { eapply ensures_weaken; [apply load_params_ensures | auto | auto]. }
  intros test_size w1 H1.
  apply ensures_seq
    with (Q1 := fun l w2 => quiet w0 w2 /\ exists T, heap w2 !! l = Some T).
  { eapply ensures_weaken; [apply read_data_ensures | |].
    - intros l w2 [Hq HT]. split; [by eapply quiet_trans | exact HT].
    - intros e w2 Hq. left. by eapply quiet_trans. }
  intros df w2 [H2 [T HT]].
  apply ensures_seq
    with (Q1 := fun l w3 => quiet w0 w3 /\ exists F, heap w3 !! l = Some F).
  { eapply ensures_weaken; [apply (process_data_ensures df w2 T HT) | |].
    - intros l w3 [Hq HF]. split; [by eapply quiet_trans | exact HF].
    - intros e w3 Hq. left. by eapply quiet_trans. }
  intros final_df w3 [H3 [F HF]].
  apply ensures_seq
    with (Q1 := fun parts w4 => quiet w0 w4 /\
                  exists A B, heap w4 !! fst parts = Some A /\
                              heap w4 !! snd parts = Some B).
  { eapply ensures_weaken;
      [apply (train_test_split_ensures final_df w3 F test_size 42 HF) | |].
    - intros parts w4 [Hq HAB]. split; [by eapply quiet_trans | exact HAB].
    - intros e w4 Hq. left. by eapply quiet_trans. }
  intros parts w4 [H4 (A & B & HA & HB)].
  apply ensures_seq
    with (Q1 := fun _ w5 => split_logged w0 w5 /\
                  heap w5 !! fst parts = Some A /\ heap w5 !! snd parts = Some B).
  { unfold ensures, logging_info. split; [|by split].
    destruct H4 as (_ & _ & _ & records & Hlog).
    exists (records ++ [(INFO, Data_split test_size)])%list, test_size. split.
    - simpl. by rewrite Hlog, <- app_assoc.
    - apply in_or_app. right. by left. }
  intros _ w5 (H5 & HA5 & HB5).
  eapply ensures_weaken;
    [apply (save_data_ensures "data/raw" (fst parts) (snd parts) w5 A B HA5 HB5);
     discriminate | |].
  - intros u w6 Hlog. by eapply split_logged_more.
  - intros e w6 Hlog. right. by eapply split_logged_more.
Qed.

(** ** What a run leaves untouched *)

Lemma quiet_load (l : loc) (w : World) : quiet w (snd (load l w)).
Proof. unfold load. destruct (heap w !! l); apply quiet_refl. Qed.

Lemma quiet_store (l : loc) (df : Pandas.DataFrame) (w : World) :
  quiet w (snd (store l df w)).
Proof.
  unfold store. destruct (heap w !! l); [apply quiet_with_heap | apply quiet_refl].
Qed.

Lemma quiet_new (df : Pandas.DataFrame) (w : World) : quiet w (snd (new df w)).
Proof. apply quiet_with_heap. Qed.

Lemma quiet_lift {A : Type} (o : outcome A) (w : World) : quiet w (snd (lift o w)).
Proof. apply quiet_refl. Qed.

Lemma process_data_quiet `{Pandas.Mode} (df : loc) (w : World) :
  quiet w (snd (process_data df w)).
Proof.
  unfold process_data. apply frame_try_except; [apply quiet_trans | |].
  - unfold process_data_body.
    repeat (apply frame_bind;
            [ apply quiet_trans
            | first [ apply quiet_load | apply quiet_lift | apply quiet_store
                    | apply quiet_new | apply quiet_logged
                    | destruct Pandas.copy_on_write;
                      [apply quiet_refl | apply quiet_store] ]
            | intros ? ? ]).
    apply quiet_refl.
  - intros e h w' Hh. destruct e; injection Hh as <-; apply quiet_logged.
Qed.

Lemma train_test_split_quiet `{Numpy.RandomState} (arr : loc)
    (test_size : Yaml.value) (seed : Z) (w : World) :
  quiet w (snd (Sklearn.train_test_split arr test_size (Some seed) w)).
Proof.
  unfold Sklearn.train_test_split.
  repeat (apply frame_bind;
          [ apply quiet_trans
          | first [ apply quiet_load | apply quiet_lift | apply quiet_new ]
          | intros ? ? ]).
  apply quiet_refl.
Qed.

Lemma load_params_quiet (path : string) (w : World) :
  quiet w (snd (load_params path w)).
Proof.
  rewrite load_params_world. apply quiet_with_log.
Qed.

Lemma read_data_quiet (url : string) (w : World) : quiet w (snd (read_data url w)).
Proof.
  rewrite read_data_run.
  destruct (sources w !! url) as [[| |e|T]|]; simpl; try apply quiet_logged.
  eapply quiet_trans; [apply quiet_with_heap | apply quiet_logged].
Qed.

Lemma pipeline_writes `{Numpy.RandomState} `{Pandas.Mode} (w : World) :
  writes_at destination_paths w (snd (pipeline w)).
Proof.
  unfold pipeline.
  apply frame_bind; [apply writes_at_trans | apply quiet_writes_at, load_params_quiet |].
  intros test_size w1.
  apply frame_bind; [apply writes_at_trans | apply quiet_writes_at, read_data_quiet |].
  intros df w2.
  apply frame_bind; [apply writes_at_trans | apply quiet_writes_at, process_data_quiet |].
  intros final_df w3.
  apply frame_bind;
    [apply writes_at_trans | apply quiet_writes_at, train_test_split_quiet |].
  intros parts w4.
  apply frame_bind; [apply writes_at_trans | apply writes_at_logged |].
  intros u w5. exact (proj2 (save_data_effect w5 "data/raw" (fst parts) (snd parts))).
Qed.

(** main, on every world: the exception of a failed stage is logged, not
    raised; the log has grown by a record for the start, the records of the
    stages, and a record for the end. *)
Lemma main_run `{Numpy.RandomState} `{Pandas.Mode} (w : World) :
  exists records,
    main w
    = (Return tt,
       with_log (log w ++ (INFO, Pipeline_started) :: records
                       ++ [(INFO, Pipeline_finished)])
         (snd (pipeline (logged INFO Pipeline_started w)))).
Proof.
  pose proof (pipeline_ensures (logged INFO Pipeline_started w)) as Hens.
  destruct (pipeline_writes (logged INFO Pipeline_started w))
    as (_ & _ & _ & records & Hlog).
  unfold main, try_except. run_py. unfold ensures in Hens.
  unfold logging_info at 1.
  destruct (pipeline (logged INFO Pipeline_started w)) as [[[]|e|] w'];
    [| | contradiction]; cbn [snd] in Hlog.
  - exists records. unfold logging_info, logged, with_log. cbn [log heap configs sources disk].
    rewrite Hlog. unfold logged, with_log. cbn [log snd].
    by rewrite <- !app_assoc.
  - exists (records ++ [(ERROR, Pipeline_error e)])%list.
    unfold logging_info, logging_error, logged, with_log.
    cbn [log heap configs sources disk].
    rewrite Hlog. unfold logged, with_log. cbn [log snd].
    by rewrite <- !app_assoc.
Qed.

(** ** Where a run stops *)

Lemma main_unfold `{Numpy.RandomState} `{Pandas.Mode} (w : World) :
  main w
  = match pipeline (logged INFO Pipeline_started w) with
    | (Return _, w') => (Return tt, logged INFO Pipeline_finished w')
    | (Raise e, w') =>
        (Return tt, logged INFO Pipeline_finished (logged ERROR (Pipeline_error e) w'))
    | (Stuck, w') => (Stuck, w')
    end.
Proof.
  unfold main, try_except. run_py. unfold logging_info at 1.
  by destruct (pipeline (logged INFO Pipeline_started w)) as [[[]|e|] w'].
Qed.

Lemma pipeline_after_load `{Numpy.RandomState} `{Pandas.Mode} (w : World)
    (doc v : Yaml.value) :
  configs w !! "params.yaml" = Some (Document doc) ->
  test_size_of doc = Return v ->
  pipeline w
  = (df ← read_data dataset_url;
     final_df ← process_data df;
     parts ← Sklearn.train_test_split final_df v (Some 42%Z);
     logging_info (Data_split v);;
     save_data (Os.path_join "data" "raw") (fst parts) (snd parts))
      (logged INFO (Loaded_test_size v "params.yaml") w).
Proof.
  intros Hcfg Hv. apply test_size_of_return in Hv as (items & section & -> & Hs & Ht).
  unfold pipeline. unfold mbind at 1, Py_bind at 1, bind at 1.
  by rewrite (load_params_ok w "params.yaml" items section v Hcfg Hs Ht).
Qed.

Lemma pipeline_after_read `{Numpy.RandomState} `{Pandas.Mode} (w : World)
    (doc v : Yaml.value) (T : Pandas.DataFrame) :
  configs w !! "params.yaml" = Some (Document doc) ->
  test_size_of doc = Return v ->
  sources w !! dataset_url = Some (FetchTable T) ->
  pipeline w
  = (final_df ← process_data (length (heap w));
     parts ← Sklearn.train_test_split final_df v (Some 42%Z);
     logging_info (Data_split v);;
     save_data (Os.path_join "data" "raw") (fst parts) (snd parts))
      (logged INFO (Data_loaded dataset_url)
         (with_heap (heap w ++ [T])
            (logged INFO (Loaded_test_size v "params.yaml") w))).
Proof.
  intros Hcfg Hv Hsrc. rewrite (pipeline_after_load w doc v Hcfg Hv).
  unfold mbind at 1, Py_bind at 1, bind at 1.
  by rewrite (read_data_ok (logged INFO (Loaded_test_size v "params.yaml") w)
                dataset_url T Hsrc).
Qed.

Lemma final_frame_no_rows `{Pandas.Mode} (T : Pandas.DataFrame)
    (s : list Pandas.value) :
  Pandas.find_column (Pandas.columns T) "sentiment" = Some s ->
  no_label_kept s ->
  Pandas.index (final_frame T) = [].
Proof.
  intros Hs Hnone. unfold final_frame. rewrite Hs. cbv zeta.
  destruct Pandas.copy_on_write; simpl; by apply select_none.
Qed.

(** X15: main returns on every input: whatever the configuration, the
    dataset, the store and the tables in memory are, it neither raises nor
    stops half way, and the log it leaves is the old log, then "pipeline
    started", then the records of the stages, then "pipeline finished". *)
Theorem main_always_returns `{Numpy.RandomState} `{Pandas.Mode} (w : World) :
  fst (main w) = Return tt /\
  exists records,
    log (snd (main w))
    = (log w ++ (INFO, Pipeline_started) :: records ++ [(INFO, Pipeline_finished)])%list.
Proof.
  destruct (main_run w) as (records & ->). split; [reflexivity|]. by exists records.
Qed.

(** X16: main leaves the configuration files and the sources as they were,
    and of the destination store it changes at most data, data/raw,
    data/raw/train.csv and data/raw/test.csv. *)
Theorem main_changes_only_its_destination `{Numpy.RandomState} `{Pandas.Mode}
    (w : World) :
  configs (snd (main w)) = configs w /\
  sources (snd (main w)) = sources w /\
  forall q, ~ In q destination_paths -> disk (snd (main w)) !! q = disk w !! q.
Proof.
  destruct (main_run w) as (records & ->).
  destruct (pipeline_writes (logged INFO Pipeline_started w)) as (C & S & D & _).
  repeat split; [exact C | exact S | exact D].
Qed.

(** X17: main changes the destination store only in a run that has logged
    the split: when a stage before the writer fails, the store is what it
    was. *)
Theorem main_writes_only_after_the_split `{Numpy.RandomState} `{Pandas.Mode}
    (w : World) :
  disk (snd (main w)) = disk w \/ split_logged w (snd (main w)).
Proof.
  pose proof (pipeline_ensures (logged INFO Pipeline_started w)) as Hens.
  unfold ensures in Hens. rewrite main_unfold.
  assert (Hpre : forall w', split_logged (logged INFO Pipeline_started w) w' ->
                            split_logged w w').
  { intros w' (records & v & Hlog & Hin).
    exists ((INFO, Pipeline_started) :: records), v. split; [|by right].
    rewrite Hlog. unfold logged, with_log. cbn [log]. by rewrite <- app_assoc. }
  destruct (pipeline (logged INFO Pipeline_started w)) as [[[]|e|] w'];
    [| | contradiction]; cbn [snd].
  - right. apply (split_logged_more w w'); [by apply Hpre|].
    by exists [(INFO, Pipeline_finished)].
  - destruct Hens as [(_ & _ & Hdisk & _) | Hsplit].
    + left. exact Hdisk.
    + right. apply (split_logged_more w w'); [by apply Hpre|].
      exists [(ERROR, Pipeline_error e); (INFO, Pipeline_finished)].
      unfold logged, with_log. cbn [log]. by rewrite <- app_assoc.
Qed.

(** X18: when the configuration gives a test size and the dataset cannot be
    read (not found, empty, malformed, or any other failure of the fetch),
    main stops after read_data: it logs the loaded test size, the read error
    and the pipeline error, and changes nothing but the log; no table is
    created and nothing is written. *)
Theorem read_failure_stops_the_run `{Numpy.RandomState} `{Pandas.Mode} (w : World)
    (doc v : Yaml.value) (e : exn) :
  configs w !! "params.yaml" = Some (Document doc) ->
  test_size_of doc = Return v ->
  fetch_error dataset_url (sources w !! dataset_url) = Some e ->
  main w
  = (Return tt,
     with_log (log w ++ [(INFO, Pipeline_started);
                         (INFO, Loaded_test_size v "params.yaml");
                         (ERROR, read_error_message dataset_url e);
                         (ERROR, Pipeline_error e);
                         (INFO, Pipeline_finished)]) w).
Proof.
  intros Hcfg Hv He. rewrite main_unfold.
  rewrite (pipeline_after_load _ doc v) by assumption.
  unfold mbind at 1, Py_bind at 1, bind at 1. rewrite read_data_run.
  change (sources (logged INFO (Loaded_test_size v "params.yaml")
                     (logged INFO Pipeline_started w))) with (sources w).
  destruct (sources w !! dataset_url) as [[| |e'|T]|]; cbn [fetch_error] in He |- *;
    try discriminate; injection He as <-; cbn [fetch_error]; f_equal; same_log.
Qed.

Lemma read_failure_stops_the_run_witness :
  @main rotation_generator pandas_3 (offline_world (config_with (Yaml.Float 0.25)))
  = (Return tt,
     with_log ([] ++ [(INFO, Pipeline_started);
                      (INFO, Loaded_test_size (Yaml.Float 0.25) "params.yaml");
                      (ERROR, read_error_message dataset_url URLError);
                      (ERROR, Pipeline_error URLError);
                      (INFO, Pipeline_finished)])
       (offline_world (config_with (Yaml.Float 0.25)))).
Proof.
  apply (@read_failure_stops_the_run rotation_generator pandas_3
           (offline_world (config_with (Yaml.Float 0.25)))
           (config_with (Yaml.Float 0.25)) (Yaml.Float 0.25) URLError).
  - reflexivity.
  - reflexivity.
  - reflexivity.
Defined.

(** X19: when the dataset lacks the column tweet_id or the column sentiment,
    main stops after process_data: the KeyError is logged by process_data and
    again by main, no split is made and the destination store is not
    touched. *)
Theorem missing_column_stops_the_run `{Numpy.RandomState} `{Pandas.Mode} (w : World)
    (doc v : Yaml.value) (T : Pandas.DataFrame) :
  configs w !! "params.yaml" = Some (Document doc) ->
  test_size_of doc = Return v ->
  sources w !! dataset_url = Some (FetchTable T) ->
  Pandas.has_column T "tweet_id" = false \/ Pandas.has_column T "sentiment" = false ->
  fst (main w) = Return tt /\
  disk (snd (main w)) = disk w /\
  log (snd (main w))
  = (log w ++ [(INFO, Pipeline_started);
               (INFO, Loaded_test_size v "params.yaml");
               (INFO, Data_loaded dataset_url);
               (ERROR, Column_missing (missing_column_error T));
               (ERROR, Pipeline_error (missing_column_error T));
               (INFO, Pipeline_finished)])%list.
Proof.
  intros Hcfg Hv Hsrc Hmiss. remember (main w) as r eqn:E.
  rewrite main_unfold in E.
  rewrite (pipeline_after_read _ doc v T) in E by assumption.
  unfold mbind at 1, Py_bind at 1, bind at 1 in E.
  rewrite (process_data_run _ _ T) in E
    by (unfold logged, with_log, with_heap; cbn [heap];
        by rewrite lookup_app_r, Nat.sub_diag by lia).
  unfold missing_column_error.
  destruct (Pandas.has_column T "tweet_id"); cbn [negb] in E.
  - destruct Hmiss as [Hmiss | Hmiss]; [discriminate|]. rewrite Hmiss in E.
    cbn [negb] in E. subst r. repeat split. same_log.
  - subst r. repeat split. same_log.
Qed.

Lemma missing_column_stops_the_run_witness :
  fst (@main rotation_generator pandas_3
         (initial_world (config_with (Yaml.Float 0.25)) id_text_sentiment_table))
  = Return tt /\
  disk (snd (@main rotation_generator pandas_3
               (initial_world (config_with (Yaml.Float 0.25)) id_text_sentiment_table)))
  = disk (initial_world (config_with (Yaml.Float 0.25)) id_text_sentiment_table) /\
  log (snd (@main rotation_generator pandas_3
              (initial_world (config_with (Yaml.Float 0.25)) id_text_sentiment_table)))
  = (log (initial_world (config_with (Yaml.Float 0.25)) id_text_sentiment_table)
     ++ [(INFO, Pipeline_started);
         (INFO, Loaded_test_size (Yaml.Float 0.25) "params.yaml");
         (INFO, Data_loaded dataset_url);
         (ERROR, Column_missing (missing_column_error id_text_sentiment_table));
         (ERROR, Pipeline_error (missing_column_error id_text_sentiment_table));
         (INFO, Pipeline_finished)])%list.
Proof.
  apply (@missing_column_stops_the_run rotation_generator pandas_3
           (initial_world (config_with (Yaml.Float 0.25)) id_text_sentiment_table)
           (config_with (Yaml.Float 0.25)) (Yaml.Float 0.25) id_text_sentiment_table).
  - reflexivity.
  - reflexivity.
  - reflexivity.
  - left. reflexivity.
Defined.

(** X20: when the dataset has both columns but no row labelled "happiness" or
    "sadness", process_data succeeds and the run fails at the split, whatever
    the test size is: train_test_split raises ValueError or TypeError, which
    only main logs, and no file or directory is created. *)
Theorem no_kept_rows_nothing_written `{Numpy.RandomState} `{Pandas.Mode} (w : World)
    (doc v : Yaml.value) (T : Pandas.DataFrame) (s : list Pandas.value) :
  configs w !! "params.yaml" = Some (Document doc) ->
  test_size_of doc = Return v ->
  sources w !! dataset_url = Some (FetchTable T) ->
  Pandas.has_column T "tweet_id" = true ->
  Pandas.find_column (Pandas.columns T) "sentiment" = Some s ->
  no_label_kept s ->
  exists e,
    (e = ValueError \/ e = TypeError) /\
    fst (main w) = Return tt /\
    disk (snd (main w)) = disk w /\
    log (snd (main w))
    = (log w ++ [(INFO, Pipeline_started);
                 (INFO, Loaded_test_size v "params.yaml");
                 (INFO, Data_loaded dataset_url);
                 (INFO, Data_processing_complete);
                 (ERROR, Pipeline_error e);
                 (INFO, Pipeline_finished)])%list.
Proof.
  intros Hcfg Hv Hsrc Hid Hs Hnone.
  assert (Hsent : Pandas.has_column T "sentiment" = true).
  { unfold Pandas.has_column, Pandas.column_names. by rewrite has_column_find, Hs. }
  destruct (split_nothing (final_frame T) v 42 (final_frame_no_rows T s Hs Hnone))
    as (e & Hsplit & He).
  exists e. split; [exact He|]. remember (main w) as r eqn:E.
  rewrite main_unfold in E.
  rewrite (pipeline_after_read _ doc v T) in E by assumption.
  unfold mbind at 1, Py_bind at 1, bind at 1 in E.
  rewrite (process_data_run _ _ T) in E
    by (unfold logged, with_log, with_heap; cbn [heap];
        by rewrite lookup_app_r, Nat.sub_diag by lia).
  rewrite Hid, Hsent in E. cbn [negb] in E.
  unfold mbind at 1, Py_bind at 1, bind at 1 in E.
  rewrite (train_test_split_run _ _ (final_frame T)) in E
    by (unfold logged, with_log, with_heap; cbn [heap];
        rewrite lookup_app_r by (rewrite length_insert; lia);
        by rewrite length_insert, Nat.sub_diag).
  rewrite Hsplit in E. subst r. repeat split. same_log.
Qed.

Lemma no_kept_rows_nothing_written_witness :
  exists e,
    (e = ValueError \/ e = TypeError) /\
    fst (@main rotation_generator pandas_3
           (initial_world (config_with (Yaml.Float 0.25)) neutral_table)) = Return tt /\
    disk (snd (@main rotation_generator pandas_3
                 (initial_world (config_with (Yaml.Float 0.25)) neutral_table)))
    = disk (initial_world (config_with (Yaml.Float 0.25)) neutral_table) /\
    log (snd (@main rotation_generator pandas_3
                (initial_world (config_with (Yaml.Float 0.25)) neutral_table)))
    = (log (initial_world (config_with (Yaml.Float 0.25)) neutral_table)
       ++ [(INFO, Pipeline_started);
           (INFO, Loaded_test_size (Yaml.Float 0.25) "params.yaml");
           (INFO, Data_loaded dataset_url);
           (INFO, Data_processing_complete);
           (ERROR, Pipeline_error e);
           (INFO, Pipeline_finished)])%list.
Proof.
  apply (@no_kept_rows_nothing_written rotation_generator pandas_3
           (initial_world (config_with (Yaml.Float 0.25)) neutral_table)
           (config_with (Yaml.Float 0.25)) (Yaml.Float 0.25) neutral_table
           [Pandas.VStr "neutral"; Pandas.VStr "worry"]).
  - reflexivity.
  - reflexivity.
  - reflexivity.
  - reflexivity.
  - reflexivity.
  - repeat constructor.
Defined.

(** ** Runs that reach the split *)

Lemma split_out_of_range `{Numpy.RandomState} (T : Pandas.DataFrame)
    (test_size : Yaml.value) (seed : Z) :
  out_of_range test_size (length (Pandas.index T)) ->
  Sklearn.split T test_size seed = Raise ValueError.
Proof.
  unfold Sklearn.split, Sklearn.validate_shuffle_split.
  destruct test_size as [| b | z | f | str | items | items]; simpl; try contradiction.
  - intros Hz.
    destruct (Z.leb_spec (Z.of_nat (length (Pandas.index T))) z); [reflexivity|].
    destruct (Z.leb_spec z 0); [reflexivity | lia].
  - intros [-> | ->]; [reflexivity|]. by rewrite orb_true_r.
Qed.

(** The run up to the split, for a table with both columns. *)
Lemma pipeline_after_process `{Numpy.RandomState} `{Pandas.Mode} (w : World)
    (doc v : Yaml.value) (T : Pandas.DataFrame) :
  configs w !! "params.yaml" = Some (Document doc) ->
  test_size_of doc = Return v ->
  sources w !! dataset_url = Some (FetchTable T) ->
  Pandas.has_column T "tweet_id" = true ->
  Pandas.has_column T "sentiment" = true ->
  exists w4,
    heap w4 = (<[length (heap w) := without_tweet_id T]> (heap w ++ [T])
               ++ [final_frame T])%list /\
    configs w4 = configs w /\ sources w4 = sources w /\ disk w4 = disk w /\
    log w4 = (log w ++ [(INFO, Loaded_test_size v "params.yaml");
                        (INFO, Data_loaded dataset_url);
                        (INFO, Data_processing_complete)])%list /\
    pipeline w
    = match Sklearn.split (final_frame T) v 42 with
      | Return (train, test) =>
          save_data "data/raw" (length (heap w4)) (S (length (heap w4)))
            (logged INFO (Data_split v) (with_heap (heap w4 ++ [train; test]) w4))
      | Raise e => (Raise e, w4)
      | Stuck => (Stuck, w4)
      end.
Proof.
  intros Hcfg Hv Hsrc Hid Hsent.
  eexists. split; [|split; [|split; [|split; [|split]]]]; cycle 5.
  - rewrite (pipeline_after_read _ doc v T) by assumption.
    unfold mbind at 1, Py_bind at 1, bind at 1.
    rewrite (process_data_run _ _ T)
      by (unfold logged, with_log, with_heap; cbn [heap];
          by rewrite lookup_app_r, Nat.sub_diag by lia).
    rewrite Hid, Hsent. cbn [negb].
    unfold mbind at 1, Py_bind at 1, bind at 1.
    rewrite (train_test_split_run _ _ (final_frame T))
      by (unfold logged, with_log, with_heap; cbn [heap];
          rewrite lookup_app_r by (rewrite length_insert; lia);
          by rewrite length_insert, Nat.sub_diag).
    destruct (Sklearn.split (final_frame T) v 42) as [[train test]| e |];
      reflexivity.
  - reflexivity.
  - reflexivity.
  - reflexivity.
  - reflexivity.
  - same_log.
Qed.

(** A run whose split raises: main logs the exception, and the store is what
    it was. *)
Lemma main_split_fails `{Numpy.RandomState} `{Pandas.Mode} (w : World)
    (doc v : Yaml.value) (T : Pandas.DataFrame) (e : exn) :
  configs w !! "params.yaml" = Some (Document doc) ->
  test_size_of doc = Return v ->
  sources w !! dataset_url = Some (FetchTable T) ->
  Pandas.has_column T "tweet_id" = true ->
  Pandas.has_column T "sentiment" = true ->
  Sklearn.split (final_frame T) v 42 = Raise e ->
  fst (main w) = Return tt /\
  disk (snd (main w)) = disk w /\
  log (snd (main w))
  = (log w ++ [(INFO, Pipeline_started);
               (INFO, Loaded_test_size v "params.yaml");
               (INFO, Data_loaded dataset_url);
               (INFO, Data_processing_complete);
               (ERROR, Pipeline_error e);
               (INFO, Pipeline_finished)])%list.
Proof.
  intros Hcfg Hv Hsrc Hid Hsent Hsplit.
  destruct (pipeline_after_process (logged INFO Pipeline_started w) doc v T
              Hcfg Hv Hsrc Hid Hsent) as (w4 & _ & _ & _ & Hdisk & Hlog & Hrun).
  rewrite Hsplit in Hrun. rewrite main_unfold, Hrun. cbn [fst snd].
  split; [reflexivity|]. split; [exact Hdisk|].
  unfold logged at 1 2, with_log. cbn [log]. rewrite Hlog.
  unfold logged, with_log. cbn [log]. by rewrite <- !app_assoc.
Qed.

(** A run in which every stage succeeds. *)
Lemma main_completes `{Numpy.RandomState} `{Pandas.Mode} (w : World)
    (doc v : Yaml.value) (T train test : Pandas.DataFrame) :
  configs w !! "params.yaml" = Some (Document doc) ->
  test_size_of doc = Return v ->
  sources w !! dataset_url = Some (FetchTable T) ->
  Pandas.has_column T "tweet_id" = true ->
  Pandas.has_column T "sentiment" = true ->
  Sklearn.split (final_frame T) v 42 = Return (train, test) ->
  destination_free (disk w) ->
  exists d,
    Os.mkdirs (Os.prefixes "" "data/raw") (disk w) = Return d /\
    fst (main w) = Return tt /\
    configs (snd (main w)) = configs w /\
    sources (snd (main w)) = sources w /\
    disk (snd (main w))
    = <["data/raw/test.csv" := File (Pandas.to_csv test false)]>
        (<["data/raw/train.csv" := File (Pandas.to_csv train false)]> d) /\
    log (snd (main w)) = (log w ++ complete_log v)%list.
Proof.
  intros Hcfg Hv Hsrc Hid Hsent Hsplit Hfree.
  destruct (pipeline_after_process (logged INFO Pipeline_started w) doc v T
              Hcfg Hv Hsrc Hid Hsent) as (w4 & _ & Hc & Hs & Hdisk & Hlog & Hrun).
  rewrite Hsplit in Hrun.
  destruct (save_data_free
              (logged INFO (Data_split v) (with_heap (heap w4 ++ [train; test]) w4))
              "data/raw" (length (heap w4)) (S (length (heap w4))) train test)
    as (d & Hd & Hsave).
  { exact (proj1 (lookup_two_new (heap w4) train test)). }
  { exact (proj2 (lookup_two_new (heap w4) train test)). }
  { split; [discriminate|]. cbn [disk logged with_log with_heap]. rewrite Hdisk.
    exact Hfree. }
  cbn [disk logged with_log with_heap] in Hd. rewrite Hdisk in Hd.
  exists d. split; [exact Hd|].
  rewrite main_unfold, Hrun, Hsave. cbn [fst snd].
  split; [reflexivity|]. split; [exact Hc|]. split; [exact Hs|].
  split; [reflexivity|].
  unfold logged, with_log, with_disk, with_heap. cbn [log]. rewrite Hlog.
  unfold logged, with_log, complete_log. cbn [log]. by rewrite <- !app_assoc.
Qed.

(** X21: main does not check the test size before it fetches and filters the
    dataset.  A fraction outside (0, 1), or a number of rows outside
    1 .. n - 1 for the n rows that are kept, is refused only by
    train_test_split: the run logs the three stages before it, then the
    ValueError, and creates no directory and no file. *)
Theorem out_of_range_test_size_fails_at_the_split `{Numpy.RandomState} `{Pandas.Mode}
    (w : World) (doc v : Yaml.value) (T : Pandas.DataFrame) :
  configs w !! "params.yaml" = Some (Document doc) ->
  test_size_of doc = Return v ->
  sources w !! dataset_url = Some (FetchTable T) ->
  Pandas.has_column T "tweet_id" = true ->
  Pandas.has_column T "sentiment" = true ->
  out_of_range v (length (Pandas.index (final_frame T))) ->
  fst (main w) = Return tt /\
  disk (snd (main w)) = disk w /\
  log (snd (main w))
  = (log w ++ [(INFO, Pipeline_started);
               (INFO, Loaded_test_size v "params.yaml");
               (INFO, Data_loaded dataset_url);
               (INFO, Data_processing_complete);
               (ERROR, Pipeline_error ValueError);
               (INFO, Pipeline_finished)])%list.
Proof.
  intros Hcfg Hv Hsrc Hid Hsent Hout.
  apply (main_split_fails w doc v T ValueError); try assumption.
  by apply split_out_of_range.
Qed.

Lemma out_of_range_test_size_fails_at_the_split_witness :
  fst (@main rotation_generator pandas_3
         (initial_world (config_with (Yaml.Float 1)) scenario_table)) = Return tt /\
  disk (snd (@main rotation_generator pandas_3
               (initial_world (config_with (Yaml.Float 1)) scenario_table)))
  = disk (initial_world (config_with (Yaml.Float 1)) scenario_table) /\
  log (snd (@main rotation_generator pandas_3
              (initial_world (config_with (Yaml.Float 1)) scenario_table)))
  = (log (initial_world (config_with (Yaml.Float 1)) scenario_table)
     ++ [(INFO, Pipeline_started);
         (INFO, Loaded_test_size (Yaml.Float 1) "params.yaml");
         (INFO, Data_loaded dataset_url);
         (INFO, Data_processing_complete);
         (ERROR, Pipeline_error ValueError);
         (INFO, Pipeline_finished)])%list.
Proof.
  apply (@out_of_range_test_size_fails_at_the_split rotation_generator pandas_3
           (initial_world (config_with (Yaml.Float 1)) scenario_table)
           (config_with (Yaml.Float 1)) (Yaml.Float 1) scenario_table).
  - reflexivity.
  - reflexivity.
  - reflexivity.
  - reflexivity.
  - reflexivity.
  - right. reflexivity.
Defined.

(** X22: a complete run.  When the configuration gives a test size, the
    dataset has both columns, train_test_split accepts the table that
    process_data returned and nothing is in the way in the store, main logs
    the seven records of a complete run in order, creates data and data/raw
    where they are missing, and leaves in train.csv and test.csv the two
    sides of the split of that table, written without the index.  The table
    is the one process_data returned: its labels are recoded only without
    copy-on-write. *)
Theorem complete_run `{Numpy.RandomState} `{Pandas.Mode} (w : World)
    (doc v : Yaml.value) (T train test : Pandas.DataFrame) :
  configs w !! "params.yaml" = Some (Document doc) ->
  test_size_of doc = Return v ->
  sources w !! dataset_url = Some (FetchTable T) ->
  Pandas.has_column T "tweet_id" = true ->
  Pandas.has_column T "sentiment" = true ->
  Sklearn.split (final_frame T) v 42 = Return (train, test) ->
  destination_free (disk w) ->
  fst (main w) = Return tt /\
  log (snd (main w)) = (log w ++ complete_log v)%list /\
  disk (snd (main w)) !! "data" = Some Dir /\
  disk (snd (main w)) !! "data/raw" = Some Dir /\
  written (snd (main w)) "data/raw/train.csv" = Some (Pandas.to_csv train false) /\
  written (snd (main w)) "data/raw/test.csv" = Some (Pandas.to_csv test false).
Proof.
  intros Hcfg Hv Hsrc Hid Hsent Hsplit Hfree.
  destruct (main_completes w doc v T train test Hcfg Hv Hsrc Hid Hsent Hsplit Hfree)
    as (d & Hd & Hret & _ & _ & Hdisk & Hlog).
  destruct (mkdirs_keeps _ _ _ Hd) as (_ & _ & Hdirs).
  split; [exact Hret|]. split; [exact Hlog|].
  unfold written. rewrite Hdisk.
  repeat split.
  - rewrite !lookup_insert_ne by discriminate. apply Hdirs. simpl. tauto.
  - rewrite !lookup_insert_ne by discriminate. apply Hdirs. simpl. tauto.
  - rewrite lookup_insert_ne by discriminate. by rewrite lookup_insert_eq.
  - by rewrite lookup_insert_eq.
Qed.

Lemma complete_run_witness :
  fst (@main rotation_generator pandas_3
         (initial_world (config_with (Yaml.Int 3)) scenario_table)) = Return tt /\
  log (snd (@main rotation_generator pandas_3
              (initial_world (config_with (Yaml.Int 3)) scenario_table)))
  = (log (initial_world (config_with (Yaml.Int 3)) scenario_table)
     ++ complete_log (Yaml.Int 3))%list /\
  disk (snd (@main rotation_generator pandas_3
               (initial_world (config_with (Yaml.Int 3)) scenario_table))) !! "data"
  = Some Dir /\
  disk (snd (@main rotation_generator pandas_3
               (initial_world (config_with (Yaml.Int 3)) scenario_table))) !! "data/raw"
  = Some Dir /\
  written (snd (@main rotation_generator pandas_3
                  (initial_world (config_with (Yaml.Int 3)) scenario_table)))
          "data/raw/train.csv"
  = Some (Pandas.to_csv
            (at_positions (@final_frame pandas_3 scenario_table)
               (List.skipn 3 (Numpy.rotation 42 8))) false) /\
  written (snd (@main rotation_generator pandas_3
                  (initial_world (config_with (Yaml.Int 3)) scenario_table)))
          "data/raw/test.csv"
  = Some (Pandas.to_csv
            (at_positions (@final_frame pandas_3 scenario_table)
               (List.firstn 3 (Numpy.rotation 42 8))) false).
Proof.
  apply (@complete_run rotation_generator pandas_3
           (initial_world (config_with (Yaml.Int 3)) scenario_table)
           (config_with (Yaml.Int 3)) (Yaml.Int 3) scenario_table).
  - reflexivity.
  - reflexivity.
  - reflexivity.
  - reflexivity.
  - reflexivity.
  - vm_compute. reflexivity.
  - exact destination_free_empty.
Defined.

(** X23: main can be run again.  After a complete run, a second run on the
    same configuration and dataset also returns, logs a complete run again,
    and leaves the store exactly as the first run left it: the existing
    directories are no error and both files are overwritten with the same
    content. *)
Theorem main_again `{Numpy.RandomState} `{Pandas.Mode} (w : World) (doc v : Yaml.value)
    (T train test : Pandas.DataFrame) :
  configs w !! "params.yaml" = Some (Document doc) ->
  test_size_of doc = Return v ->
  sources w !! dataset_url = Some (FetchTable T) ->
  Pandas.has_column T "tweet_id" = true ->
  Pandas.has_column T "sentiment" = true ->
  Sklearn.split (final_frame T) v 42 = Return (train, test) ->
  destination_free (disk w) ->
  fst (main (snd (main w))) = Return tt /\
  disk (snd (main (snd (main w)))) = disk (snd (main w)) /\
  log (snd (main (snd (main w)))) = (log w ++ complete_log v ++ complete_log v)%list.
Proof.
  intros Hcfg Hv Hsrc Hid Hsent Hsplit Hfree.
  destruct (main_completes w doc v T train test Hcfg Hv Hsrc Hid Hsent Hsplit Hfree)
    as (d & Hd & _ & Hc & Hs & Hdisk & Hlog).
  destruct (mkdirs_keeps _ _ _ Hd) as (_ & _ & Hdirs).
  set (w1 := snd (main w)) in *.
  assert (Hdata : forall q, In q (Os.prefixes "" "data/raw") ->
                            disk w1 !! q = Some Dir).
  { intros q Hq. rewrite Hdisk.
    simpl in Hq. destruct Hq as [<- | [<- | []]];
      rewrite !lookup_insert_ne by discriminate; apply Hdirs; simpl; tauto. }
  assert (Hfree1 : destination_free (disk w1)).
  { split; [|split].
    - intros q c Hq. rewrite (Hdata q Hq). discriminate.
    - rewrite Hdisk, lookup_insert_ne by discriminate.
      rewrite lookup_insert_eq. discriminate.
    - rewrite Hdisk, lookup_insert_eq. discriminate. }
  destruct (main_completes w1 doc v T train test) as (d' & Hd' & Hret & _ & _ & Hdisk' & Hlog');
    try assumption; [by rewrite Hc | by rewrite Hs |].
  rewrite (mkdirs_existing _ _ Hdata) in Hd'. injection Hd' as <-.
  split; [exact Hret|]. split.
  - assert (Htrain : disk w1 !! "data/raw/train.csv"
                     = Some (File (Pandas.to_csv train false))).
    { rewrite Hdisk, lookup_insert_ne by discriminate. apply lookup_insert_eq. }
    assert (Htest : disk w1 !! "data/raw/test.csv"
                    = Some (File (Pandas.to_csv test false))).
    { rewrite Hdisk. apply lookup_insert_eq. }
    rewrite Hdisk', (insert_id (disk w1) _ _ Htrain).
    apply (insert_id (disk w1) _ _ Htest).
  - rewrite Hlog', Hlog. by rewrite <- app_assoc.
Qed.

Lemma main_again_witness :
  fst (@main rotation_generator pandas_3
         (snd (@main rotation_generator pandas_3
                 (initial_world (config_with (Yaml.Int 3)) scenario_table))))
  = Return tt /\
  disk (snd (@main rotation_generator pandas_3
               (snd (@main rotation_generator pandas_3
                       (initial_world (config_with (Yaml.Int 3)) scenario_table)))))
  = disk (snd (@main rotation_generator pandas_3
                 (initial_world (config_with (Yaml.Int 3)) scenario_table))) /\
  log (snd (@main rotation_generator pandas_3
              (snd (@main rotation_generator pandas_3
                      (initial_world (config_with (Yaml.Int 3)) scenario_table)))))
  = (log (initial_world (config_with (Yaml.Int 3)) scenario_table)
     ++ complete_log (Yaml.Int 3) ++ complete_log (Yaml.Int 3))%list.
Proof.
  apply (@main_again rotation_generator pandas_3
           (initial_world (config_with (Yaml.Int 3)) scenario_table)
           (config_with (Yaml.Int 3)) (Yaml.Int 3) scenario_table
           (at_positions (@final_frame pandas_3 scenario_table)
              (List.skipn 3 (Numpy.rotation 42 8)))
           (at_positions (@final_frame pandas_3 scenario_table)
              (List.firstn 3 (Numpy.rotation 42 8)))).
  - reflexivity.
  - reflexivity.
  - reflexivity.
  - reflexivity.
  - reflexivity.
  - vm_compute. reflexivity.
  - exact destination_free_empty.
Defined.

(** X24: when load_params fails, for whatever reason (the file is missing,
    cannot be opened or decoded, is not YAML, lacks data_ingestion or
    test_size, or holds a value that cannot be subscripted), main stops there: the dataset is not fetched, no
    table is created, the store is untouched, and the log holds the record of
    load_params, if it has a handler for the exception, between "pipeline
    started" and the pipeline error. *)
Theorem config_failure_stops_the_run `{Numpy.RandomState} `{Pandas.Mode} (w : World)
    (e : exn) :
  fst (load_params "params.yaml" w) = Raise e ->
  main w
  = (Return tt,
     with_log (log w ++ (INFO, Pipeline_started)
                     :: load_error_records "params.yaml" e
                     ++ [(ERROR, Pipeline_error e); (INFO, Pipeline_finished)]) w).
Proof.
  intros He.
  assert (He1 : fst (load_params "params.yaml" (logged INFO Pipeline_started w))
                = Raise e).
  { rewrite load_params_outcome. by rewrite load_params_outcome in He. }
  pose proof (load_params_world "params.yaml" (logged INFO Pipeline_started w)) as Hw.
  rewrite He1 in Hw.
  rewrite main_unfold. unfold pipeline. unfold mbind at 1, Py_bind at 1, bind at 1.
  destruct (load_params "params.yaml" (logged INFO Pipeline_started w)) as [o w1].
  cbn [fst snd] in He1, Hw. subst o w1.
  f_equal. unfold logged, with_log. cbn [heap configs sources disk log].
  by rewrite <- !app_assoc.
Qed.

Lemma config_failure_stops_the_run_witness :
  @main rotation_generator pandas_3
    (initial_world (Yaml.Map [("data_ingestion", Yaml.Int 5)]) scenario_table)
  = (Return tt,
     with_log (log (initial_world (Yaml.Map [("data_ingestion", Yaml.Int 5)])
                      scenario_table)
               ++ (INFO, Pipeline_started)
               :: load_error_records "params.yaml" TypeError
               ++ [(ERROR, Pipeline_error TypeError); (INFO, Pipeline_finished)])
       (initial_world (Yaml.Map [("data_ingestion", Yaml.Int 5)]) scenario_table)).
Proof.
  apply (@config_failure_stops_the_run rotation_generator pandas_3
           (initial_world (Yaml.Map [("data_ingestion", Yaml.Int 5)]) scenario_table)
           TypeError).
  reflexivity.
Defined.

(** ** The store a run leaves *)

Lemma opened_return (path : string) (found : option text_file) (v : Yaml.value) :
  opened path found ≫= test_size_of = Return v ->
  exists doc, found = Some (Document doc) /\ test_size_of doc = Return v.
Proof.
  destruct found as [[| | | |doc]|]; simpl; try discriminate.
  intros Hv. by exists doc.
Qed.

Lemma pipeline_store `{Numpy.RandomState} `{Pandas.Mode} (w : World) :
  disk (snd (pipeline w))
  = run_store (configs w !! "params.yaml") (sources w !! dataset_url) (disk w).
Proof.
  unfold run_store.
  destruct (opened "params.yaml" (configs w !! "params.yaml") ≫= test_size_of)
    as [v|e|] eqn:Ho.
  - apply opened_return in Ho as (doc & Hcfg & Hv).
    destruct (sources w !! dataset_url) as [[| |e'|T]|] eqn:Hsrc.
    1-3, 5: rewrite (pipeline_after_load w doc v Hcfg Hv);
      unfold mbind at 1, Py_bind at 1, bind at 1; rewrite read_data_run;
      change (sources (logged INFO (Loaded_test_size v "params.yaml") w))
        with (sources w); rewrite Hsrc; reflexivity.
    destruct (Pandas.has_column T "tweet_id") eqn:Hid;
      [destruct (Pandas.has_column T "sentiment") eqn:Hsent|]; cbn [andb].
    + destruct (pipeline_after_process w doc v T Hcfg Hv Hsrc Hid Hsent)
        as (w4 & _ & _ & _ & Hdisk & _ & ->).
      destruct (Sklearn.split (final_frame T) v 42) as [[train test]|e|];
        [|exact Hdisk | exact Hdisk].
      rewrite (save_data_run
                 (logged INFO (Data_split v)
                    (with_heap (heap w4 ++ [train; test]) w4))
                 "data/raw" (length (heap w4)) (S (length (heap w4))) train test
                 (proj1 (lookup_two_new (heap w4) train test))
                 (proj2 (lookup_two_new (heap w4) train test)))
        by discriminate.
      unfold saved. cbn [disk logged with_log with_heap]. rewrite Hdisk.
      change (Os.path_join "data/raw" "train.csv") with "data/raw/train.csv".
      change (Os.path_join "data/raw" "test.csv") with "data/raw/test.csv".
      destruct (Os.mkdirs (Os.prefixes "" "data/raw") (disk w)) as [d1|e|];
        [|exact Hdisk | exact Hdisk].
      destruct (d1 !! "data/raw/train.csv") as [[|c]|];
        destruct (d1 !! "data/raw/test.csv") as [[|c']|]; reflexivity.
    + rewrite (pipeline_after_read w doc v T Hcfg Hv Hsrc).
      unfold mbind at 1, Py_bind at 1, bind at 1.
      rewrite (process_data_run _ _ T)
        by (unfold logged, with_log, with_heap; cbn [heap];
            by rewrite lookup_app_r, Nat.sub_diag by lia).
      rewrite Hid, Hsent. reflexivity.
    + rewrite (pipeline_after_read w doc v T Hcfg Hv Hsrc).
      unfold mbind at 1, Py_bind at 1, bind at 1.
      rewrite (process_data_run _ _ T)
        by (unfold logged, with_log, with_heap; cbn [heap];
            by rewrite lookup_app_r, Nat.sub_diag by lia).
      rewrite Hid. reflexivity.
  - rewrite <- load_params_outcome in Ho.
    pose proof (load_params_world "params.yaml" w) as Hw.
    unfold pipeline. unfold mbind at 1, Py_bind at 1, bind at 1.
    destruct (load_params "params.yaml" w) as [o w1]. cbn [fst snd] in *.
    subst o w1. reflexivity.
  - rewrite <- load_params_outcome in Ho.
    by destruct (load_params_not_stuck "params.yaml" w).
Qed.

Lemma main_store `{Numpy.RandomState} `{Pandas.Mode} (w : World) :
  disk (snd (main w))
  = run_store (configs w !! "params.yaml") (sources w !! dataset_url) (disk w).
Proof.
  rewrite main_unfold.
  pose proof (pipeline_store (logged INFO Pipeline_started w)) as Hp.
  destruct (pipeline (logged INFO Pipeline_started w)) as [[[]|e|] w']; exact Hp.
Qed.

(** ** C3 *)

(** With random_state=None the same call on the same table gives other rows
    to the two sides when numpy's global generator is in another state, and
    it leaves the generator advanced. *)
Example unseeded_split_depends_on_the_generator :
  tables (@Sklearn.train_test_split rotation_generator 0 (Yaml.Float 0.25) None
            (world_with [scenario_table]))
  <> tables (@Sklearn.train_test_split rotation_generator 0 (Yaml.Float 0.25) None
               (with_generator 1%Z (world_with [scenario_table]))) /\
  generator (snd (@Sklearn.train_test_split rotation_generator 0 (Yaml.Float 0.25) None
                    (world_with [scenario_table])))
  <> generator (world_with [scenario_table]).
Proof. split; vm_compute; discriminate. Qed.

(** C3: the split is deterministic under a fixed seed.  Two calls of
    train_test_split on the same table with the same test size and the same
    integer random_state return tables with the same rows on each side (or
    fail with the same error), whatever else differs between the two worlds,
    the state of numpy's global generator included, which the call neither
    reads nor advances; so does a second call made after the first.  The rows
    are those at the positions that a generator freshly seeded with the seed
    draws: the first n_test positions go to the test side, the others to the
    train side.  main passes random_state=42: the store it leaves is the same
    in two runs that find the same params.yaml, the same dataset and the same
    store, whatever the tables in memory, the log and the generator are. *)
Theorem train_test_split_deterministic `{Numpy.RandomState} `{Pandas.Mode}
    (w1 w2 : World) (arr1 arr2 : loc) (T : Pandas.DataFrame)
    (test_size : Yaml.value) (seed : Z) :
  heap w1 !! arr1 = Some T ->
  heap w2 !! arr2 = Some T ->
  tables (Sklearn.train_test_split arr1 test_size (Some seed) w1)
  = tables (Sklearn.train_test_split arr2 test_size (Some seed) w2) /\
  tables (Sklearn.train_test_split arr1 test_size (Some seed)
            (snd (Sklearn.train_test_split arr1 test_size (Some seed) w1)))
  = tables (Sklearn.train_test_split arr1 test_size (Some seed) w1) /\
  generator (snd (Sklearn.train_test_split arr1 test_size (Some seed) w1))
  = generator w1 /\
  (forall k,
     Numpy.permutes seed (length (Pandas.index T)) ->
     Sklearn.validate_shuffle_split (Z.of_nat (length (Pandas.index T))) test_size
     = Return ((Z.of_nat (length (Pandas.index T)) - k)%Z, k) ->
     let c := Numpy.clamp k (length (Pandas.index T)) in
     let p := Numpy.permutation seed (length (Pandas.index T)) in
     tables (Sklearn.train_test_split arr1 test_size (Some seed) w1)
     = Return (Some (at_positions T (List.skipn c p)),
               Some (at_positions T (List.firstn c p)))) /\
  (configs w1 !! "params.yaml" = configs w2 !! "params.yaml" ->
   sources w1 !! dataset_url = sources w2 !! dataset_url ->
   disk w1 = disk w2 ->
   disk (snd (main w1)) = disk (snd (main w2))).
Proof.
  intros H1 H2. split; [|split; [|split; [|split]]].
  - by rewrite (tables_train_test_split w1 arr1 T), (tables_train_test_split w2 arr2 T).
  - rewrite (tables_train_test_split w1 arr1 T test_size seed H1).
    apply tables_train_test_split.
    rewrite (train_test_split_run w1 arr1 T test_size seed H1).
    destruct (Sklearn.split T test_size seed) as [[train test]|e|]; try exact H1.
    simpl. by apply lookup_app_l_Some.
  - rewrite (train_test_split_run w1 arr1 T test_size seed H1).
    by destruct (Sklearn.split T test_size seed) as [[train test]|e|].
  - intros k Hp Hv c p.
    rewrite (tables_train_test_split w1 arr1 T test_size seed H1).
    by rewrite (split_with_sizes T test_size seed k Hp Hv).
  - intros Hc Hs Hd. by rewrite !main_store, Hc, Hs, Hd.
Qed.

Lemma train_test_split_deterministic_witness :
  tables (@Sklearn.train_test_split rotation_generator 0 (Yaml.Float 0.25) (Some 42%Z)
            (world_with [scenario_table]))
  = tables (@Sklearn.train_test_split rotation_generator 1 (Yaml.Float 0.25) (Some 42%Z)
              (with_generator 7%Z (world_with [neutral_table; scenario_table]))) /\
  tables (@Sklearn.train_test_split rotation_generator 0 (Yaml.Float 0.25) (Some 42%Z)
            (snd (@Sklearn.train_test_split rotation_generator 0 (Yaml.Float 0.25)
                    (Some 42%Z) (world_with [scenario_table]))))
  = tables (@Sklearn.train_test_split rotation_generator 0 (Yaml.Float 0.25) (Some 42%Z)
              (world_with [scenario_table])) /\
  generator (snd (@Sklearn.train_test_split rotation_generator 0 (Yaml.Float 0.25)
                    (Some 42%Z) (world_with [scenario_table])))
  = generator (world_with [scenario_table]) /\
  (forall k,
     @Numpy.permutes rotation_generator 42 (length (Pandas.index scenario_table)) ->
     Sklearn.validate_shuffle_split
       (Z.of_nat (length (Pandas.index scenario_table))) (Yaml.Float 0.25)
     = Return ((Z.of_nat (length (Pandas.index scenario_table)) - k)%Z, k) ->
     let c := Numpy.clamp k (length (Pandas.index scenario_table)) in
     let p := @Numpy.permutation rotation_generator 42
                (length (Pandas.index scenario_table)) in
     tables (@Sklearn.train_test_split rotation_generator 0 (Yaml.Float 0.25)
               (Some 42%Z) (world_with [scenario_table]))
     = Return (Some (at_positions scenario_table (List.skipn c p)),
               Some (at_positions scenario_table (List.firstn c p)))) /\
  (configs (world_with [scenario_table]) !! "params.yaml"
   = configs (with_generator 7%Z (world_with [neutral_table; scenario_table]))
       !! "params.yaml" ->
   sources (world_with [scenario_table]) !! dataset_url
   = sources (with_generator 7%Z (world_with [neutral_table; scenario_table]))
       !! dataset_url ->
   disk (world_with [scenario_table])
   = disk (with_generator 7%Z (world_with [neutral_table; scenario_table])) ->
   disk (snd (@main rotation_generator pandas_3 (world_with [scenario_table])))
   = disk (snd (@main rotation_generator pandas_3
                  (with_generator 7%Z (world_with [neutral_table; scenario_table]))))).
Proof.
  apply (@train_test_split_deterministic rotation_generator pandas_3
           (world_with [scenario_table])
           (with_generator 7%Z (world_with [neutral_table; scenario_table]))
           0 1 scenario_table); reflexivity.
Defined.

(** ** The written tables of a run *)

Lemma take_positions_some {A : Type} (d : A) (l : list A) (positions : list nat)
    (xs : list A) :
  Pandas.take_positions l positions = Some xs ->
  Forall (fun p => p < length l) positions /\ xs = map (fun p => nth p l d) positions.
Proof.
  revert xs. induction positions as [|p ps IH]; simpl; intros xs.
  - intros [= <-]. by split.
  - destruct (nth_error l p) as [x|] eqn:Ex; [|discriminate].
    destruct (Pandas.take_positions l ps) as [ys|]; [|discriminate].
    intros [= <-]. destruct (IH ys eq_refl) as [Hps ->].
    split.
    + constructor; [|exact Hps]. apply nth_error_Some. congruence.
    + f_equal. symmetry. by apply nth_error_nth.
Qed.

Lemma iloc_returns (F A : Pandas.DataFrame) (positions : list nat) :
  Pandas.iloc F positions = Return A ->
  Forall (fun p => p < length (Pandas.index F)) positions /\
  A = at_positions F positions.
Proof.
  unfold Pandas.iloc.
  destruct (Pandas.take_positions (Pandas.index F) positions) as [idx|] eqn:E;
    [|discriminate].
  intros [= <-]. destruct (take_positions_some 0%Z _ _ _ E) as [Hps ->].
  by split.
Qed.

(** The two sides of a split that returns are selections of rows of the
    table. *)
Lemma split_returns_positions `{Numpy.RandomState} (F train test : Pandas.DataFrame)
    (test_size : Yaml.value) (seed : Z) :
  Sklearn.split F test_size seed = Return (train, test) ->
  exists ptrain ptest,
    Forall (fun p => p < length (Pandas.index F)) ptrain /\
    Forall (fun p => p < length (Pandas.index F)) ptest /\
    train = at_positions F ptrain /\ test = at_positions F ptest.
Proof.
  unfold Sklearn.split.
  destruct (Sklearn.validate_shuffle_split _ test_size) as [[n_train n_test]|e|];
    try discriminate.
  cbn [mbind outcome_bind fst snd].
  destruct (Pandas.iloc F (Numpy.slice _ n_test (n_test + n_train))) as [A|e|] eqn:EA;
    try discriminate.
  destruct (Pandas.iloc F (Numpy.slice _ 0 n_test)) as [B|e|] eqn:EB;
    try discriminate.
  intros [= <- <-].
  destruct (iloc_returns _ _ _ EA) as [HA ->].
  destruct (iloc_returns _ _ _ EB) as [HB ->].
  eexists _, _. split; [exact HA|]. split; [exact HB|]. split; reflexivity.
Qed.

(** The files of a complete run: the columns of the input other than
    tweet_id, and the labels as process_data returned them. *)
Lemma written_tables `{Numpy.RandomState} `{Pandas.Mode} (w : World)
    (doc v : Yaml.value) (T train test : Pandas.DataFrame) :
  configs w !! "params.yaml" = Some (Document doc) ->
  test_size_of doc = Return v ->
  sources w !! dataset_url = Some (FetchTable T) ->
  Pandas.well_formed T ->
  Pandas.has_column T "tweet_id" = true ->
  Pandas.has_column T "sentiment" = true ->
  Sklearn.split (final_frame T) v 42 = Return (train, test) ->
  destination_free (disk w) ->
  fst (main w) = Return tt /\
  written (snd (main w)) "data/raw/train.csv" = Some (Pandas.to_csv train false) /\
  written (snd (main w)) "data/raw/test.csv" = Some (Pandas.to_csv test false) /\
  labelled_table returned_labels
    (List.filter (fun n => negb (String.eqb n "tweet_id")) (Pandas.column_names T))
    (Pandas.to_csv train false) /\
  labelled_table returned_labels
    (List.filter (fun n => negb (String.eqb n "tweet_id")) (Pandas.column_names T))
    (Pandas.to_csv test false).
Proof.
  intros Hcfg Hv Hsrc Hwf Hid Hsent Hsplit Hfree.
  destruct (main_completes w doc v T train test Hcfg Hv Hsrc Hid Hsent Hsplit Hfree)
    as (d & _ & Hret & _ & _ & Hdisk & _).
  split; [exact Hret|]. unfold written. rewrite Hdisk.
  split; [rewrite lookup_insert_ne by discriminate; by rewrite lookup_insert_eq|].
  split; [by rewrite lookup_insert_eq|].
  destruct (split_returns_positions _ _ _ _ _ Hsplit)
    as (ptrain & ptest & Htrain & Htest & -> & ->).
  rewrite <- column_names_final_frame.
  split; apply to_csv_at_positions; try assumption;
    by apply final_frame_labels.
Qed.

Lemma labelled_table_more (labels labels' : list Pandas.value) (names : list string)
    (c : Pandas.csv) :
  incl labels labels' -> labelled_table labels names c -> labelled_table labels' names c.
Proof.
  intros Hincl (Hh & Hl & Hlab). repeat split; try assumption.
  eapply Forall_impl; [exact Hlab|]. intros r. by apply labelled_more.
Qed.

(** ** C7 *)

(** C7 as stated fails on a table with a fourth column: the run succeeds and
    both files carry the columns text, sentiment and author. *)
Lemma additional_column_is_written :
  Pandas.column_names four_column_table = ["tweet_id"; "text"; "sentiment"; "author"] /\
  fst (@main rotation_generator pandas_3
         (initial_world (config_with (Yaml.Float 0.25)) four_column_table))
  = Return tt /\
  Pandas.header <$>
    written (snd (@main rotation_generator pandas_3
                    (initial_world (config_with (Yaml.Float 0.25)) four_column_table)))
            "data/raw/train.csv"
  = Some ["text"; "sentiment"; "author"] /\
  Pandas.header <$>
    written (snd (@main rotation_generator pandas_3
                    (initial_world (config_with (Yaml.Float 0.25)) four_column_table)))
            "data/raw/test.csv"
  = Some ["text"; "sentiment"; "author"].
Proof. repeat split; vm_compute; reflexivity. Qed.

(** C7 (amended): when every stage succeeds, for every test size that
    train_test_split accepts (a fraction, a number of rows, or none), each
    of the two files written has exactly the columns of the input table
    other than tweet_id, in the input's order (text and sentiment alone only
    when the input has no other column), no column for the row labels, one
    field per column in every record, and under sentiment the label of a
    row that was kept ("happiness" or "sadness", or their codes 1 and 0).
    Whether the label is written recoded is not part of this statement. *)
Theorem written_tables_keep_input_columns `{Numpy.RandomState} `{Pandas.Mode}
    (w : World) (doc v : Yaml.value) (T train test : Pandas.DataFrame) :
  configs w !! "params.yaml" = Some (Document doc) ->
  test_size_of doc = Return v ->
  sources w !! dataset_url = Some (FetchTable T) ->
  Pandas.well_formed T ->
  Pandas.has_column T "tweet_id" = true ->
  Pandas.has_column T "sentiment" = true ->
  Sklearn.split (final_frame T) v 42 = Return (train, test) ->
  destination_free (disk w) ->
  fst (main w) = Return tt /\
  exists train_csv test_csv,
    written (snd (main w)) "data/raw/train.csv" = Some train_csv /\
    written (snd (main w)) "data/raw/test.csv" = Some test_csv /\
    labelled_table kept_labels
      (List.filter (fun n => negb (String.eqb n "tweet_id")) (Pandas.column_names T))
      train_csv /\
    labelled_table kept_labels
      (List.filter (fun n => negb (String.eqb n "tweet_id")) (Pandas.column_names T))
      test_csv.
Proof.
  intros Hcfg Hv Hsrc Hwf Hid Hsent Hsplit Hfree.
  destruct (written_tables w doc v T train test Hcfg Hv Hsrc Hwf Hid Hsent Hsplit Hfree)
    as (Hret & Htrain & Htest & Ltrain & Ltest).
  split; [exact Hret|].
  exists (Pandas.to_csv train false), (Pandas.to_csv test false).
  split; [exact Htrain|]. split; [exact Htest|].
  split; eapply labelled_table_more; try eassumption; apply returned_labels_kept.
Qed.

Lemma written_tables_keep_input_columns_witness :
  fst (@main rotation_generator pandas_3
         (initial_world (config_with (Yaml.Int 3)) scenario_table)) = Return tt /\
  exists train_csv test_csv,
    written (snd (@main rotation_generator pandas_3
                    (initial_world (config_with (Yaml.Int 3)) scenario_table)))
            "data/raw/train.csv" = Some train_csv /\
    written (snd (@main rotation_generator pandas_3
                    (initial_world (config_with (Yaml.Int 3)) scenario_table)))
            "data/raw/test.csv" = Some test_csv /\
    labelled_table kept_labels ["sentiment"; "content"] train_csv /\
    labelled_table kept_labels ["sentiment"; "content"] test_csv.
Proof.
  apply (@written_tables_keep_input_columns rotation_generator pandas_3
           (initial_world (config_with (Yaml.Int 3)) scenario_table)
           (config_with (Yaml.Int 3)) (Yaml.Int 3) scenario_table
           (at_positions (@final_frame pandas_3 scenario_table)
              (List.skipn 3 (Numpy.rotation 42 8)))
           (at_positions (@final_frame pandas_3 scenario_table)
              (List.firstn 3 (Numpy.rotation 42 8)))).
  - reflexivity.
  - reflexivity.
  - reflexivity.
  - exact well_formed_scenario_table.
  - reflexivity.
  - reflexivity.
  - vm_compute. reflexivity.
  - exact destination_free_empty.
Defined.

(** X26: what a complete run writes under sentiment depends on pandas.
    Without copy-on-write both files hold 1 and 0; with copy-on-write they
    hold the strings "happiness" and "sadness", although the run logs that
    the processing is complete and that the data was saved.  In both cases
    the files are the two sides of the split, written without the index. *)
Theorem written_labels_depend_on_copy_on_write `{Numpy.RandomState} `{Pandas.Mode}
    (w : World) (doc v : Yaml.value) (T train test : Pandas.DataFrame) :
  configs w !! "params.yaml" = Some (Document doc) ->
  test_size_of doc = Return v ->
  sources w !! dataset_url = Some (FetchTable T) ->
  Pandas.well_formed T ->
  Pandas.has_column T "tweet_id" = true ->
  Pandas.has_column T "sentiment" = true ->
  Sklearn.split (final_frame T) v 42 = Return (train, test) ->
  destination_free (disk w) ->
  written (snd (main w)) "data/raw/train.csv" = Some (Pandas.to_csv train false) /\
  written (snd (main w)) "data/raw/test.csv" = Some (Pandas.to_csv test false) /\
  labelled_table
    (if Pandas.copy_on_write then happiness_sadness else recoded_labels)
    (List.filter (fun n => negb (String.eqb n "tweet_id")) (Pandas.column_names T))
    (Pandas.to_csv train false) /\
  labelled_table
    (if Pandas.copy_on_write then happiness_sadness else recoded_labels)
    (List.filter (fun n => negb (String.eqb n "tweet_id")) (Pandas.column_names T))
    (Pandas.to_csv test false).
Proof.
  intros Hcfg Hv Hsrc Hwf Hid Hsent Hsplit Hfree.
  destruct (written_tables w doc v T train test Hcfg Hv Hsrc Hwf Hid Hsent Hsplit Hfree)
    as (_ & Htrain & Htest & Ltrain & Ltest).
  split; [exact Htrain|]. split; [exact Htest|]. split; [exact Ltrain | exact Ltest].
Qed.

Lemma written_labels_depend_on_copy_on_write_witness :
  written (snd (@main rotation_generator pandas_2
                  (initial_world (config_with Yaml.Null) scenario_table)))
          "data/raw/train.csv"
  = Some (Pandas.to_csv
            (at_positions (@final_frame pandas_2 scenario_table)
               (List.skipn 2 (Numpy.rotation 42 8))) false) /\
  written (snd (@main rotation_generator pandas_2
                  (initial_world (config_with Yaml.Null) scenario_table)))
          "data/raw/test.csv"
  = Some (Pandas.to_csv
            (at_positions (@final_frame pandas_2 scenario_table)
               (List.firstn 2 (Numpy.rotation 42 8))) false) /\
  labelled_table recoded_labels ["sentiment"; "content"]
    (Pandas.to_csv
       (at_positions (@final_frame pandas_2 scenario_table)
          (List.skipn 2 (Numpy.rotation 42 8))) false) /\
  labelled_table recoded_labels ["sentiment"; "content"]
    (Pandas.to_csv
       (at_positions (@final_frame pandas_2 scenario_table)
          (List.firstn 2 (Numpy.rotation 42 8))) false).
Proof.
  apply (@written_labels_depend_on_copy_on_write rotation_generator pandas_2
           (initial_world (config_with Yaml.Null) scenario_table)
           (config_with Yaml.Null) Yaml.Null scenario_table).
  - reflexivity.
  - reflexivity.
  - reflexivity.
  - exact well_formed_scenario_table.
  - reflexivity.
  - reflexivity.
  - vm_compute. reflexivity.
  - exact destination_free_empty.
Defined.
